(** * gemini_whiteboard: the tool-call dispatcher, the capture framer,
      the recorder life cycle and the audio base64 framing.

    Shallow embedding of
    - [moveTaskByText], [generateElementPosition], [processToolCall],
      [getWhiteboardInfo], [determineKanbanColumn],
      [processWhiteboardToolCall], [validateAndFixElement]
      (tools/whiteboard-tools.ts, the version with priority scoring),
    - [onToolCall] (hooks/useGeminiLive.ts): the copy that lists the names
      it processes and calls the dispatcher without awaiting it, and the
      later copies that await it,
    - [AudioProcessingWorklet] (lib/audio-worklets.ts),
    - [AudioRecorder.start]/[stop] (lib/audio-recorder.ts),
    - [arrayBufferToBase64]/[base64ToArrayBuffer] (lib/audio-utils.ts).

    Conventions.  A JS string is kept as a [string], any one-to-one
    encoding of its code units (the literals are ASCII, or UTF-8 bytes).
    The matcher is written over arbitrary implementations of the string
    primitives it calls ([StringPrimitives]); [JsString] implements them
    for ASCII texts and is what the other functions and the examples use.
    Canvas coordinates are integers ([Z]).  A match score is the rational
    that its double denotes ([Q]); the quotient, the product and the sum
    that build it are rounded as IEEE 754 double precision rounds them
    ([Double]).  Array lengths are exact doubles.  A [Float32Array] sample
    is a rational; multiplying it by 32768 (a power of two) is exact in
    double precision. *)

From Stdlib Require Import ZArith QArith Qround Qpower List String Ascii Bool Lia.
From Stdlib.Strings Require Import Byte.
Import ListNotations.

Local Open Scope Z_scope.

(** ** JavaScript string primitives used by the matcher *)

Module JsString.

(** ASCII members of the [\s] class (also the characters [trim] removes). *)
Definition isSpace (c : ascii) : bool :=
  let n := nat_of_ascii c in
  ((9 <=? n) && (n <=? 13) || (n =? 32))%nat.

Definition lowerChar (c : ascii) : ascii :=
  let n := nat_of_ascii c in
  if ((65 <=? n) && (n <=? 90))%nat then ascii_of_nat (n + 32) else c.

Fixpoint toLowerCase (s : string) : string :=
  match s with
  | EmptyString => EmptyString
  | String c s' => String (lowerChar c) (toLowerCase s')
  end.

Fixpoint trimStart (s : string) : string :=
  match s with
  | EmptyString => EmptyString
  | String c s' => if isSpace c then trimStart s' else s
  end.

Fixpoint trimEnd (s : string) : string :=
  match s with
  | EmptyString => EmptyString
  | String c s' =>
      match trimEnd s' with
      | EmptyString => if isSpace c then EmptyString else String c EmptyString
      | t => String c t
      end
  end.

Definition trim (s : string) : string := trimEnd (trimStart s).

(** [s.includes(sub)] *)
Fixpoint includes (s sub : string) : bool :=
  String.prefix sub s
  || match s with
     | EmptyString => false
     | String _ s' => includes s' sub
     end.

(** [s.split(/\s+/)]: the pieces between maximal runs of white space.
    The empty string gives one empty piece; leading or trailing white
    space gives an empty first or last piece. *)
Fixpoint split (s : string) : list string :=
  match s with
  | EmptyString => [EmptyString]
  | String c s' =>
      if isSpace c then
        match s' with
        | String c' _ => if isSpace c' then split s' else EmptyString :: split s'
        | EmptyString => EmptyString :: split s'
        end
      else
        match split s' with
        | w :: ws => String c w :: ws
        | [] => [String c EmptyString]
        end
  end.

End JsString.

(** The primitives of [String.prototype] that the matcher calls, as a
    parameter.  The matcher below is written over any implementation of
    them; [asciiPrimitives] is the one above. *)
Record StringPrimitives := mkPrimitives {
  primToLowerCase : string -> string;       (* s.toLowerCase() *)
  primTrim : string -> string;              (* s.trim() *)
  primSplit : string -> list string;        (* s.split(/\s+/) *)
  primIncludes : string -> string -> bool;  (* s.includes(sub) *)
  primLength : string -> nat                (* s.length *)
}.

Definition asciiPrimitives : StringPrimitives :=
  mkPrimitives JsString.toLowerCase JsString.trim JsString.split JsString.includes
               String.length.

(** ** Double-precision arithmetic *)

Module Double.

(** A finite [number] is kept as the rational it denotes.  An operation
    rounds its exact result to the nearest binary64 value, ties to the
    even significand (IEEE 754): 53 significant bits, the exponent of the
    leading bit at least -1022 (below that the spacing stays 2^-1074).
    Results stay below 2^1024 here (no score exceeds 110), so no operation
    overflows. *)

(** The exponent of the leading bit of a positive rational:
    2^(ilog2 q) <= q < 2^(ilog2 q + 1). *)
Definition ilog2 (q : Q) : Z :=
  let e0 := Z.log2 (Qnum q) - Z.log2 (Zpos (Qden q)) in
  if Qle_bool (2 ^ e0) q then e0 else e0 - 1.

(** The integer nearest to a rational, the even one of two equally near. *)
Definition nearestEven (q : Q) : Z :=
  let f := Qfloor q in
  match (q - inject_Z f ?= 1 # 2)%Q with
  | Lt => f
  | Gt => f + 1
  | Eq => if Z.even f then f else f + 1
  end.

Definition roundPositive (q : Q) : Q :=
  let u := (2 ^ (Z.max (ilog2 q) (-1022) - 52))%Q in
  (inject_Z (nearestEven (q / u)) * u)%Q.

Definition round (q : Q) : Q :=
  match Qnum q with
  | Z0 => 0%Q
  | Zpos _ => roundPositive q
  | Zneg _ => (- roundPositive (- q))%Q
  end.

(** [a / b], [a * b], [a + b] on numbers.  The matcher divides only by a
    positive count. *)
Definition div (a b : Q) : Q := round (a / b).
Definition mul (a b : Q) : Q := round (a * b).
Definition add (a b : Q) : Q := round (a + b).

End Double.

(** ** The board *)

Inductive ElementType := sticky | flow_node | mermaid | embed.

Inductive KanbanColumn := todo | inprogress | done.

Definition ElementType_eqb (a b : ElementType) : bool :=
  match a, b with
  | sticky, sticky | flow_node, flow_node | mermaid, mermaid | embed, embed => true
  | _, _ => false
  end.

Definition KanbanColumn_eqb (a b : KanbanColumn) : bool :=
  match a, b with
  | todo, todo | inprogress, inprogress | done, done => true
  | _, _ => false
  end.

(** Modelled from the spec: the declarations of types/whiteboard.ts
    ([WhiteboardElement], [WhiteboardData]) are missing from the sources.
    A board element is taken as the JS object the code handles: a variant
    tag, the common fields [id], [x], [y], the two sticky fields the
    matcher reads or writes ([text], [color]; absent on other variants
    unless a spread adds them), and the remaining variant-specific fields,
    which no modelled function touches. *)
Record WhiteboardElement := mkElement {
  id : string;
  type : ElementType;
  x : Z;
  y : Z;
  text : option string;
  color : option string;
  rest : list (string * string)
}.

Record WhiteboardData := mkData { elements : list WhiteboardElement }.

(** ** generateElementPosition *)

Definition kanbanColumns (column : KanbanColumn) : Z :=
  match column with todo => 100 | inprogress => 460 | done => 820 end.

Definition startY : Z := 180.
Definition spacingY : Z := 90.

Definition generateElementPosition (index : Z) (column : KanbanColumn) : Z * Z :=
  (kanbanColumns column, startY + index * spacingY).

(** ** moveTaskByText *)

(** [getCurrentColumn]; [None] is the source's ["other"]. *)
Definition getCurrentColumn (task : WhiteboardElement) : option KanbanColumn :=
  if (60 <=? x task) && (x task <=? 380) then Some todo
  else if (420 <=? x task) && (x task <=? 740) then Some inprogress
  else if (780 <=? x task) && (x task <=? 1100) then Some done
  else None.

Definition column_eqb (c : option KanbanColumn) (t : KanbanColumn) : bool :=
  match c with
  | Some c' => KanbanColumn_eqb c' t
  | None => false
  end.

(** Sticky tasks, excluding the summary notes at [y >= 650]. *)
Definition isStickyTask (el : WhiteboardElement) : bool :=
  ElementType_eqb (type el) sticky && (y el <? 650).

Definition allStickyTasks (currentData : WhiteboardData) : list WhiteboardElement :=
  filter isStickyTask (elements currentData).

Definition Qnat (n : nat) : Q := inject_Z (Z.of_nat n).

(** A [number] score is the rational its double denotes. *)
Record Candidate := mkCandidate {
  task : WhiteboardElement;
  score : Q;
  currentColumn : option KanbanColumn
}.

Definition Qgt_bool (a b : Q) : bool := negb (Qle_bool a b).

(** [candidatesWithScores.sort((a, b) => b.score - a.score)]: the sort is
    stable, so it is the insertion sort that puts an element before the
    first one that does not score more.  The difference of two doubles is
    zero only when they are equal, so its sign is that of the exact
    difference. *)
Fixpoint insertByScore (c : Candidate) (l : list Candidate) : list Candidate :=
  match l with
  | [] => [c]
  | d :: l' =>
      if Qle_bool (score d) (score c) then c :: l
      else d :: insertByScore c l'
  end.

Definition sortByScore (l : list Candidate) : list Candidate :=
  fold_right insertByScore [] l.

Module Matcher.

Section WithPrimitives.

Variable P : StringPrimitives.

Definition searchTextLower (taskText : string) : string :=
  primTrim P (primToLowerCase P taskText).

(** Only the search words longer than two characters. *)
Definition searchWords (taskText : string) : list string :=
  filter (fun word => (2 <? primLength P word)%nat)
         (primSplit P (searchTextLower taskText)).

(** [(el as any).text?.toLowerCase().trim() || ""] *)
Definition taskTextLower (el : WhiteboardElement) : string :=
  match text el with
  | Some t => primTrim P (primToLowerCase P t)
  | None => EmptyString
  end.

Definition wordsMatch (searchWord taskWord : string) : bool :=
  primIncludes P taskWord searchWord || primIncludes P searchWord taskWord.

Definition matchingWords (sWords tWords : list string) : list string :=
  filter (fun searchWord => existsb (wordsMatch searchWord) tWords) sWords.

(** The score before the column bonus. *)
Definition textScore (taskText : string) (el : WhiteboardElement) : Q :=
  let tLower := taskTextLower el in
  let sLower := searchTextLower taskText in
  let taskWords := primSplit P tLower in
  if String.eqb tLower sLower then 100%Q
  else if primIncludes P tLower sLower then 80%Q
  else if primIncludes P sLower tLower then 70%Q
  else
    let matching := matchingWords (searchWords taskText) taskWords in
    if (0 <? List.length matching)%nat then
      Double.mul
        (Double.div (Qnat (List.length matching))
                    (Qnat (Nat.max (List.length (searchWords taskText))
                                   (List.length taskWords))))
        60
    else 0%Q.

(** The body of the [map] callback. *)
Definition scoreCandidate (taskText : string) (targetColumn : KanbanColumn)
    (el : WhiteboardElement) : Candidate :=
  let s := textScore taskText el in
  let col := getCurrentColumn el in
  mkCandidate el (if column_eqb col targetColumn then s else Double.add s 10) col.

Definition candidatesWithScores (currentData : WhiteboardData) (taskText : string)
    (targetColumn : KanbanColumn) : list Candidate :=
  sortByScore
    (filter (fun candidate => Qgt_bool (score candidate) 20)
            (map (scoreCandidate taskText targetColumn) (allStickyTasks currentData))).

Definition bestCandidate (currentData : WhiteboardData) (taskText : string)
    (targetColumn : KanbanColumn) : option Candidate :=
  hd_error (candidatesWithScores currentData taskText targetColumn).

End WithPrimitives.

End Matcher.

(** The matcher over the primitives of [JsString]. *)
Definition searchTextLower : string -> string :=
  Matcher.searchTextLower asciiPrimitives.

Definition searchWords : string -> list string :=
  Matcher.searchWords asciiPrimitives.

Definition taskTextLower : WhiteboardElement -> string :=
  Matcher.taskTextLower asciiPrimitives.

Definition wordsMatch : string -> string -> bool :=
  Matcher.wordsMatch asciiPrimitives.

Definition matchingWords : list string -> list string -> list string :=
  Matcher.matchingWords asciiPrimitives.

Definition textScore : string -> WhiteboardElement -> Q :=
  Matcher.textScore asciiPrimitives.

Definition scoreCandidate : string -> KanbanColumn -> WhiteboardElement -> Candidate :=
  Matcher.scoreCandidate asciiPrimitives.

Definition candidatesWithScores
    : WhiteboardData -> string -> KanbanColumn -> list Candidate :=
  Matcher.candidatesWithScores asciiPrimitives.

Definition bestCandidate : WhiteboardData -> string -> KanbanColumn -> option Candidate :=
  Matcher.bestCandidate asciiPrimitives.

Definition columnColor (targetColumn : KanbanColumn) : string :=
  match targetColumn with
  | todo => "yellow"
  | inprogress => "orange"
  | done => "green"
  end.

(** The elements that occupy a slot of the target column: everything but
    the task being moved that lies within 50 of the column's x and between
    the first row and the summary area. *)
Definition tasksInTargetColumn (currentData : WhiteboardData)
    (taskToMove : WhiteboardElement) (targetX : Z) : list WhiteboardElement :=
  filter (fun el =>
            negb (String.eqb (id el) (id taskToMove))
            && (Z.abs (x el - targetX) <? 50)
            && (180 <=? y el)
            && (y el <? 650))
         (elements currentData).

(** [{ ...el, x: targetX, y: newY, color: newColor }] *)
Definition moveElement (el : WhiteboardElement) (targetX newY : Z) (newColor : string)
    : WhiteboardElement :=
  mkElement (id el) (type el) targetX newY (text el) (Some newColor) (rest el).

Definition updatedElements (currentData : WhiteboardData) (taskToMove : WhiteboardElement)
    (targetX newY : Z) (newColor : string) : list WhiteboardElement :=
  map (fun el =>
         if String.eqb (id el) (id taskToMove)
         then moveElement el targetX newY newColor
         else el)
      (elements currentData).

(** What [moveTaskByText] returns: the very object it was given
    ([return currentData]) or a freshly built one.  The caller tells them
    apart by reference ([moveResult !== currentData]). *)
Inductive MoveResult :=
| SameData
| NewData (result : WhiteboardData).

Definition moveTaskByText (currentData : WhiteboardData) (taskText : string)
    (targetColumn : KanbanColumn) : MoveResult :=
  match bestCandidate currentData taskText targetColumn with
  | None => SameData
  | Some best =>
      let taskToMove := task best in
      if column_eqb (currentColumn best) targetColumn then SameData
      else
        let targetX := fst (generateElementPosition 0 targetColumn) in
        let newY :=
          180 + Z.of_nat (List.length (tasksInTargetColumn currentData taskToMove targetX)) * 90 in
        NewData (mkData (updatedElements currentData taskToMove targetX newY
                                         (columnColor targetColumn)))
  end.

(** The snapshot the board holds after the call. *)
Definition resultData (currentData : WhiteboardData) (r : MoveResult) : WhiteboardData :=
  match r with
  | SameData => currentData
  | NewData d => d
  end.

(** ** The matching algorithm as the specification words it *)

Module Spec.

Definition columnOf (px : Z) : option KanbanColumn :=
  if Z_le_dec 60 px then
    if Z_le_dec px 380 then Some todo
    else if Z_le_dec 420 px then
      if Z_le_dec px 740 then Some inprogress
      else if Z_le_dec 780 px then
        if Z_le_dec px 1100 then Some done else None
      else None
    else None
  else None.

Section Scoring.

Variable P : StringPrimitives.

(** "tokenize into words of length > 2" *)
Definition tokens (s : string) : list string :=
  filter (fun w => (3 <=? primLength P w)%nat) (primSplit P s).

Definition normalise (s : string) : string :=
  primTrim P (primToLowerCase P s).

Definition candidateText (el : WhiteboardElement) : string :=
  match text el with
  | Some t => normalise t
  | None => EmptyString
  end.

(** A search word matches when it appears in, or contains, one of the
    words of the other side. *)
Definition appears (w : string) (others : list string) : bool :=
  existsb (fun o => primIncludes P o w || primIncludes P w o) others.

Fixpoint countMatching (ws others : list string) : nat :=
  match ws with
  | [] => 0
  | w :: ws' => ((if appears w others then 1 else 0) + countMatching ws' others)%nat
  end.

(** How the candidate's text is cut into words: [tokens] in the
    specification's wording. *)
Variable candidateTokens : string -> list string.

(** "(count of matching words / max(...)) * 60", evaluated on numbers. *)
Definition wordScore (phrase candidate : string) : Q :=
  let st := tokens phrase in
  let ct := candidateTokens candidate in
  Double.mul
    (Double.div (Qnat (countMatching st ct))
                (Qnat (Nat.max (List.length st) (List.length ct))))
    60.

Definition baseScore (phrase candidate : string) : Q :=
  if string_dec candidate phrase then 100%Q
  else if primIncludes P candidate phrase then 80%Q
  else if primIncludes P phrase candidate then 70%Q
  else wordScore phrase candidate.

(** "then +10 is added if the candidate's derived column differs from the
    requested target column" *)
Definition score (phrase : string) (target : KanbanColumn) (el : WhiteboardElement) : Q :=
  let base := baseScore (normalise phrase) (candidateText el) in
  match columnOf (x el) with
  | Some c => if KanbanColumn_eqb c target then base else Double.add base 10
  | None => Double.add base 10
  end.

End Scoring.

(** "the count of other task-stickies already in that column": the
    stickies above the summary area, other than the one moved, whose
    derived column is the target. *)
Definition otherTaskStickies (data : WhiteboardData) (moved : WhiteboardElement)
    (target : KanbanColumn) : nat :=
  List.length
    (filter (fun el =>
               isStickyTask el
               && column_eqb (getCurrentColumn el) target
               && negb (String.eqb (id el) (id moved)))
            (elements data)).

(** The slots taken next to a column: the elements of any kind, other
    than the one moved, less than 50 away from the column's x and with
    180 <= y < 650. *)
Definition takesSlot (movedId : string) (target : KanbanColumn) (el : WhiteboardElement)
    : Prop :=
  id el <> movedId
  /\ - 50 < x el - kanbanColumns target < 50
  /\ 180 <= y el < 650.

Fixpoint slotsTaken (movedId : string) (target : KanbanColumn)
    (els : list WhiteboardElement) : Z :=
  match els with
  | [] => 0
  | el :: els' =>
      (if string_dec (id el) movedId then 0
       else if Z_lt_dec (- 50) (x el - kanbanColumns target) then
         if Z_lt_dec (x el - kanbanColumns target) 50 then
           if Z_le_dec 180 (y el) then
             if Z_lt_dec (y el) 650 then 1 else 0
           else 0
         else 0
       else 0)
      + slotsTaken movedId target els'
  end.

End Spec.

(** ** processToolCall *)

(** The result of running code that may throw. *)
Inductive Completion (A : Type) :=
| Normal (value : A)
| Throw (message : string).
Arguments Normal {A} value.
Arguments Throw {A} message.

(** The argument bag of a call.  The declared tools give [move_task] the
    fields [taskText], [targetColumn], [reasoning] and [get_whiteboard_info]
    the fields [query], [column]; any other bag is kept opaque. *)
Inductive ToolArgs :=
| MoveTaskArgs (taskText : string) (targetColumn : KanbanColumn) (reasoning : string)
| WhiteboardInfoArgs (query : string) (column : option string)
| OtherArgs (fields : list (string * string)).

Inductive ResponseDetail :=
| FoundMatching (count : nat)
| MovedTask (taskMoved : string) (targetColumn : KanbanColumn)
| CouldNotMove (searchText : string) (targetColumn : KanbanColumn)
| WhiteboardUpdated
| JiraNotAvailable
| UnknownTool (toolName : string)
| Failed (message : string)
| JiraReply (payload : string).

Record ToolResponse := mkResponse { success : bool; detail : ResponseDetail }.

Record ToolResult := mkResult {
  newData : option WhiteboardData;
  response : ToolResponse
}.

Definition inColumn (column : KanbanColumn) (el : WhiteboardElement) : bool :=
  match column with
  | todo => (60 <=? x el) && (x el <=? 380)
  | inprogress => (420 <=? x el) && (x el <=? 740)
  | done => (780 <=? x el) && (x el <=? 1100)
  end.

Definition isSticky (el : WhiteboardElement) : bool := ElementType_eqb (type el) sticky.

(** [getWhiteboardInfo]: the stickies of the asked column whose text
    contains the query.  Reading [text] of a sticky that has none throws. *)
Definition getWhiteboardInfo (currentData : WhiteboardData) (query : string)
    (column : option string) : Completion (list WhiteboardElement) :=
  let allTasks := filter isSticky (elements currentData) in
  let filteredTasks :=
    match column with
    | Some c =>
        if String.eqb c "todo" then filter (inColumn todo) allTasks
        else if String.eqb c "inprogress" then filter (inColumn inprogress) allTasks
        else if String.eqb c "done" then filter (inColumn done) allTasks
        else allTasks
    | None => allTasks
    end in
  let queryLower := JsString.toLowerCase query in
  if forallb (fun el => match text el with Some _ => true | None => false end) filteredTasks
  then Normal (filter (fun el =>
                         match text el with
                         | Some t => JsString.includes (JsString.toLowerCase t) queryLower
                         | None => false
                         end) filteredTasks)
  else Throw "Cannot read properties of undefined".

Definition jiraToolNames : list string :=
  ["sync_jira_board"; "update_jira_from_standup"; "get_team_workload";
   "create_standup_summary"]%string.

Definition includesName (names : list string) (n : string) : bool :=
  existsb (String.eqb n) names.

(** The text reported back after a move: that of the first sticky near the
    target x whose text contains the search text, else the search text. *)
Definition actualTaskText (moveResult : WhiteboardData) (taskText : string)
    (targetColumn : KanbanColumn) : string :=
  let targetX := kanbanColumns targetColumn in
  match find (fun el =>
                isSticky el
                && (Z.abs (x el - targetX) <? 50)
                && match text el with
                   | Some t => JsString.includes (JsString.toLowerCase t)
                                                 (JsString.toLowerCase taskText)
                   | None => false
                   end)
             (elements moveResult) with
  | Some movedTask =>
      match text movedTask with
      | Some t => t
      | None => EmptyString
      end
  | None => taskText
  end.

Section Dispatcher.

(** Collaborators taken as parameters: the MCP availability flag and the
    Jira dispatcher (tools/jira-whiteboard-tools.ts, network bound), and
    [processWhiteboardToolCall], whose result depends on the clock
    ([Date.now()] identifiers) and on a loosely typed element bag.  No
    property below depends on what they return. *)
Variable isMCPAvailable : bool.
Variable processJiraToolCall : WhiteboardData -> string -> ToolArgs -> Completion ToolResult.
Variable processWhiteboardToolCall : WhiteboardData -> ToolArgs -> Completion WhiteboardData.

Definition processToolCall (currentData : WhiteboardData) (toolName : string)
    (toolArgs : ToolArgs) : Completion ToolResult :=
  if includesName jiraToolNames toolName then
    if negb isMCPAvailable
    then Normal (mkResult None (mkResponse false JiraNotAvailable))
    else processJiraToolCall currentData toolName toolArgs
  else if String.eqb toolName "get_whiteboard_info" then
    match toolArgs with
    | WhiteboardInfoArgs query column =>
        match getWhiteboardInfo currentData query column with
        | Normal info =>
            Normal (mkResult None (mkResponse true (FoundMatching (List.length info))))
        | Throw m => Throw m
        end
    | _ => Throw "Cannot read properties of undefined"
    end
  else if String.eqb toolName "move_task" then
    match toolArgs with
    | MoveTaskArgs taskText targetColumn reasoning =>
        match moveTaskByText currentData taskText targetColumn with
        | NewData moveResult =>
            Normal (mkResult (Some moveResult)
                      (mkResponse true
                         (MovedTask (actualTaskText moveResult taskText targetColumn)
                                    targetColumn)))
        | SameData =>
            Normal (mkResult None (mkResponse false (CouldNotMove taskText targetColumn)))
        end
    | _ => Throw "Cannot read properties of undefined"
    end
  else if String.eqb toolName "update_whiteboard" then
    match processWhiteboardToolCall currentData toolArgs with
    | Normal updatedData =>
        Normal (mkResult (Some updatedData) (mkResponse true WhiteboardUpdated))
    | Throw m => Throw m
    end
  else Normal (mkResult None (mkResponse false (UnknownTool toolName))).

End Dispatcher.

(** ** onToolCall *)

Record FunctionCall := mkCall {
  callId : string;
  name : string;
  args : option ToolArgs
}.

(** An entry of [functionResponses]; [response: undefined] is [None]. *)
Record FunctionResponse := mkFunctionResponse {
  responseName : string;
  responseId : string;
  payload : option ToolResponse
}.

(** A call made to one of the board update handlers. *)
Inductive Publication :=
| SetWhiteboardData (newData : WhiteboardData)
| UpdateWhiteboardFromGemini (callArgs : option ToolArgs)
| OnWhiteboardUpdate (newData : WhiteboardData).

(** A text prompt that a timer will send to the session: the one that
    makes the model acknowledge the team a Jira response lists, and the
    one that makes it go on with the standup after a move. *)
Inductive FollowUp :=
| TeamAcknowledgement (response : ToolResponse)
| ContinueStandup.

(** What a handler does to the world: the messages handed to
    [sendToolResponse], the calls made to the board update handlers, and
    the timers set ([setTimeout], with the delay in milliseconds), oldest
    first. *)
Record HandlerState := mkHandler {
  sent : list (list FunctionResponse);
  published : list Publication;
  scheduled : list (FollowUp * Z)
}.

(** Modelled from the spec: lib/gemini-live-client.ts is missing from the
    sources; [sendToolResponse] hands the responses to the session and
    returns. *)
Definition sendToolResponse (st : HandlerState) (rs : list FunctionResponse) : HandlerState :=
  mkHandler (sent st ++ [rs]) (published st) (scheduled st).

Definition publish (st : HandlerState) (p : Publication) : HandlerState :=
  mkHandler (sent st) (published st ++ [p]) (scheduled st).

Definition setTimeout (st : HandlerState) (prompt : FollowUp) (delay : Z) : HandlerState :=
  mkHandler (sent st) (published st) (scheduled st ++ [(prompt, delay)]).

Definition errorResponse (call : FunctionCall) (message : string) : FunctionResponse :=
  mkFunctionResponse (name call) (callId call) (Some (mkResponse false (Failed message))).

(** [call.args], which the dispatcher reads fields of. *)
Definition argsOf (call : FunctionCall) : ToolArgs :=
  match args call with Some a => a | None => OtherArgs [] end.

(** *** The handler that lists the names it processes
    (hooks/useGeminiLive.ts, lines 151-263) *)

Definition handledNames : list string :=
  ["update_whiteboard"; "get_whiteboard_info"; "move_task"]%string.

(** The body of the [forEach] callback.  It calls [processToolCall], an
    [async] function, without [await]: [result] is a promise, so
    [result.response] and [result.newData] are [undefined] whatever the
    dispatcher computes, no update handler is called, and a failure of the
    dispatcher rejects the promise instead of reaching the [catch]. *)
Definition handleCall (st : HandlerState) (call : FunctionCall) : HandlerState :=
  if includesName handledNames (name call) then
    sendToolResponse st [mkFunctionResponse (name call) (callId call) None]
  else st.

Definition onToolCall (st : HandlerState) (functionCalls : option (list FunctionCall))
    : HandlerState :=
  match functionCalls with
  | Some calls => fold_left handleCall calls st
  | None => st
  end.

(** *** The handler that awaits the dispatcher
    (the latest copy of hooks/useGeminiLive.ts; the copy before it is the
    same loop without the two timers) *)


Module Awaiting.

Section Handler.

Variable isMCPAvailable : bool.
Variable processJiraToolCall : WhiteboardData -> string -> ToolArgs -> Completion ToolResult.
Variable processWhiteboardToolCall : WhiteboardData -> ToolArgs -> Completion WhiteboardData.

(** What [window.getCurrentWhiteboardData?.()] returns when a call is
    processed; [None] when the function is not installed.  The handler
    suspends at each [await], so the board it reads is whatever the page
    holds by then. *)
Variable getCurrentWhiteboardData : HandlerState -> option WhiteboardData.

(** The update handlers that are installed, each with the way a call to
    it ends: [window.setWhiteboardData], [window.updateWhiteboardFromGemini]
    and the hook's [onWhiteboardUpdate] callback. *)
Variable setWhiteboardData : option (WhiteboardData -> Completion unit).
Variable updateWhiteboardFromGemini : option (option ToolArgs -> Completion unit).
Variable onWhiteboardUpdate : option (WhiteboardData -> Completion unit).

(** Whether a response lists team members ([REAL_TEAM_MEMBERS] or
    [DISCOVERED_TEAM_MEMBERS], fields of the Jira tools' responses, which
    are kept opaque here). *)
Variable listsTeamMembers : ToolResponse -> bool.

(** The two timers set after the response was sent. *)
Definition followUps (st : HandlerState) (call : FunctionCall) (result : ToolResult)
    : HandlerState :=
  let st1 :=
    if (String.eqb (name call) "sync_jira_board" || String.eqb (name call) "get_team_workload")
       && success (response result) && listsTeamMembers (response result)
    then setTimeout st (TeamAcknowledgement (response result)) 300
    else st in
  if String.eqb (name call) "move_task" && success (response result)
  then setTimeout st1 ContinueStandup 200
  else st1.

(** The update made for a call that produced new data: the call made and
    how it ends; [None] when no handler is installed. *)
Definition whiteboardUpdate (call : FunctionCall) (d : WhiteboardData)
    : option (Publication * Completion unit) :=
  if String.eqb (name call) "move_task" || String.eqb (name call) "sync_jira_board" then
    match setWhiteboardData with
    | Some handler => Some (SetWhiteboardData d, handler d)
    | None => None
    end
  else
    match updateWhiteboardFromGemini with
    | Some handler => Some (UpdateWhiteboardFromGemini (args call), handler (args call))
    | None =>
        match onWhiteboardUpdate with
        | Some handler => Some (OnWhiteboardUpdate d, handler d)
        | None => None
        end
    end.

(** The body of the [for] loop: the [try] block and its [catch]. *)
Definition handleCall (st : HandlerState) (call : FunctionCall) : HandlerState :=
  let currentData :=
    match getCurrentWhiteboardData st with
    | Some d => d
    | None => mkData []
    end in
  match processToolCall isMCPAvailable processJiraToolCall processWhiteboardToolCall
                        currentData (name call) (argsOf call) with
  | Normal result =>
      let st1 :=
        sendToolResponse st
          [mkFunctionResponse (name call) (callId call) (Some (response result))] in
      let st2 := followUps st1 call result in
      match newData result with
      | Some d =>
          match whiteboardUpdate call d with
          | Some (p, Normal _) => publish st2 p
          | Some (p, Throw m) => sendToolResponse (publish st2 p) [errorResponse call m]
          | None => st2
          end
      | None => st2
      end
  | Throw m => sendToolResponse st [errorResponse call m]
  end.

Definition onToolCall (st : HandlerState) (functionCalls : option (list FunctionCall))
    : HandlerState :=
  match functionCalls with
  | Some calls => fold_left handleCall calls st
  | None => st
  end.

End Handler.



End Awaiting.

(** ** The capture framer (AudioProcessingWorklet) *)

Module Worklet.

(** Storing a number into an [Int16Array] slot: truncate toward zero,
    reduce modulo 2^16, read as signed. *)
Definition truncate (q : Q) : Z := Z.quot (Qnum q) (Zpos (Qden q)).

Definition ToInt16 (n : Z) : Z :=
  let m := n mod 65536 in
  if m <? 32768 then m else m - 65536.

(** [buf[i] = v] on a typed array; an index past the end is ignored. *)
Fixpoint setAt (buf : list Z) (i : nat) (v : Z) : list Z :=
  match buf, i with
  | [], _ => []
  | _ :: buf', O => v :: buf'
  | b :: buf', S i' => b :: setAt buf' i' v
  end.

(** The processor and the messages its port has posted, oldest first.
    A posted chunk is the sample sequence of its [ArrayBuffer]. *)
Record AudioProcessingWorklet := mkWorklet {
  buffer : list Z;
  bufferWriteIndex : nat;
  posted : list (list Z)
}.

Definition constructor : AudioProcessingWorklet :=
  mkWorklet (repeat 0 2048) 0 [].

Definition byteLength (chunk : list Z) : nat := 2 * List.length chunk.

Definition sendAndClearBuffer (w : AudioProcessingWorklet) : AudioProcessingWorklet :=
  mkWorklet (buffer w) 0
            (posted w ++ [firstn (bufferWriteIndex w) (buffer w)]).

(** [float32Array[i] * 32768] *)
Definition int16Value (sample : Q) : Q := (sample * 32768)%Q.

(** The value an input sample leaves in the buffer. *)
Definition storedSample (sample : Q) : Z := ToInt16 (truncate (int16Value sample)).

(** One turn of the loop in [processChunk]. *)
Definition processSample (w : AudioProcessingWorklet) (sample : Q)
    : AudioProcessingWorklet :=
  let w' := mkWorklet (setAt (buffer w) (bufferWriteIndex w) (storedSample sample))
                      (S (bufferWriteIndex w)) (posted w) in
  if (List.length (buffer w') <=? bufferWriteIndex w')%nat
  then sendAndClearBuffer w' else w'.

Definition processChunk (w : AudioProcessingWorklet) (float32Array : list Q)
    : AudioProcessingWorklet :=
  let w' := fold_left processSample float32Array w in
  if (List.length (buffer w') <=? bufferWriteIndex w')%nat
  then sendAndClearBuffer w' else w'.

(** [process(inputs)], given [inputs[0]], the channels of the first input. *)
Definition process (w : AudioProcessingWorklet) (input0 : list (list Q))
    : AudioProcessingWorklet :=
  match input0 with
  | channel0 :: _ => processChunk w channel0
  | [] => w
  end.

(** The samples a render quantum feeds to the framer. *)
Definition samplesOf (input0 : list (list Q)) : nat :=
  match input0 with
  | channel0 :: _ => List.length channel0
  | [] => 0%nat
  end.

Definition totalSamples (frames : list (list (list Q))) : nat :=
  fold_right (fun f n => (samplesOf f + n)%nat) 0%nat frames.

Definition run (frames : list (list (list Q))) : AudioProcessingWorklet :=
  fold_left process frames constructor.

End Worklet.

(** ** The audio recorder life cycle *)

Module AudioRecorder.

(** The fields [start] and [stop] read and write, and around them what
    the calls do to the world: how often the device was asked for
    ([getUserMedia]), which promises were created, which streams were
    stopped, and the [stop] handlers waiting on a promise. *)
Record Recorder := mkRecorder {
  stream : option nat;
  isRecording : bool;
  starting : option nat;
  acquisitions : nat;
  nextPromise : nat;
  stopped : list nat;
  waiting : list nat
}.

Definition constructor : Recorder :=
  mkRecorder None false None 0 0 [] [].

Inductive Event :=
| CallStart                       (* start() is called *)
| StreamGranted (p : nat)         (* getUserMedia of promise p resolves *)
| Settled (p : nat) (ok : bool)   (* the executor of promise p ends *)
| CallStop.                       (* stop() is called *)

(** [start()] up to its first suspension: the executor runs at once and
    calls [getUserMedia]; the new promise is stored in [starting] and
    returned.  Without [navigator.mediaDevices] the call throws. *)
Definition start (hasMediaDevices : bool) (r : Recorder) : Recorder * Completion nat :=
  if negb hasMediaDevices then (r, Throw "Could not request user media")
  else
    let p := nextPromise r in
    (mkRecorder (stream r) (isRecording r) (Some p)
                (S (acquisitions r)) (S p) (stopped r) (waiting r),
     Normal p).

Definition handleStop (r : Recorder) : Recorder :=
  mkRecorder None false (starting r) (acquisitions r) (nextPromise r)
             (match stream r with Some s => stopped r ++ [s] | None => stopped r end)
             (waiting r).

Definition stop (r : Recorder) : Recorder :=
  match starting r with
  | Some p =>
      mkRecorder (stream r) (isRecording r) (starting r) (acquisitions r)
                 (nextPromise r) (stopped r) (waiting r ++ [p])
  | None => handleStop r
  end.

(** The stream of promise [p] is stored in [this.stream]. *)
Definition granted (p : nat) (r : Recorder) : Recorder :=
  mkRecorder (Some p) (isRecording r) (starting r) (acquisitions r)
             (nextPromise r) (stopped r) (waiting r).

(** The executor of [p] ends: [isRecording] is set on success, [starting]
    is cleared in either case, then the [stop] handlers waiting on [p]
    run. *)
Definition settled (p : nat) (ok : bool) (r : Recorder) : Recorder :=
  let r1 := mkRecorder (stream r) (if ok then true else isRecording r) None
                       (acquisitions r) (nextPromise r) (stopped r)
                       (filter (fun q => negb (Nat.eqb q p)) (waiting r)) in
  fold_left (fun acc _ => handleStop acc)
            (filter (Nat.eqb p) (waiting r)) r1.

Definition step (hasMediaDevices : bool) (r : Recorder) (e : Event) : Recorder :=
  match e with
  | CallStart => fst (start hasMediaDevices r)
  | StreamGranted p => granted p r
  | Settled p ok => settled p ok r
  | CallStop => stop r
  end.

Definition run (hasMediaDevices : bool) (events : list Event) (r : Recorder) : Recorder :=
  fold_left (step hasMediaDevices) events r.

Definition isStart (e : Event) : bool :=
  match e with CallStart => true | _ => false end.

Definition startCalls (events : list Event) : nat :=
  List.length (filter isStart events).

End AudioRecorder.

(** ** The base64 framing of outbound audio (audio-utils.ts) *)

Module Base64.

Local Open Scope N_scope.

(** The base64 alphabet of [btoa]/[atob]. *)
Definition sextetChar (n : N) : ascii :=
  if n <? 26 then ascii_of_N (65 + n)
  else if n <? 52 then ascii_of_N (97 + (n - 26))
  else if n <? 62 then ascii_of_N (48 + (n - 52))
  else if n =? 62 then "+"%char
  else "/"%char.

Definition charSextet (c : ascii) : option N :=
  let k := N_of_ascii c in
  if (65 <=? k) && (k <=? 90) then Some (k - 65)
  else if (97 <=? k) && (k <=? 122) then Some (k - 97 + 26)
  else if (48 <=? k) && (k <=? 57) then Some (k - 48 + 52)
  else if k =? 43 then Some 62
  else if k =? 47 then Some 63
  else None.

Definition pad : ascii := "="%char.

(** [window.btoa], a function of the platform, on a binary string: three
    characters become four sextets; one or two left-over characters are
    padded with [=]. *)
Fixpoint btoaChars (binary : list ascii) : list ascii :=
  match binary with
  | [] => []
  | [a] =>
      let n := N_of_ascii a * 65536 in
      [sextetChar (n / 262144); sextetChar (n / 4096 mod 64); pad; pad]
  | [a; b] =>
      let n := N_of_ascii a * 65536 + N_of_ascii b * 256 in
      [sextetChar (n / 262144); sextetChar (n / 4096 mod 64);
       sextetChar (n / 64 mod 64); pad]
  | a :: b :: c :: binary' =>
      let n := N_of_ascii a * 65536 + N_of_ascii b * 256 + N_of_ascii c in
      sextetChar (n / 262144) :: sextetChar (n / 4096 mod 64)
        :: sextetChar (n / 64 mod 64) :: sextetChar (n mod 64)
        :: btoaChars binary'
  end.

Definition btoa (binary : string) : string :=
  string_of_list_ascii (btoaChars (list_ascii_of_string binary)).

(** [window.atob], a function of the platform (the forgiving base64
    decoding of the HTML standard): ASCII white space is
    removed; if the length is then a multiple of four, one or two final
    [=] are removed; a length of 4k+1 or a character outside the
    alphabet is an error ([None]); the sextets are regrouped into bytes,
    the surplus bits of a final group of two or three being dropped. *)
Definition isAsciiWhitespace (c : ascii) : bool :=
  let k := N_of_ascii c in
  (k =? 9) || (k =? 10) || (k =? 12) || (k =? 13) || (k =? 32).

Definition isPad (c : ascii) : bool := Ascii.eqb c pad.

Definition dropPadding (data : list ascii) : list ascii :=
  match rev data with
  | c1 :: c2 :: r =>
      if isPad c1 then (if isPad c2 then rev r else rev (c2 :: r)) else data
  | [c1] => if isPad c1 then [] else data
  | [] => data
  end.

Fixpoint sextetsOf (data : list ascii) : option (list N) :=
  match data with
  | [] => Some []
  | c :: data' =>
      match charSextet c, sextetsOf data' with
      | Some s, Some ss => Some (s :: ss)
      | _, _ => None
      end
  end.

Fixpoint bytesOfSextets (ss : list N) : list ascii :=
  match ss with
  | s1 :: s2 :: s3 :: s4 :: ss' =>
      let n := s1 * 262144 + s2 * 4096 + s3 * 64 + s4 in
      ascii_of_N (n / 65536) :: ascii_of_N (n / 256 mod 256)
        :: ascii_of_N (n mod 256) :: bytesOfSextets ss'
  | [s1; s2; s3] =>
      let n := (s1 * 4096 + s2 * 64 + s3) / 4 in
      [ascii_of_N (n / 256); ascii_of_N (n mod 256)]
  | [s1; s2] =>
      let n := (s1 * 64 + s2) / 16 in
      [ascii_of_N n]
  | _ => []
  end.

Definition atob (base64 : string) : option string :=
  let data := filter (fun c => negb (isAsciiWhitespace c)) (list_ascii_of_string base64) in
  let data := if (N.of_nat (List.length data) mod 4 =? 0) then dropPadding data else data in
  if N.of_nat (List.length data) mod 4 =? 1 then None
  else
    match sextetsOf data with
    | Some ss => Some (string_of_list_ascii (bytesOfSextets ss))
    | None => None
    end.

(** [arrayBufferToBase64]: the bytes become the characters of a binary
    string ([String.fromCharCode]), which [btoa] encodes. *)
Definition arrayBufferToBase64 (buffer : list byte) : string :=
  btoa (string_of_list_byte buffer).

(** [base64ToArrayBuffer]: [atob], then each character's code becomes a
    byte.  [None] when [atob] throws. *)
Definition base64ToArrayBuffer (base64 : string) : option (list byte) :=
  match atob base64 with
  | Some binaryString => Some (list_byte_of_string binaryString)
  | None => None
  end.

End Base64.

(** ** Invariants and sample boards used below *)

(** The state after [total] samples, for a buffer of [n] slots. *)
Definition framed (n total : nat) (w : Worklet.AudioProcessingWorklet) : Prop :=
  List.length (Worklet.buffer w) = n
  /\ (Worklet.bufferWriteIndex w < n)%nat
  /\ (List.length (Worklet.posted w) * n + Worklet.bufferWriteIndex w = total)%nat
  /\ Forall (fun chunk => List.length chunk = n) (Worklet.posted w).

(** The promise in flight, if any, was created by an earlier [start()]. *)
Definition fresh (r : AudioRecorder.Recorder) : Prop :=
  forall p, AudioRecorder.starting r = Some p -> (p < AudioRecorder.nextPromise r)%nat.

(** No character of the text is removed by [atob]'s white-space pass. *)
Definition spaceFree (cs : list ascii) : Prop :=
  Forall (fun c => Base64.isAsciiWhitespace c = false) cs.

(** The shape of [btoa]'s output: the characters of a sextet list that
    regroups into the input, then no, one or two [=]. *)
Definition encodes (binary : list ascii) (ss : list N) (tail : list ascii) : Prop :=
  Base64.btoaChars binary = map Base64.sextetChar ss ++ tail
  /\ Forall (fun s => (s < 64)%N) ss
  /\ (tail = [] \/ (ss <> [] /\ (tail = [Base64.pad] \/ tail = [Base64.pad; Base64.pad])))
  /\ (N.of_nat (List.length ss + List.length tail) mod 4 = 0)%N
  /\ (N.of_nat (List.length ss) mod 4 <> 1)%N
  /\ Base64.bytesOfSextets ss = binary.

(** The two candidates of the payment-gateway example, both in To Do. *)
Definition gatewayBoard : WhiteboardData :=
  mkData [mkElement "task-1" sticky 100 180 (Some "Integrate payment gateway"%string)
                    (Some "yellow"%string) [];
          mkElement "task-2" sticky 100 270 (Some "Write unit tests"%string)
                    (Some "yellow"%string) []].

(** A candidate of seven words, of which one is longer than two
    characters and matches the phrase "deploy api". *)
Definition sevenWords : WhiteboardElement :=
  mkElement "t1" sticky 100 180 (Some "fix api on db q z w"%string) (Some "yellow"%string) [].

(** Two candidates for [tiePhrase], which has five words: the first,
    already Done, has nine words of which four match; the second, in
    To Do, has eighteen words of which five match. *)
Definition tiePhrase : string := "aaa bbb ccc ddd eee".

Definition tieFirst : WhiteboardElement :=
  mkElement "t1" sticky 820 180 (Some "aaa bbb ccc ddd zz1 zz2 zz3 zz4 zz5"%string)
            (Some "green"%string) [].

Definition tieSecond : WhiteboardElement :=
  mkElement "t2" sticky 100 180
            (Some "eee ddd ccc bbb aaa z01 z02 z03 z04 z05 z06 z07 z08 z09 z10 z11 z12 z13"%string)
            (Some "yellow"%string) [].

Definition tieBoard : WhiteboardData := mkData [tieFirst; tieSecond].

(** A sticky in To Do and a flow node standing at the In Progress x. *)
Definition placementBoard : WhiteboardData :=
  mkData [mkElement "a" sticky 100 180 (Some "alpha task"%string) (Some "yellow"%string) [];
          mkElement "n" flow_node 460 200 None None []].

(** A sticky in To Do and a task sticky inside the In Progress range
    (420..740) but 60 away from the column's x. *)
Definition offsetBoard : WhiteboardData :=
  mkData [mkElement "a" sticky 100 180 (Some "alpha task"%string) (Some "yellow"%string) [];
          mkElement "b" sticky 520 180 (Some "write report"%string)
                    (Some "orange"%string) []].

(** A single task that is already Done. *)
Definition doneBoard : WhiteboardData :=
  mkData [mkElement "a" sticky 820 180 (Some "ship release"%string) (Some "green"%string) []].

(** A task sticky, a summary sticky and a flow node. *)
Definition frameBoard : WhiteboardData :=
  mkData [mkElement "a" sticky 100 180 (Some "alpha task"%string) (Some "yellow"%string) [];
          mkElement "s" sticky 450 650 (Some "alpha task summary"%string)
                    (Some "blue"%string) [];
          mkElement "n" flow_node 460 200 None None []].

(** ** determineKanbanColumn *)

(** The two keywords outside ASCII, as the bytes (UTF-8) of the literals
    in this copy of the file.  They are the pictographs U+2705 and U+1F504
    of the other copies after a wrong re-encoding: the characters U+00E2
    U+0153 U+2026 and U+00F0 U+0178 U+201D U+201E.  No ASCII text
    contains either. *)
Definition checkMark : string :=
  String "195"%char (String "162"%char (String "197"%char (String "147"%char
    (String "226"%char (String "128"%char (String "166"%char EmptyString)))))).

Definition cycleMark : string :=
  String "195"%char (String "176"%char (String "197"%char (String "184"%char
    (String "226"%char (String "128"%char (String "157"%char
      (String "226"%char (String "128"%char (String "158"%char EmptyString))))))))).

Definition doneIndicators : list string :=
  ["done"; "completed"; "finished"; checkMark; "complete"]%string.

Definition inProgressIndicators : list string :=
  ["working"; "progress"; "doing"; "started"; cycleMark; "current"]%string.

Definition determineKanbanColumn (text : string) : KanbanColumn :=
  let lowerText := JsString.toLowerCase text in
  if existsb (JsString.includes lowerText) doneIndicators then done
  else if existsb (JsString.includes lowerText) inProgressIndicators then inprogress
  else todo.

(** ** getWhiteboardInfo: the whole result *)

Record WhiteboardInfo := mkInfo {
  totalTasks : nat;
  matchingTasks : list (WhiteboardElement * option KanbanColumn);
  columnCounts : nat * nat * nat
}.

(** The [currentColumn] that [getWhiteboardInfo] attaches to a match. *)
Definition infoColumn (task : WhiteboardElement) : option KanbanColumn :=
  if inColumn todo task then Some todo
  else if inColumn inprogress task then Some inprogress
  else if inColumn done task then Some done
  else None.

Definition whiteboardInfo (currentData : WhiteboardData) (query : string)
    (column : option string) : Completion WhiteboardInfo :=
  let allTasks := filter isSticky (elements currentData) in
  match getWhiteboardInfo currentData query column with
  | Normal matching =>
      Normal (mkInfo (List.length allTasks)
                     (map (fun task => (task, infoColumn task)) matching)
                     (List.length (filter (inColumn todo) allTasks),
                      List.length (filter (inColumn inprogress) allTasks),
                      List.length (filter (inColumn done) allTasks)))
  | Throw m => Throw m
  end.

(** The column a [column] argument of [get_whiteboard_info] names, if any. *)
Definition columnNamed (c : string) : option KanbanColumn :=
  if String.eqb c "todo" then Some todo
  else if String.eqb c "inprogress" then Some inprogress
  else if String.eqb c "done" then Some done
  else None.

(** ** processWhiteboardToolCall and validateAndFixElement *)

(** An element as the model sends it: every field may be missing. *)
Record RawElement := mkRaw {
  rawId : option string;
  rawType : option string;
  rawX : option Z;
  rawY : option Z;
  rawText : option string;
  rawColor : option string;
  rawLabel : option string;
  rawShape : option string;
  rawConnections : option (list string);
  rawMermaidCode : option string;
  rawUrl : option string;
  rawEmbedType : option string
}.

(** [s || d] on a string that may be missing: the empty string is falsy. *)
Definition orString (s : option string) (d : string) : string :=
  match s with
  | Some v => if String.eqb v EmptyString then d else v
  | None => d
  end.

(** [n || d] on a number that may be missing: zero is falsy. *)
Definition orNumber (n : option Z) (d : Z) : Z :=
  match n with
  | Some v => if v =? 0 then d else v
  | None => d
  end.

(** [!n] *)
Definition missingNumber (n : option Z) : bool :=
  match n with
  | Some v => v =? 0
  | None => true
  end.

Definition hasType (element : RawElement) (t : string) : bool :=
  match rawType element with
  | Some v => String.eqb v t
  | None => false
  end.

(** The fields of a board element other than [id], [type], [x], [y],
    [text] and [color], as key/value pairs; an array contributes one pair
    per entry.  The order of the pairs carries no meaning. *)
Definition flowNodeFields (element : RawElement) : list (string * string) :=
  [("label", orString (rawLabel element) "New Node");
   ("shape", orString (rawShape element) "rectangle")]%string
  ++ map (fun c => ("connections"%string, c))
         (match rawConnections element with Some cs => cs | None => [] end).

(** [validateAndFixElement]; [fallbackId] is the identifier built from the
    clock, [element-${Date.now()}]. *)
Definition validateAndFixElement (fallbackId : string) (element : RawElement)
    : Completion WhiteboardElement :=
  let baseId := orString (rawId element) fallbackId in
  let baseX := orNumber (rawX element) 100 in
  let baseY := orNumber (rawY element) 100 in
  match rawType element with
  | Some t =>
      if String.eqb t "sticky" then
        Normal (mkElement baseId sticky baseX baseY
                          (Some (orString (rawText element) "New note"))
                          (Some (orString (rawColor element) "yellow")) [])
      else if String.eqb t "flow-node" then
        Normal (mkElement baseId flow_node baseX baseY None None (flowNodeFields element))
      else if String.eqb t "mermaid" then
        Normal (mkElement baseId mermaid baseX baseY None None
                  [("mermaidCode"%string,
                    orString (rawMermaidCode element)
                             (String.append "graph TD"
                                (String "010"%char "    A --> B")))])
      else if String.eqb t "embed" then
        Normal (mkElement baseId embed baseX baseY None None
                  [("url"%string, orString (rawUrl element) EmptyString);
                   ("embedType"%string, orString (rawEmbedType element) "iframe")])
      else Throw (String.append "Unknown element type: " t)
  | None => Throw "Unknown element type: undefined"
  end.

Definition withPosition (element : RawElement) (px py : Z) : RawElement :=
  mkRaw (rawId element) (rawType element) (Some px) (Some py) (rawText element)
        (rawColor element) (rawLabel element) (rawShape element) (rawConnections element)
        (rawMermaidCode element) (rawUrl element) (rawEmbedType element).

Definition withColor (element : RawElement) (c : string) : RawElement :=
  mkRaw (rawId element) (rawType element) (rawX element) (rawY element) (rawText element)
        (Some c) (rawLabel element) (rawShape element) (rawConnections element)
        (rawMermaidCode element) (rawUrl element) (rawEmbedType element).

(** A sticky is a meeting summary when its text mentions one of three
    phrases. *)
Definition isSummary (element : RawElement) : bool :=
  match rawText element with
  | Some t =>
      negb (String.eqb t EmptyString)
      && (JsString.includes (JsString.toLowerCase t) "standup"
          || JsString.includes (JsString.toLowerCase t) "summary"
          || JsString.includes (JsString.toLowerCase t) "sprint alpha")
  | None => false
  end.

(** The column a new task sticky goes to. *)
Definition columnForNew (element : RawElement) : KanbanColumn :=
  match rawText element with
  | Some t => if String.eqb t EmptyString then todo else determineKanbanColumn t
  | None => todo
  end.

Definition elementsInColumn (currentData : WhiteboardData) (columnX : Z)
    : list WhiteboardElement :=
  filter (fun el => (Z.abs (x el - columnX) <? 50) && (180 <=? y el) && (y el <? 650))
         (elements currentData).

(** The first half of the [add] callback: where the element is put (the
    callback writes these fields into the element it was given). *)
Definition placeForAdd (currentData : WhiteboardData) (index : nat) (element : RawElement)
    : RawElement :=
  if hasType element "sticky"
     && (missingNumber (rawX element) || missingNumber (rawY element)) then
    if isSummary element then
      withPosition (withColor element (orString (rawColor element) "blue")) 450 650
    else
      let column := columnForNew element in
      let coloured :=
        if String.eqb (orString (rawColor element) EmptyString) EmptyString
        then withColor element (columnColor column) else element in
      let position :=
        generateElementPosition
          (Z.of_nat (List.length (elementsInColumn currentData (kanbanColumns column))))
          column in
      withPosition coloured (fst position) (snd position)
  else if missingNumber (rawX element) || missingNumber (rawY element) then
    let position :=
      generateElementPosition
        (Z.of_nat (List.length (elements currentData) + index)) todo in
    withPosition element (fst position) (snd position)
  else element.

(** The [replace] callback's positioning. *)
Definition placeForReplace (index : nat) (element : RawElement) : RawElement :=
  if missingNumber (rawX element) || missingNumber (rawY element) then
    let position := generateElementPosition (Z.of_nat index) todo in
    withPosition element (fst position) (snd position)
  else element.

(** [array.map(callback)] for a callback that may throw: the first throw
    ends the loop. *)
Fixpoint mapIndexed {A B : Type} (f : nat -> A -> Completion B) (index : nat) (l : list A)
    : Completion (list B) :=
  match l with
  | [] => Normal []
  | a :: l' =>
      match f index a with
      | Normal b =>
          match mapIndexed f (S index) l' with
          | Normal bs => Normal (b :: bs)
          | Throw m => Throw m
          end
      | Throw m => Throw m
      end
  end.

(** [{ ...existing, ...update }] on board elements. *)
Definition mergeFields (old new : list (string * string)) : list (string * string) :=
  filter (fun kv => negb (existsb (fun kv' => String.eqb (fst kv) (fst kv')) new)) old ++ new.

Definition spread (existing update : WhiteboardElement) : WhiteboardElement :=
  mkElement (id update) (type update) (x update) (y update)
            (match text update with Some t => Some t | None => text existing end)
            (match color update with Some c => Some c | None => color existing end)
            (mergeFields (rest existing) (rest update)).

(** The arguments of [update_whiteboard]; [newElements] is the field the
    source calls [elements]. *)
Record UpdateCall := mkUpdateCall {
  action : option string;
  newElements : option (list RawElement);
  elementIds : option (list string)
}.

Definition hasAction (toolCall : UpdateCall) (a : string) : bool :=
  match action toolCall with
  | Some v => String.eqb v a
  | None => false
  end.

Section WhiteboardUpdate.

(** The identifier the clock yields for the element handled at a given
    position of the array being mapped. *)
Variable freshId : nat -> string.

Definition processWhiteboardToolCall (currentData : WhiteboardData) (toolCall : UpdateCall)
    : Completion WhiteboardData :=
  if hasAction toolCall "add" then
    match newElements toolCall with
    | Some els =>
        match mapIndexed (fun index element =>
                            validateAndFixElement (freshId index)
                                                  (placeForAdd currentData index element))
                         0 els with
        | Normal added => Normal (mkData (elements currentData ++ added))
        | Throw m => Throw m
        end
    | None => Normal currentData
    end
  else if hasAction toolCall "update" then
    match newElements toolCall with
    | Some els =>
        match mapIndexed (fun index existing =>
                            match find (fun el =>
                                          match rawId el with
                                          | Some i => String.eqb i (id existing)
                                          | None => false
                                          end) els with
                            | Some update =>
                                match validateAndFixElement (freshId index) update with
                                | Normal fixed => Normal (spread existing fixed)
                                | Throw m => Throw m
                                end
                            | None => Normal existing
                            end)
                         0 (elements currentData) with
        | Normal updated => Normal (mkData updated)
        | Throw m => Throw m
        end
    | None => Normal currentData
    end
  else if hasAction toolCall "remove" then
    match elementIds toolCall with
    | Some ids =>
        Normal (mkData (filter (fun element => negb (existsb (String.eqb (id element)) ids))
                               (elements currentData)))
    | None => Normal currentData
    end
  else if hasAction toolCall "replace" then
    match newElements toolCall with
    | Some els =>
        match mapIndexed (fun index element =>
                            validateAndFixElement (freshId index)
                                                  (placeForReplace index element))
                         0 els with
        | Normal valid => Normal (mkData valid)
        | Throw m => Throw m
        end
    | None => Normal currentData
    end
  else Normal currentData.

End WhiteboardUpdate.

(** ** The samples fed to the framer, in order *)

Definition channelSamples (input0 : list (list Q)) : list Q :=
  match input0 with
  | channel0 :: _ => channel0
  | [] => []
  end.

Definition fedSamples (frames : list (list (list Q))) : list Q :=
  List.concat (map channelSamples frames).

(** Everything the framer holds of its input: the posted chunks, then the
    filled part of the buffer. *)
Definition framerContents (w : Worklet.AudioProcessingWorklet) : list Z :=
  List.concat (Worklet.posted w) ++ firstn (Worklet.bufferWriteIndex w) (Worklet.buffer w).

Definition isStop (e : AudioRecorder.Event) : bool :=
  match e with AudioRecorder.CallStop => true | _ => false end.

Definition stopCalls (events : list AudioRecorder.Event) : nat :=
  List.length (filter isStop events).

(** ** Further sample boards *)

(** Six tasks fill the Done column; a seventh is moved in. *)
Definition fullDoneBoard : WhiteboardData :=
  mkData [mkElement "t" sticky 100 180 (Some "seventh task"%string) (Some "yellow"%string) [];
          mkElement "d1" sticky 820 180 (Some "one"%string) (Some "green"%string) [];
          mkElement "d2" sticky 820 270 (Some "two"%string) (Some "green"%string) [];
          mkElement "d3" sticky 820 360 (Some "three"%string) (Some "green"%string) [];
          mkElement "d4" sticky 820 450 (Some "four"%string) (Some "green"%string) [];
          mkElement "d5" sticky 820 540 (Some "five"%string) (Some "green"%string) [];
          mkElement "d6" sticky 820 630 (Some "six"%string) (Some "green"%string) []].


(** The calls of a batch that the listing handler processes. *)
Definition listedCalls (calls : list FunctionCall) : list FunctionCall :=
  filter (fun call => includesName handledNames (name call)) calls.

(** The identifiers answered so far, in the order the responses were sent. *)
Definition answeredIds (st : HandlerState) : list string :=
  map responseId (List.concat (sent st)).

(** The element kinds [validateAndFixElement] accepts. *)
Definition knownType (element : RawElement) : bool :=
  hasType element "sticky" || hasType element "flow-node"
  || hasType element "mermaid" || hasType element "embed".

(** What every element leaving [validateAndFixElement] satisfies. *)
Definition validated (fallbackId : string) (el : WhiteboardElement) : Prop :=
  x el <> 0 /\ y el <> 0
  /\ (fallbackId <> EmptyString -> id el <> EmptyString)
  /\ (type el = sticky ->
      exists t c, text el = Some t /\ t <> EmptyString
                  /\ color el = Some c /\ c <> EmptyString).

(** A raw sticky that comes without usable coordinates. *)
Definition unplacedSticky (element : RawElement) : bool :=
  hasType element "sticky"
  && (missingNumber (rawX element) || missingNumber (rawY element)).

Definition addCall (els : list RawElement) : UpdateCall :=
  mkUpdateCall (Some "add"%string) (Some els) None.

Definition replaceCall (els : list RawElement) : UpdateCall :=
  mkUpdateCall (Some "replace"%string) (Some els) None.

Definition updateCall (els : list RawElement) : UpdateCall :=
  mkUpdateCall (Some "update"%string) (Some els) None.

Definition removeCall (ids : list string) : UpdateCall :=
  mkUpdateCall (Some "remove"%string) None (Some ids).

(** The update [processWhiteboardToolCall] applies to an element: the first
    raw element carrying its identifier. *)
Definition updateFor (els : list RawElement) (existing : WhiteboardElement)
    : option RawElement :=
  find (fun el => match rawId el with
                  | Some i => String.eqb i (id existing)
                  | None => false
                  end) els.

(** Two task notes without coordinates, as the model sends them. *)
Definition rawNote (t : string) : RawElement :=
  mkRaw None (Some "sticky"%string) None None (Some t) None None None None None None None.

(** A flow node without identifier and coordinates. *)
Definition rawNode : RawElement :=
  mkRaw None (Some "flow-node"%string) None None None None (Some "Review"%string)
        None None None None None.

(** An update that only names a new colour for the task of [doneBoard]. *)
Definition recolour : RawElement :=
  mkRaw (Some "a"%string) (Some "sticky"%string) None None None (Some "red"%string)
        None None None None None None.

(** * Properties *)

(** ** Rounding to double precision *)

Section DoubleFacts.

Lemma nearestEven_le (q : Q) (U : Z) :
  (q <= inject_Z U)%Q -> Double.nearestEven q <= U.
Proof.
  intro H. unfold Double.nearestEven.
  assert (HfU : Qfloor q <= U).
  { rewrite <- (Qfloor_Z U). apply Qfloor_resp_le, H. }
  assert (Hup : (1 # 2 <= q - inject_Z (Qfloor q))%Q -> Qfloor q + 1 <= U).
  { intro Hhalf. destruct (Z.eq_dec (Qfloor q) U) as [e|ne]; [exfalso|lia].
    rewrite e in Hhalf.
    assert (Hc : (q - inject_Z U <= 0)%Q).
    { setoid_replace 0%Q with (inject_Z U - inject_Z U)%Q by ring.
      apply Qplus_le_compat; [exact H|apply Qle_refl]. }
    apply (Qle_trans _ _ _ Hhalf) in Hc. revert Hc. unfold Qle; simpl; lia. }
  destruct (q - inject_Z (Qfloor q) ?= 1 # 2)%Q eqn:E.
  - destruct (Z.even (Qfloor q)); [exact HfU|].
    apply Hup. apply Qeq_alt in E. rewrite E. apply Qle_refl.
  - exact HfU.
  - apply Hup. apply Qgt_alt in E. apply Qlt_le_weak, E.
Qed.

Lemma nearestEven_nonneg (q : Q) : (0 <= q)%Q -> 0 <= Double.nearestEven q.
Proof.
  intro H. unfold Double.nearestEven.
  assert (Hf : 0 <= Qfloor q).
  { change 0 with (Qfloor 0). apply Qfloor_resp_le, H. }
  destruct (q - inject_Z (Qfloor q) ?= 1 # 2)%Q; [destruct (Z.even (Qfloor q))| |]; lia.
Qed.

Lemma two_neq_0 : ~ (2 == 0)%Q.
Proof. discriminate. Qed.

Lemma ilog2_lower (n d : positive) :
  (2 ^ Double.ilog2 (Zpos n # d) <= Zpos n # d)%Q.
Proof.
  unfold Double.ilog2. cbn [Qnum Qden].
  set (ln := Z.log2 (Zpos n)). set (ld := Z.log2 (Zpos d)).
  destruct (Qle_bool (2 ^ (ln - ld)) (Zpos n # d)) eqn:E; [apply Qle_bool_iff, E|].
  clear E.
  assert (Hln : 0 <= ln) by apply Z.log2_nonneg.
  assert (Hld : 0 <= ld) by apply Z.log2_nonneg.
  destruct (Z.log2_spec (Zpos n) ltac:(lia)) as [Hn _].
  destruct (Z.log2_spec (Zpos d) ltac:(lia)) as [_ Hd].
  fold ln in Hn. fold ld in Hd.
  replace (ln - ld - 1) with (ln - (ld + 1)) by lia.
  rewrite (Qpower_minus 2 ln (ld + 1) two_neq_0).
  change (2%Q) with (inject_Z 2).
  rewrite <- !Zpower_Qpower by lia.
  assert (Hp : 0 < 2 ^ (ld + 1)) by (apply Z.pow_pos_nonneg; lia).
  apply Qle_shift_div_r; [unfold Qlt; simpl; lia|].
  unfold Qle, Qmult, inject_Z. cbn [Qnum Qden].
  rewrite !Z.mul_1_r, Pos.mul_1_r.
  replace (Z.succ ld) with (ld + 1) in Hd by lia. nia.
Qed.

Lemma roundPositive_le (n d : positive) (C : Z) :
  C <= 2 ^ 52 -> (Zpos n # d <= inject_Z C)%Q ->
  (Double.roundPositive (Zpos n # d) <= inject_Z C)%Q.
Proof.
  intros HC Hq. unfold Double.roundPositive.
  set (q := Zpos n # d) in *.
  assert (He : Double.ilog2 q <= 52).
  { apply (Qpower_le_compat_l_inv 2); [|reflexivity].
    eapply Qle_trans; [apply ilog2_lower|]. eapply Qle_trans; [exact Hq|].
    change (2%Q) with (inject_Z 2). rewrite <- Zpower_Qpower by lia.
    rewrite <- Zle_Qle. exact HC. }
  set (e := Z.max (Double.ilog2 q) (-1022)).
  assert (Het : e <= 52) by (unfold e; lia).
  assert (Hu : (0 < 2 ^ (e - 52))%Q) by (apply Qpower_0_lt; reflexivity).
  assert (Hsplit : (inject_Z C == inject_Z (C * 2 ^ (52 - e)) * 2 ^ (e - 52))%Q).
  { rewrite inject_Z_mult, Zpower_Qpower by lia. change (inject_Z 2) with 2%Q.
    rewrite <- Qmult_assoc, <- Qpower_plus by exact two_neq_0.
    replace (52 - e + (e - 52)) with 0 by lia.
    rewrite Qpower_0_r, Qmult_1_r. reflexivity. }
  rewrite Hsplit.
  apply Qmult_le_compat_r; [|apply Qlt_le_weak, Hu].
  rewrite <- Zle_Qle. apply nearestEven_le.
  apply Qle_shift_div_r; [exact Hu|]. rewrite <- Hsplit. exact Hq.
Qed.

Lemma roundPositive_nonneg (q : Q) : (0 <= q)%Q -> (0 <= Double.roundPositive q)%Q.
Proof.
  intro H. unfold Double.roundPositive.
  set (u := (2 ^ _)%Q).
  assert (Hu : (0 < u)%Q) by (apply Qpower_0_lt; reflexivity).
  apply Qmult_le_0_compat; [|apply Qlt_le_weak, Hu].
  change 0%Q with (inject_Z 0). rewrite <- Zle_Qle. apply nearestEven_nonneg.
  apply Qle_shift_div_l; [exact Hu|]. rewrite Qmult_0_l. exact H.
Qed.

(** Rounding does not cross an integer below 2^52 from below: such an
    integer is itself a double. *)
Lemma round_le (q : Q) (C : Z) :
  0 <= C <= 2 ^ 52 -> (q <= inject_Z C)%Q -> (Double.round q <= inject_Z C)%Q.
Proof.
  intros [H0 HC] Hq. destruct q as [[|n|n] d]; unfold Double.round; cbn [Qnum].
  - change 0%Q with (inject_Z 0). rewrite <- Zle_Qle. exact H0.
  - apply roundPositive_le; assumption.
  - apply (Qle_trans _ 0); [|change 0%Q with (inject_Z 0); rewrite <- Zle_Qle; exact H0].
    setoid_replace 0%Q with (- 0)%Q by reflexivity.
    apply Qopp_le_compat, roundPositive_nonneg. unfold Qle; simpl; lia.
Qed.

(** A ratio of word counts times 60 is at most 60. *)
Lemma word_ratio_le_60 (k m : nat) :
  (0 < k)%nat -> (k <= m)%nat ->
  (Double.mul (Double.div (Qnat k) (Qnat m)) 60 <= 60)%Q.
Proof.
  intros Hk Hkm.
  assert (Hm : (0 < Qnat m)%Q).
  { unfold Qnat, Qlt. simpl. lia. }
  assert (H1 : (Double.div (Qnat k) (Qnat m) <= 1)%Q).
  { apply (round_le _ 1); [lia|].
    apply Qle_shift_div_r; [exact Hm|]. rewrite Qmult_1_l.
    unfold Qnat, Qle. simpl. lia. }
  apply (round_le _ 60); [lia|].
  setoid_replace (inject_Z 60) with (1 * 60)%Q by reflexivity.
  apply Qmult_le_compat_r; [exact H1|]. unfold Qle. simpl. lia.
Qed.

End DoubleFacts.

(** ** Scores: the code against the specification's wording *)

Section ScoreFacts.

Variable P : StringPrimitives.

Lemma getCurrentColumn_columnOf (el : WhiteboardElement) :
  getCurrentColumn el = Spec.columnOf (x el).
Proof.
  unfold getCurrentColumn, Spec.columnOf.
  repeat match goal with
         | |- context [Z_le_dec ?a ?b] => destruct (Z_le_dec a b)
         end;
    repeat match goal with
           | |- context [?a <=? ?b] => destruct (Z.leb_spec a b)
           end;
    simpl; try reflexivity; lia.
Qed.

Lemma countMatching_length (ws others : list string) :
  Spec.countMatching P ws others = List.length (Matcher.matchingWords P ws others).
Proof.
  induction ws as [|w ws IH]; simpl; [reflexivity|].
  unfold Spec.appears, Matcher.wordsMatch in *.
  destruct (existsb _ others); simpl; rewrite IH; reflexivity.
Qed.

Lemma textScore_baseScore (taskText : string) (el : WhiteboardElement) :
  Matcher.textScore P taskText el
  = Spec.baseScore P (primSplit P) (Spec.normalise P taskText) (Spec.candidateText P el).
Proof.
  unfold Matcher.textScore, Spec.baseScore, Spec.wordScore.
  change (Spec.candidateText P el) with (Matcher.taskTextLower P el).
  change (Spec.tokens P (Spec.normalise P taskText)) with (Matcher.searchWords P taskText).
  change (Spec.normalise P taskText) with (Matcher.searchTextLower P taskText).
  rewrite countMatching_length. cbv zeta.
  destruct (String.eqb_spec (Matcher.taskTextLower P el) (Matcher.searchTextLower P taskText))
    as [e|ne];
    destruct (string_dec (Matcher.taskTextLower P el) (Matcher.searchTextLower P taskText))
      as [e'|ne'];
    try contradiction; [reflexivity|].
  destruct (primIncludes P (Matcher.taskTextLower P el) (Matcher.searchTextLower P taskText));
    [reflexivity|].
  destruct (primIncludes P (Matcher.searchTextLower P taskText) (Matcher.taskTextLower P el));
    [reflexivity|].
  destruct (List.length (Matcher.matchingWords _ _ _)) as [|k] eqn:Hk; reflexivity.
Qed.

Lemma scoreCandidate_score (taskText : string) (targetColumn : KanbanColumn)
    (el : WhiteboardElement) :
  score (Matcher.scoreCandidate P taskText targetColumn el)
  = Spec.score P (primSplit P) taskText targetColumn el.
Proof.
  unfold Matcher.scoreCandidate, Spec.score; cbn [score].
  rewrite <- getCurrentColumn_columnOf, <- textScore_baseScore.
  unfold column_eqb.
  destruct (getCurrentColumn el) as [c|]; reflexivity.
Qed.

End ScoreFacts.

(** ** Selection: the head of the stable descending sort *)

Section Selection.

Lemma Qgt_bool_true (a b : Q) : Qgt_bool a b = true <-> (b < a)%Q.
Proof.
  unfold Qgt_bool. rewrite negb_true_iff. split.
  - intro H. apply Qnot_le_lt. intro Hle.
    apply Qle_bool_iff in Hle. congruence.
  - intro H. destruct (Qle_bool a b) eqn:E; [|reflexivity].
    apply Qle_bool_iff in E. exfalso. exact (Qlt_not_le _ _ H E).
Qed.

Lemma Qgt_bool_false (a b : Q) : Qgt_bool a b = false <-> (a <= b)%Q.
Proof.
  unfold Qgt_bool. rewrite negb_false_iff. apply Qle_bool_iff.
Qed.

(** The head of the sorted list is the first maximum of the input. *)
Lemma sortByScore_head (l : list Candidate) :
  match sortByScore l with
  | [] => l = []
  | c :: _ =>
      exists l1 l2, l = l1 ++ c :: l2
        /\ (forall d, In d l1 -> (score d < score c)%Q)
        /\ (forall d, In d l2 -> (score d <= score c)%Q)
  end.
Proof.
  induction l as [|a l IH]; simpl; [reflexivity|].
  destruct (sortByScore l) as [|c r] eqn:Hs.
  - subst l. simpl. exists [], []. repeat split; intros d [].
  - destruct IH as (l1 & l2 & -> & Hlt & Hle). simpl.
    destruct (Qle_bool (score c) (score a)) eqn:E.
    + apply Qle_bool_iff in E.
      exists [], (l1 ++ c :: l2). repeat split; [intros d []|].
      intros d Hd. apply in_app_or in Hd. destruct Hd as [Hd|[<-|Hd]].
      * apply Qlt_le_weak. eapply Qlt_le_trans; [apply Hlt, Hd|exact E].
      * exact E.
      * eapply Qle_trans; [apply Hle, Hd|exact E].
    + exists (a :: l1), l2. repeat split; [|exact Hle].
      intros d [<-|Hd]; [|apply Hlt, Hd].
      apply Qnot_le_lt. intro Hc. apply Qle_bool_iff in Hc. congruence.
Qed.

Lemma filter_split {A} (f : A -> bool) (l : list A) (l1 l2 : list A) (c : A) :
  filter f l = l1 ++ c :: l2 ->
  exists m1 m2, l = m1 ++ c :: m2 /\ filter f m1 = l1 /\ filter f m2 = l2 /\ f c = true.
Proof.
  revert l1. induction l as [|a l IH]; intros l1 H; simpl in H.
  - destruct l1; discriminate.
  - destruct (f a) eqn:Fa.
    + destruct l1 as [|b l1]; simpl in H.
      * injection H as -> H. exists [], l. simpl. repeat split; assumption.
      * injection H as -> H. destruct (IH _ H) as (m1 & m2 & -> & H1 & H2 & Hc).
        exists (b :: m1), m2. simpl. rewrite Fa, H1. repeat split; assumption.
    + destruct (IH _ H) as (m1 & m2 & -> & H1 & H2 & Hc).
      exists (a :: m1), m2. simpl. rewrite Fa. repeat split; assumption.
Qed.

Lemma map_split {A B} (f : A -> B) (l : list A) (m1 m2 : list B) (c : B) :
  map f l = m1 ++ c :: m2 ->
  exists n1 a n2, l = n1 ++ a :: n2 /\ map f n1 = m1 /\ f a = c /\ map f n2 = m2.
Proof.
  revert m1. induction l as [|a l IH]; intros m1 H; simpl in H.
  - destruct m1; discriminate.
  - destruct m1 as [|b m1]; simpl in H; injection H as Ha H.
    + exists [], a, l. repeat split; assumption.
    + destruct (IH _ H) as (n1 & a' & n2 & -> & H1 & H2 & H3).
      exists (a :: n1), a', n2. simpl. rewrite Ha, H1. repeat split; assumption.
Qed.

Variable P : StringPrimitives.
Variables (currentData : WhiteboardData) (taskText : string) (targetColumn : KanbanColumn).

(** What [bestCandidate] returns, in terms of the candidates in board order. *)
Lemma first_max_of_candidates :
  match Matcher.bestCandidate P currentData taskText targetColumn with
  | None =>
      forall el, In el (allStickyTasks currentData) ->
                 (score (Matcher.scoreCandidate P taskText targetColumn el) <= 20)%Q
  | Some best =>
      exists before after,
        allStickyTasks currentData = before ++ task best :: after
        /\ best = Matcher.scoreCandidate P taskText targetColumn (task best)
        /\ (20 < score best)%Q
        /\ (forall el, In el before ->
                       (score (Matcher.scoreCandidate P taskText targetColumn el)
                        < score best)%Q)
        /\ (forall el, In el after ->
                       (score (Matcher.scoreCandidate P taskText targetColumn el)
                        <= score best)%Q)
  end.
Proof.
  set (scored := Matcher.scoreCandidate P taskText targetColumn).
  unfold Matcher.bestCandidate, Matcher.candidatesWithScores. fold scored.
  set (keep := fun candidate => Qgt_bool (score candidate) 20).
  pose proof (sortByScore_head (filter keep (map scored (allStickyTasks currentData)))) as H.
  destruct (sortByScore _) as [|c r]; simpl.
  - intros el Hel.
    destruct (keep (scored el)) eqn:E; [|apply Qgt_bool_false; exact E].
    assert (Hin : In (scored el) (filter keep (map scored (allStickyTasks currentData)))).
    { apply filter_In. split; [apply in_map, Hel|exact E]. }
    rewrite H in Hin. destruct Hin.
  - destruct H as (l1 & l2 & Hf & Hlt & Hle).
    apply filter_split in Hf. destruct Hf as (m1 & m2 & Hm & <- & <- & Hc).
    apply map_split in Hm. destruct Hm as (n1 & a & n2 & Hn & <- & <- & <-).
    assert (Hbig : (20 < score (scored a))%Q) by (apply Qgt_bool_true; exact Hc).
    exists n1, n2. change (task (scored a)) with a.
    split; [exact Hn|]. split; [reflexivity|]. split; [exact Hbig|]. split.
    + intros el Hel.
      destruct (keep (scored el)) eqn:E.
      * apply (Hlt (scored el)), filter_In. split; [apply in_map, Hel|exact E].
      * apply Qgt_bool_false in E. eapply Qle_lt_trans; [exact E|exact Hbig].
    + intros el Hel.
      destruct (keep (scored el)) eqn:E.
      * apply (Hle (scored el)), filter_In. split; [apply in_map, Hel|exact E].
      * apply Qgt_bool_false in E. apply Qlt_le_weak.
        eapply Qle_lt_trans; [exact E|exact Hbig].
Qed.

End Selection.

Lemma bestCandidate_first_max (currentData : WhiteboardData) (taskText : string)
    (targetColumn : KanbanColumn) :
  match bestCandidate currentData taskText targetColumn with
  | None =>
      forall el, In el (allStickyTasks currentData) ->
                 (score (scoreCandidate taskText targetColumn el) <= 20)%Q
  | Some best =>
      exists before after,
        allStickyTasks currentData = before ++ task best :: after
        /\ best = scoreCandidate taskText targetColumn (task best)
        /\ (20 < score best)%Q
        /\ (forall el, In el before ->
                       (score (scoreCandidate taskText targetColumn el) < score best)%Q)
        /\ (forall el, In el after ->
                       (score (scoreCandidate taskText targetColumn el) <= score best)%Q)
  end.
Proof. exact (first_max_of_candidates asciiPrimitives currentData taskText targetColumn). Qed.

(** ** move_task: scoring and selection (C1, C8) *)

(** C1, as amended.  Whatever the string primitives compute, the code's
    score of a candidate is the specification's score, evaluated in double
    precision, with one change: only the search phrase is cut into words
    longer than two characters, the candidate's text is cut into all its
    white-space separated words.  Candidates scoring 20 or less are
    dropped, and the winner is the first candidate, in board order, whose
    double is the highest. *)
Theorem move_task_scoring_and_selection :
  forall (P : StringPrimitives) (currentData : WhiteboardData) (taskText : string)
         (targetColumn : KanbanColumn),
    let specScore := Spec.score P (primSplit P) taskText targetColumn in
    (forall el, score (Matcher.scoreCandidate P taskText targetColumn el) = specScore el)
    /\ match Matcher.bestCandidate P currentData taskText targetColumn with
       | None =>
           forall el, In el (allStickyTasks currentData) -> (specScore el <= 20)%Q
       | Some best =>
           exists before after,
             allStickyTasks currentData = before ++ task best :: after
             /\ score best = specScore (task best)
             /\ (20 < specScore (task best))%Q
             /\ (forall el, In el before -> (specScore el < specScore (task best))%Q)
             /\ (forall el, In el after -> (specScore el <= specScore (task best))%Q)
       end.
Proof.
  intros P currentData taskText targetColumn specScore.
  assert (Hscore : forall el,
             score (Matcher.scoreCandidate P taskText targetColumn el) = specScore el)
    by (intro el; apply scoreCandidate_score).
  split; [exact Hscore|].
  pose proof (first_max_of_candidates P currentData taskText targetColumn) as H.
  destruct (Matcher.bestCandidate P currentData taskText targetColumn) as [best|].
  - destruct H as (before & after & Hsplit & Hbest & Hbig & Hlt & Hle).
    assert (Hs : score best = specScore (task best)).
    { rewrite Hbest at 1. apply Hscore. }
    exists before, after.
    split; [exact Hsplit|]. split; [exact Hs|].
    split; [rewrite <- Hs; exact Hbig|]. split.
    + intros el Hel. rewrite <- (Hscore el), <- Hs. apply Hlt, Hel.
    + intros el Hel. rewrite <- (Hscore el), <- Hs. apply Hle, Hel.
  - intros el Hel. rewrite <- (Hscore el). apply H, Hel.
Qed.

(** C1 as stated fails twice.  With both texts cut into words longer than
    two characters the candidate [sevenWords] would score 1/2 * 60 + 10 =
    40 and be kept; the code divides by its seven words, scores it
    1/7 * 60 + 10 and drops it.  And on [tieBoard] the two candidates
    score 4/9 * 60 and 5/18 * 60 + 10, which are the same number, so that
    the first, already Done, would be picked and nothing moved; as doubles
    the second is the larger, and the code moves the second candidate. *)
Lemma move_task_score_both_tokenized_fails :
  (~ (score (scoreCandidate "deploy api" done sevenWords)
      == Spec.score asciiPrimitives (Spec.tokens asciiPrimitives) "deploy api" done
                    sevenWords)%Q
   /\ (20 < Spec.score asciiPrimitives (Spec.tokens asciiPrimitives) "deploy api" done
                       sevenWords)%Q
   /\ bestCandidate (mkData [sevenWords]) "deploy api" done = None)
  /\ (allStickyTasks tieBoard = [tieFirst; tieSecond]
      /\ score (scoreCandidate tiePhrase done tieFirst)
         = Double.mul (Double.div (Qnat 4) (Qnat 9)) 60
      /\ score (scoreCandidate tiePhrase done tieSecond)
         = Double.add (Double.mul (Double.div (Qnat 5) (Qnat 18)) 60) 10
      /\ (Qnat 4 / Qnat 9 * 60 == Qnat 5 / Qnat 18 * 60 + 10)%Q
      /\ (score (scoreCandidate tiePhrase done tieFirst)
          < score (scoreCandidate tiePhrase done tieSecond))%Q
      /\ bestCandidate tieBoard tiePhrase done
         = Some (scoreCandidate tiePhrase done tieSecond)
      /\ moveTaskByText tieBoard tiePhrase done <> SameData).
Proof.
  split; [split; [|split]|split; [|split; [|split; [|split; [|split; [|split]]]]]].
  - vm_compute. discriminate.
  - vm_compute. reflexivity.
  - vm_compute. reflexivity.
  - reflexivity.
  - vm_compute. reflexivity.
  - vm_compute. reflexivity.
  - vm_compute. reflexivity.
  - vm_compute. reflexivity.
  - vm_compute. reflexivity.
  - vm_compute. discriminate.
Qed.

Section PaymentGateway.

Lemma textScore_by_text (taskText : string) (e e' : WhiteboardElement) :
  text e = text e' -> textScore taskText e = textScore taskText e'.
Proof.
  intro H. unfold textScore, Matcher.textScore, Matcher.taskTextLower.
  rewrite H. reflexivity.
Qed.

Lemma column_eqb_false (c : option KanbanColumn) (t : KanbanColumn) :
  c <> Some t -> column_eqb c t = false.
Proof.
  destruct c as [[]|]; destruct t; simpl; intro H; try reflexivity;
    exfalso; apply H; reflexivity.
Qed.

Lemma column_eqb_true (c : option KanbanColumn) (t : KanbanColumn) :
  c = Some t -> column_eqb c t = true.
Proof. intros ->. destruct t; reflexivity. Qed.

(** C8, as amended.  The first candidate is selected, with score
    2/3 * 60 + 10 = 50: "integration" neither contains nor is contained
    in "integrate". *)
Theorem payment_gateway_selects_first_with_50 :
  forall (e1 e2 : WhiteboardElement) (targetColumn : KanbanColumn),
    isStickyTask e1 = true ->
    isStickyTask e2 = true ->
    text e1 = Some "Integrate payment gateway"%string ->
    text e2 = Some "Write unit tests"%string ->
    getCurrentColumn e1 <> Some targetColumn ->
    getCurrentColumn e2 <> Some targetColumn ->
    exists best,
      bestCandidate (mkData [e1; e2]) "payment gateway integration" targetColumn = Some best
      /\ task best = e1
      /\ (score best == 50)%Q.
Proof.
  intros e1 e2 targetColumn S1 S2 T1 T2 C1 C2.
  set (phrase := "payment gateway integration"%string).
  set (m1 := mkElement EmptyString sticky 0 0 (Some "Integrate payment gateway"%string) None []).
  set (m2 := mkElement EmptyString sticky 0 0 (Some "Write unit tests"%string) None []).
  assert (E1 : textScore phrase e1 = textScore phrase m1)
    by (apply textScore_by_text; exact T1).
  assert (E2 : textScore phrase e2 = textScore phrase m2)
    by (apply textScore_by_text; exact T2).
  assert (K1 : Qgt_bool (Double.add (textScore phrase m1) 10) 20 = true)
    by (vm_compute; reflexivity).
  assert (K2 : Qgt_bool (Double.add (textScore phrase m2) 10) 20 = false)
    by (vm_compute; reflexivity).
  assert (V1 : (Double.add (textScore phrase m1) 10 == 50)%Q)
    by (vm_compute; reflexivity).
  assert (Hc : forall e, getCurrentColumn e <> Some targetColumn ->
             scoreCandidate phrase targetColumn e
             = mkCandidate e (Double.add (textScore phrase e) 10) (getCurrentColumn e)).
  { intros e He. unfold scoreCandidate, Matcher.scoreCandidate.
    rewrite (column_eqb_false _ _ He). reflexivity. }
  exists (scoreCandidate phrase targetColumn e1).
  unfold bestCandidate, Matcher.bestCandidate, Matcher.candidatesWithScores, allStickyTasks.
  cbn [elements filter]. rewrite S1, S2. cbn [map].
  change (Matcher.scoreCandidate asciiPrimitives) with scoreCandidate.
  rewrite (Hc e1 C1), (Hc e2 C2). cbn [filter score].
  rewrite E1, E2, K1, K2.
  cbn [sortByScore fold_right insertByScore hd_error].
  split; [reflexivity|]. split; [reflexivity|]. cbn [score]. exact V1.
Qed.

Lemma payment_gateway_witness :
  exists best,
    bestCandidate gatewayBoard "payment gateway integration" done = Some best
    /\ task best = mkElement "task-1" sticky 100 180
                             (Some "Integrate payment gateway"%string)
                             (Some "yellow"%string) []
    /\ (score best == 50)%Q.
Proof.
  apply (payment_gateway_selects_first_with_50
           (mkElement "task-1" sticky 100 180 (Some "Integrate payment gateway"%string)
                      (Some "yellow"%string) [])
           (mkElement "task-2" sticky 100 270 (Some "Write unit tests"%string)
                      (Some "yellow"%string) [])
           done);
    first [reflexivity | discriminate].
Defined.

(** C8 as stated fails: the winner's score is 50, which is not at least 70. *)
Lemma payment_gateway_score_below_70 :
  exists best,
    bestCandidate gatewayBoard "payment gateway integration" done = Some best
    /\ id (task best) = "task-1"%string
    /\ ~ (70 <= score best)%Q.
Proof.
  eexists. split; [vm_compute; reflexivity|]. split; [reflexivity|].
  vm_compute. intro H. apply H. reflexivity.
Qed.

End PaymentGateway.

(** ** move_task: what a call changes (C2, C3, C9) *)

Lemma insertByScore_In (c d : Candidate) (l : list Candidate) :
  In d (insertByScore c l) -> d = c \/ In d l.
Proof.
  induction l as [|e l IH]; simpl.
  - intros [<-|[]]. left; reflexivity.
  - destruct (Qle_bool (score e) (score c)); simpl.
    + intros [<-|H]; [left; reflexivity|right; exact H].
    + intros [<-|H]; [right; left; reflexivity|].
      destruct (IH H) as [->|H']; [left; reflexivity|right; right; exact H'].
Qed.

Lemma sortByScore_In (d : Candidate) (l : list Candidate) :
  In d (sortByScore l) -> In d l.
Proof.
  induction l as [|c l IH]; simpl; [intros []|].
  intro H. apply insertByScore_In in H. destruct H as [->|H].
  - left; reflexivity.
  - right. apply IH, H.
Qed.

Lemma candidates_are_sticky_tasks (currentData : WhiteboardData) (taskText : string)
    (targetColumn : KanbanColumn) (c : Candidate) :
  In c (candidatesWithScores currentData taskText targetColumn) ->
  In (task c) (elements currentData) /\ isStickyTask (task c) = true.
Proof.
  unfold candidatesWithScores, Matcher.candidatesWithScores. intro H.
  apply sortByScore_In, filter_In in H. destruct H as [H _].
  apply in_map_iff in H. destruct H as (el & <- & Hel).
  apply filter_In in Hel. exact Hel.
Qed.

Section MoveFacts.

Variables (currentData : WhiteboardData) (taskText : string) (targetColumn : KanbanColumn).

Lemma moveTaskByText_same (best : Candidate) :
  bestCandidate currentData taskText targetColumn = Some best ->
  currentColumn best = Some targetColumn ->
  moveTaskByText currentData taskText targetColumn = SameData.
Proof.
  intros Hb Hc. unfold moveTaskByText. rewrite Hb, (column_eqb_true _ _ Hc). reflexivity.
Qed.

Lemma moveTaskByText_moved (best : Candidate) :
  bestCandidate currentData taskText targetColumn = Some best ->
  currentColumn best <> Some targetColumn ->
  moveTaskByText currentData taskText targetColumn
  = NewData (mkData (updatedElements currentData (task best) (kanbanColumns targetColumn)
                       (180 + Z.of_nat (List.length
                                          (tasksInTargetColumn currentData (task best)
                                             (kanbanColumns targetColumn))) * 90)
                       (columnColor targetColumn))).
Proof.
  intros Hb Hc. unfold moveTaskByText. rewrite Hb, (column_eqb_false _ _ Hc). reflexivity.
Qed.

(** Whatever the outcome, the new element list is the old one with the
    elements carrying the winner's identifier rewritten. *)
Lemma moveTaskByText_elements :
  elements (resultData currentData (moveTaskByText currentData taskText targetColumn))
  = elements currentData
  \/ exists best targetX newY newColor,
      bestCandidate currentData taskText targetColumn = Some best
      /\ elements (resultData currentData
                     (moveTaskByText currentData taskText targetColumn))
         = updatedElements currentData (task best) targetX newY newColor.
Proof.
  unfold moveTaskByText.
  destruct (bestCandidate currentData taskText targetColumn) as [best|] eqn:Hb;
    [|left; reflexivity].
  destruct (column_eqb (currentColumn best) targetColumn); [left; reflexivity|].
  right. do 4 eexists. split; reflexivity.
Qed.

Lemma bestCandidate_is_sticky_task (best : Candidate) :
  bestCandidate currentData taskText targetColumn = Some best ->
  In (task best) (elements currentData) /\ isStickyTask (task best) = true.
Proof.
  intro Hb.
  pose proof (bestCandidate_first_max currentData taskText targetColumn) as H.
  rewrite Hb in H. destruct H as (before & after & Hsplit & _).
  assert (Hin : In (task best) (allStickyTasks currentData)).
  { rewrite Hsplit. apply in_or_app. right. left. reflexivity. }
  apply filter_In in Hin. exact Hin.
Qed.

End MoveFacts.

Lemma isStickyTask_inv (el : WhiteboardElement) :
  isStickyTask el = true -> type el = sticky /\ y el < 650.
Proof.
  unfold isStickyTask. intro H. apply andb_true_iff in H. destruct H as [Ht Hy].
  split; [destruct (type el); try discriminate; reflexivity|].
  apply Z.ltb_lt, Hy.
Qed.

Lemma slotsTaken_count (currentData : WhiteboardData) (taskToMove : WhiteboardElement)
    (targetColumn : KanbanColumn) :
  Z.of_nat (List.length (tasksInTargetColumn currentData taskToMove
                           (kanbanColumns targetColumn)))
  = Spec.slotsTaken (id taskToMove) targetColumn (elements currentData).
Proof.
  unfold tasksInTargetColumn.
  induction (elements currentData) as [|el els IH]; [reflexivity|].
  cbn [filter Spec.slotsTaken]. rewrite <- IH.
  destruct (String.eqb_spec (id el) (id taskToMove)) as [e|ne];
    destruct (string_dec (id el) (id taskToMove)) as [e'|ne']; try contradiction;
    cbn [negb andb]; [lia|].
  destruct (Z.ltb_spec (Z.abs (x el - kanbanColumns targetColumn)) 50);
    destruct (Z_lt_dec (- 50) (x el - kanbanColumns targetColumn));
    destruct (Z_lt_dec (x el - kanbanColumns targetColumn) 50);
    destruct (Z.leb_spec 180 (y el)); destruct (Z_le_dec 180 (y el));
    destruct (Z.ltb_spec (y el) 650); destruct (Z_lt_dec (y el) 650);
    cbn [andb List.length]; lia.
Qed.

Lemma slotsTaken_spec (movedId : string) (targetColumn : KanbanColumn)
    (el : WhiteboardElement) (els : list WhiteboardElement) :
  Spec.slotsTaken movedId targetColumn (el :: els)
  = Spec.slotsTaken movedId targetColumn els
  \/ (Spec.takesSlot movedId targetColumn el
      /\ Spec.slotsTaken movedId targetColumn (el :: els)
         = 1 + Spec.slotsTaken movedId targetColumn els).
Proof.
  cbn [Spec.slotsTaken]. unfold Spec.takesSlot.
  destruct (string_dec (id el) movedId); [left; lia|].
  repeat match goal with
         | |- context [Z_lt_dec ?a ?b] => destruct (Z_lt_dec a b)
         | |- context [Z_le_dec ?a ?b] => destruct (Z_le_dec a b)
         end; first [left; lia | right; repeat split; assumption || lia].
Qed.

Lemma nth_error_updatedElements (currentData : WhiteboardData) (taskToMove : WhiteboardElement)
    (targetX newY : Z) (newColor : string) (i : nat) :
  nth_error (updatedElements currentData taskToMove targetX newY newColor) i
  = match nth_error (elements currentData) i with
    | Some el =>
        Some (if String.eqb (id el) (id taskToMove)
              then moveElement el targetX newY newColor else el)
    | None => None
    end.
Proof.
  unfold updatedElements. rewrite nth_error_map.
  destruct (nth_error (elements currentData) i); reflexivity.
Qed.

Lemma kanbanColumns_column (targetColumn : KanbanColumn) (el : WhiteboardElement) :
  x el = kanbanColumns targetColumn -> getCurrentColumn el = Some targetColumn.
Proof.
  unfold getCurrentColumn. intros ->. destruct targetColumn; reflexivity.
Qed.

(** The placement as the code computes it.  When the winner is not in
    the target column the call builds a new snapshot in which the winner
    has the column's x, the column's colour, and y = 180 + 90 * n, where n
    counts the other elements of any kind that lie less than 50 from the
    column's x with 180 <= y < 650. *)
Lemma move_task_placement :
  forall (currentData : WhiteboardData) (taskText : string) (targetColumn : KanbanColumn)
         (best : Candidate),
    bestCandidate currentData taskText targetColumn = Some best ->
    currentColumn best <> Some targetColumn ->
    exists moved,
      moveTaskByText currentData taskText targetColumn = NewData moved
      /\ In (task best) (elements currentData)
      /\ forall i el,
           nth_error (elements currentData) i = Some el ->
           id el = id (task best) ->
           exists el',
             nth_error (elements moved) i = Some el'
             /\ x el' = kanbanColumns targetColumn
             /\ y el' = 180 + Spec.slotsTaken (id (task best)) targetColumn
                                (elements currentData) * 90
             /\ color el' = Some (columnColor targetColumn)
             /\ getCurrentColumn el' = Some targetColumn
             /\ id el' = id el /\ type el' = type el /\ text el' = text el.
Proof.
  intros currentData taskText targetColumn best Hb Hc.
  eexists. split; [apply (moveTaskByText_moved _ _ _ best Hb Hc)|].
  split; [apply (bestCandidate_is_sticky_task _ _ _ best Hb)|].
  intros i el Hi Hid. cbn [elements].
  rewrite nth_error_updatedElements, Hi.
  rewrite (proj2 (String.eqb_eq _ _) Hid).
  eexists. split; [reflexivity|]. cbn [moveElement x y color id type text].
  rewrite slotsTaken_count.
  repeat split. apply kanbanColumns_column. reflexivity.
Qed.

(** C3 at two failing boards.  The row of a moved task is meant to count
    the tasks of the target column (the code's own comment: "Count
    existing tasks in target column"), and the column of a task is the
    range test of [getCurrentColumn].  The count the code makes is
    another: a flow node standing at the column's x takes a row although
    it is no task, so the moved sticky lands on y = 270 while no other
    task sticky is in the target column; and a task sticky that
    [getCurrentColumn] puts in the target column, 60 away from the
    column's x, takes no row, so the moved sticky lands on y = 180
    although one other task sticky is in the column. *)
Theorem move_task_y_counts_non_stickies :
  (exists moved el',
      moveTaskByText placementBoard "alpha task" inprogress = NewData moved
      /\ nth_error (elements moved) 0 = Some el'
      /\ y el' = 270
      /\ Spec.otherTaskStickies placementBoard el' inprogress = 0%nat
      /\ y el' <> 180 + Z.of_nat (Spec.otherTaskStickies placementBoard el' inprogress) * 90)
  /\ (exists moved el',
        moveTaskByText offsetBoard "alpha task" inprogress = NewData moved
        /\ nth_error (elements moved) 0 = Some el'
        /\ y el' = 180
        /\ Spec.otherTaskStickies offsetBoard el' inprogress = 1%nat
        /\ y el' <> 180 + Z.of_nat (Spec.otherTaskStickies offsetBoard el' inprogress) * 90).
Proof.
  split.
  - do 2 eexists. split; [vm_compute; reflexivity|].
    split; [reflexivity|]. split; [reflexivity|]. split; [reflexivity|].
    vm_compute. discriminate.
  - do 2 eexists. split; [vm_compute; reflexivity|].
    split; [reflexivity|]. split; [reflexivity|]. split; [reflexivity|].
    vm_compute. discriminate.
Qed.

(** C2.  When the winning candidate already stands in the requested
    column, [moveTaskByText] hands back the snapshot it was given, and the
    dispatcher returns no new data and reports the failure to move. *)
Theorem move_task_already_there_is_noop :
  forall (isMCPAvailable : bool)
         (processJiraToolCall : WhiteboardData -> string -> ToolArgs -> Completion ToolResult)
         (processWhiteboardToolCall' : WhiteboardData -> ToolArgs -> Completion WhiteboardData)
         (currentData : WhiteboardData) (taskText reasoning : string)
         (targetColumn : KanbanColumn) (best : Candidate),
    bestCandidate currentData taskText targetColumn = Some best ->
    currentColumn best = Some targetColumn ->
    let toolArgs := MoveTaskArgs taskText targetColumn reasoning in
    let report := mkResponse false (CouldNotMove taskText targetColumn) in
    moveTaskByText currentData taskText targetColumn = SameData
    /\ resultData currentData (moveTaskByText currentData taskText targetColumn) = currentData
    /\ processToolCall isMCPAvailable processJiraToolCall processWhiteboardToolCall'
         currentData "move_task" toolArgs
       = Normal (mkResult None report).
Proof.
  intros isMCP jira wb currentData taskText reasoning targetColumn best Hb Hc
         toolArgs report.
  pose proof (moveTaskByText_same _ _ _ best Hb Hc) as Hsame.
  split; [exact Hsame|]. split; [rewrite Hsame; reflexivity|].
  unfold processToolCall, toolArgs.
  change (includesName jiraToolNames "move_task") with false.
  change (String.eqb "move_task" "get_whiteboard_info") with false.
  change (String.eqb "move_task" "move_task") with true.
  cbv iota. rewrite Hsame. reflexivity.
Qed.

Lemma move_task_already_there_witness :
  let toolArgs := MoveTaskArgs "ship release" done "finished" in
  let report := mkResponse false (CouldNotMove "ship release" done) in
  moveTaskByText doneBoard "ship release" done = SameData
  /\ resultData doneBoard (moveTaskByText doneBoard "ship release" done) = doneBoard
  /\ processToolCall false (fun _ _ _ => Throw EmptyString) (fun d _ => Normal d)
       doneBoard "move_task" toolArgs
     = Normal (mkResult None report).
Proof.
  exact (move_task_already_there_is_noop false (fun _ _ _ => Throw EmptyString)
           (fun d _ => Normal d)
           doneBoard "ship release" "finished" done
           (scoreCandidate "ship release" done
              (mkElement "a" sticky 820 180 (Some "ship release"%string)
                         (Some "green"%string) []))
           eq_refl eq_refl).
Defined.

(** ** move_task: the frame (C9) *)

Lemma nth_error_same_id (l : list WhiteboardElement) (i j : nat) (a b : WhiteboardElement) :
  NoDup (map id l) ->
  nth_error l i = Some a -> nth_error l j = Some b -> id a = id b -> i = j.
Proof.
  intros Hnd Hi Hj Hid.
  apply (proj1 (NoDup_nth_error (map id l)) Hnd).
  - rewrite length_map. apply nth_error_Some. rewrite Hi. discriminate.
  - rewrite !nth_error_map, Hi, Hj. simpl. rewrite Hid. reflexivity.
Qed.

(** C9, as amended.  A [move_task] call keeps the number of elements and
    rewrites only the elements that carry the winner's identifier, the
    winner being a sticky with y < 650; elements of another kind and
    summary stickies (y >= 650) are never among the candidates.  On a
    board whose identifiers are unique at most one position changes, the
    element there is a sticky with y < 650, and elements of another kind
    and summary stickies stay as they are. *)
Theorem move_task_changes_at_most_one_task_sticky :
  forall (currentData : WhiteboardData) (taskText : string) (targetColumn : KanbanColumn),
    let after :=
      elements (resultData currentData (moveTaskByText currentData taskText targetColumn)) in
    List.length after = List.length (elements currentData)
    /\ (forall c,
          In c (candidatesWithScores currentData taskText targetColumn) ->
          type (task c) = sticky /\ y (task c) < 650)
    /\ (after = elements currentData
        \/ exists best,
             bestCandidate currentData taskText targetColumn = Some best
             /\ In (task best) (elements currentData)
             /\ type (task best) = sticky /\ y (task best) < 650
             /\ forall j el,
                  nth_error (elements currentData) j = Some el ->
                  id el <> id (task best) ->
                  nth_error after j = Some el)
    /\ (NoDup (map id (elements currentData)) ->
        (exists i, forall j, j <> i -> nth_error after j = nth_error (elements currentData) j)
        /\ (forall j el,
              nth_error (elements currentData) j = Some el ->
              nth_error after j <> Some el ->
              type el = sticky /\ y el < 650)
        /\ (forall j el,
              nth_error (elements currentData) j = Some el ->
              type el <> sticky \/ 650 <= y el ->
              nth_error after j = Some el)).
Proof.
  intros currentData taskText targetColumn after.
  assert (Hcases :
            after = elements currentData
            \/ exists best targetX newY newColor,
                 bestCandidate currentData taskText targetColumn = Some best
                 /\ after = updatedElements currentData (task best) targetX newY newColor).
  { destruct (moveTaskByText_elements currentData taskText targetColumn)
      as [Heq|(best & targetX & newY & newColor & Hb & Heq)]; [left; exact Heq|].
    right. exists best, targetX, newY, newColor. split; [exact Hb|exact Heq]. }
  split; [|split; [|split]].
  - destruct Hcases as [->|(best & targetX & newY & newColor & _ & ->)]; [reflexivity|].
    unfold updatedElements. apply length_map.
  - intros c Hc. apply isStickyTask_inv.
    apply (candidates_are_sticky_tasks currentData taskText targetColumn c Hc).
  - destruct Hcases as [Heq|(best & targetX & newY & newColor & Hb & Heq)];
      [left; exact Heq|right].
    destruct (bestCandidate_is_sticky_task _ _ _ best Hb) as [Hin Hst].
    apply isStickyTask_inv in Hst. destruct Hst as [Ht Hy].
    exists best. split; [exact Hb|]. split; [exact Hin|].
    split; [exact Ht|]. split; [exact Hy|].
    intros j el Hj Hid. rewrite Heq, nth_error_updatedElements, Hj.
    rewrite (proj2 (String.eqb_neq _ _) Hid). reflexivity.
  - intro Hnd.
    assert (Hframe :
              exists i, forall j,
                nth_error after j = nth_error (elements currentData) j
                \/ (j = i /\ exists el, nth_error (elements currentData) j = Some el
                                        /\ isStickyTask el = true)).
    { destruct Hcases as [Heq|(best & targetX & newY & newColor & Hb & Heq)]; rewrite Heq.
      - exists 0%nat. intro j. left. reflexivity.
      - destruct (bestCandidate_is_sticky_task _ _ _ best Hb) as [Hin Hst].
        apply In_nth_error in Hin. destruct Hin as [i Hi].
        exists i. intro j. rewrite nth_error_updatedElements.
        destruct (nth_error (elements currentData) j) as [el|] eqn:Hj; [|left; reflexivity].
        destruct (String.eqb_spec (id el) (id (task best))) as [e|ne]; [|left; reflexivity].
        right. assert (j = i) by (eapply nth_error_same_id; eauto). subst j.
        split; [reflexivity|]. exists el. split; [reflexivity|].
        rewrite Hi in Hj. injection Hj as <-. exact Hst. }
    destruct Hframe as [i Hi]. split; [|split].
    + exists i. intros j Hne. destruct (Hi j) as [H|[H _]]; [exact H|contradiction].
    + intros j el Hj Hchg. destruct (Hi j) as [H|[_ (el' & Hj' & Hst)]].
      * rewrite H in Hchg. contradiction.
      * rewrite Hj in Hj'. injection Hj' as <-. apply isStickyTask_inv, Hst.
    + intros j el Hj Hkind. destruct (Hi j) as [H|[_ (el' & Hj' & Hst)]].
      * rewrite H. exact Hj.
      * rewrite Hj in Hj'. injection Hj' as <-. apply isStickyTask_inv in Hst.
        destruct Hst as [Ht Hy]. destruct Hkind as [Hk|Hk]; [contradiction|lia].
Qed.

Lemma move_task_frame_witness :
  let after := elements (resultData frameBoard (moveTaskByText frameBoard "alpha task" done)) in
  (exists i, forall j, j <> i -> nth_error after j = nth_error (elements frameBoard) j)
  /\ (forall j el,
        nth_error (elements frameBoard) j = Some el ->
        nth_error after j <> Some el ->
        type el = sticky /\ y el < 650)
  /\ (forall j el,
        nth_error (elements frameBoard) j = Some el ->
        type el <> sticky \/ 650 <= y el ->
        nth_error after j = Some el).
Proof.
  apply (proj2 (proj2 (proj2
           (move_task_changes_at_most_one_task_sticky frameBoard "alpha task" done)))).
  repeat constructor; simpl; intuition discriminate.
Defined.

(** C9 as stated fails.  One [add] call gives two elements that come
    without identifier the same one, built from the clock; moving the
    sticky of the two then rewrites the flow node as well. *)
Lemma move_task_rewrites_elements_sharing_an_id :
  exists added moved note node note' node',
    processWhiteboardToolCall (fun _ => "element-1700000000000"%string) (mkData [])
      (addCall [rawNote "alpha task"; rawNode]) = Normal added
    /\ elements added = [note; node]
    /\ type note = sticky /\ type node = flow_node /\ id note = id node
    /\ moveTaskByText added "alpha task" done = NewData moved
    /\ elements moved = [note'; node']
    /\ note' <> note
    /\ node' <> node
    /\ type node' = flow_node /\ x node' = 820 /\ color node' = Some "green"%string.
Proof.
  do 6 eexists.
  split; [vm_compute; reflexivity|]. split; [reflexivity|].
  split; [reflexivity|]. split; [reflexivity|]. split; [reflexivity|].
  split; [vm_compute; reflexivity|]. split; [reflexivity|].
  split; [discriminate|]. split; [discriminate|].
  split; [reflexivity|]. split; reflexivity.
Qed.

(** ** The tool-call handler (C4) *)

Section AwaitingFacts.

Variable isMCPAvailable : bool.
Variable processJiraToolCall : WhiteboardData -> string -> ToolArgs -> Completion ToolResult.
Variable processWhiteboardToolCall' : WhiteboardData -> ToolArgs -> Completion WhiteboardData.
Variable getCurrentWhiteboardData : HandlerState -> option WhiteboardData.
Variable setWhiteboardData : option (WhiteboardData -> Completion unit).
Variable updateWhiteboardFromGemini : option (option ToolArgs -> Completion unit).
Variable onWhiteboardUpdate : option (WhiteboardData -> Completion unit).
Variable listsTeamMembers : ToolResponse -> bool.





End AwaitingFacts.



(** ** The capture framer (C5, C7) *)

Section Framer.

Import Worklet.

Lemma setAt_length (buf : list Z) (i : nat) (v : Z) :
  List.length (setAt buf i v) = List.length buf.
Proof.
  revert i. induction buf as [|b buf IH]; intros [|i]; simpl; try reflexivity.
  rewrite IH. reflexivity.
Qed.

Lemma processSample_framed (n total : nat) (w : AudioProcessingWorklet) (sample : Q) :
  framed n total w -> framed n (S total) (processSample w sample).
Proof.
  intros (Hlen & Hidx & Htot & Hall). unfold processSample. cbn [buffer bufferWriteIndex].
  rewrite setAt_length, Hlen.
  destruct (Nat.leb_spec n (S (bufferWriteIndex w))) as [Hfull|Hroom].
  - unfold sendAndClearBuffer, framed. cbn [buffer bufferWriteIndex posted].
    rewrite setAt_length, length_app. cbn [List.length].
    repeat split; try lia.
    apply Forall_app. split; [exact Hall|]. constructor; [|constructor].
    rewrite length_firstn, setAt_length. lia.
  - unfold framed. cbn [buffer bufferWriteIndex posted].
    rewrite setAt_length. repeat split; try lia. exact Hall.
Qed.

Lemma processChunk_framed (n total : nat) (w : AudioProcessingWorklet) (samples : list Q) :
  framed n total w -> framed n (List.length samples + total) (processChunk w samples).
Proof.
  intro H. unfold processChunk.
  assert (Hf : framed n (List.length samples + total) (fold_left processSample samples w)).
  { revert total w H. induction samples as [|s samples IH]; intros total w H; [exact H|].
    cbn [fold_left List.length].
    replace (S (List.length samples) + total)%nat
      with (List.length samples + S total)%nat by lia.
    apply IH, processSample_framed, H. }
  destruct Hf as (Hlen & Hidx & Htot & Hall).
  destruct (Nat.leb_spec (List.length (buffer (fold_left processSample samples w)))
                         (bufferWriteIndex (fold_left processSample samples w)));
    [lia|].
  repeat split; assumption.
Qed.

Lemma process_framed (n total : nat) (w : AudioProcessingWorklet) (input0 : list (list Q)) :
  framed n total w -> framed n (samplesOf input0 + total) (process w input0).
Proof.
  intro H. destruct input0 as [|channel0 others]; [exact H|].
  apply processChunk_framed, H.
Qed.

Lemma fold_process_framed (n total : nat) (w : AudioProcessingWorklet)
    (frames : list (list (list Q))) :
  framed n total w -> framed n (totalSamples frames + total) (fold_left process frames w).
Proof.
  revert total w. induction frames as [|f frames IH]; intros total w H; [exact H|].
  cbn [fold_left totalSamples fold_right].
  replace (samplesOf f + fold_right (fun f0 k => samplesOf f0 + k) 0 frames + total)%nat
    with (totalSamples frames + (samplesOf f + total))%nat by (unfold totalSamples; lia).
  apply IH, process_framed, H.
Qed.

Lemma constructor_framed : framed 2048 0 constructor.
Proof.
  unfold framed, constructor. cbn [buffer bufferWriteIndex posted List.length].
  rewrite repeat_length. repeat split; try lia. constructor.
Qed.

End Framer.

(** C5.  Fed any sequence of render quanta, the framer has posted
    floor(total samples / 2048) chunks, each of 2048 * 2 bytes; the
    samples left over stay in the buffer and are not posted. *)
Theorem capture_framer_posts_only_full_chunks :
  forall frames : list (list (list Q)),
    let w := Worklet.run frames in
    List.length (Worklet.posted w) = (Worklet.totalSamples frames / 2048)%nat
    /\ Forall (fun chunk => Worklet.byteLength chunk = (2048 * 2)%nat) (Worklet.posted w)
    /\ Worklet.bufferWriteIndex w = (Worklet.totalSamples frames mod 2048)%nat.
Proof.
  intros frames w.
  assert (H : framed 2048 (Worklet.totalSamples frames) w).
  { rewrite <- (Nat.add_0_r (Worklet.totalSamples frames)).
    apply fold_process_framed, constructor_framed. }
  destruct H as (Hlen & Hidx & Htot & Hall).
  split; [|split].
  - apply (Nat.div_unique _ 2048 _ (Worklet.bufferWriteIndex w)); lia.
  - eapply Forall_impl; [|exact Hall]. intros chunk Hc. cbv beta in *.
    unfold Worklet.byteLength. rewrite Hc. reflexivity.
  - apply (Nat.mod_unique _ 2048 (List.length (Worklet.posted w))); lia.
Qed.

(** C7 at the failing input.  The sample 1.0 is scaled to 32768, which
    the Int16Array slot wraps to -32768; every sample of [-1, 1) is
    stored as the truncation of its scaling. *)
Theorem full_scale_sample_wraps_negative :
  Worklet.truncate (Worklet.int16Value 1) = 32768
  /\ Worklet.storedSample 1 = -32768
  /\ Worklet.storedSample (32767 # 32768) = 32767
  /\ Worklet.storedSample (-1) = -32768.
Proof. repeat split. Qed.

Lemma storedSample_below_one (sample : Q) :
  (-1 <= sample)%Q -> (sample < 1)%Q ->
  Worklet.storedSample sample = Worklet.truncate (Worklet.int16Value sample)
  /\ -32768 <= Worklet.storedSample sample <= 32767.
Proof.
  destruct sample as [p q]. unfold Qle, Qlt. cbn [Qnum Qden]. intros Hlo Hhi.
  unfold Worklet.storedSample, Worklet.int16Value, Worklet.truncate, Qmult. cbn [Qnum Qden].
  rewrite Pos.mul_1_r.
  assert (Hq : -32768 <= Z.quot (p * 32768) (Z.pos q) <= 32767).
  { pose proof (Z.quot_rem' (p * 32768) (Z.pos q)) as Hqr.
    destruct (Z_le_gt_dec 0 p) as [Hp|Hp].
    - pose proof (Z.rem_bound_pos (p * 32768) (Z.pos q) ltac:(lia) ltac:(lia)). nia.
    - pose proof (Z.rem_bound_pos (- (p * 32768)) (Z.pos q) ltac:(lia) ltac:(lia)) as Hr.
      rewrite Z.rem_opp_l' in Hr. nia. }
  unfold Worklet.ToInt16.
  set (t := Z.quot (p * 32768) (Z.pos q)) in *.
  destruct (Z_le_gt_dec 0 t) as [Ht|Ht].
  - rewrite (Z.mod_small t 65536) by lia.
    destruct (Z.ltb_spec t 32768); lia.
  - replace (t mod 65536) with (t + 65536).
    + destruct (Z.ltb_spec (t + 65536) 32768); lia.
    + apply (Z.mod_unique _ _ (-1)); lia.
Qed.

(** ** The recorder (C6) *)

Section RecorderFacts.

Import AudioRecorder.

Lemma handleStop_fields (r : Recorder) :
  acquisitions (handleStop r) = acquisitions r
  /\ nextPromise (handleStop r) = nextPromise r
  /\ starting (handleStop r) = starting r.
Proof. repeat split. Qed.

Lemma handleStops_fields (l : list nat) (r : Recorder) :
  let r' := fold_left (fun acc _ => handleStop acc) l r in
  acquisitions r' = acquisitions r
  /\ nextPromise r' = nextPromise r
  /\ starting r' = starting r.
Proof.
  revert r. induction l as [|q l IH]; intro r; [repeat split|].
  cbn [fold_left]. destruct (IH (handleStop r)) as (H1 & H2 & H3).
  cbv zeta. rewrite H1, H2, H3. repeat split.
Qed.

Lemma settled_fields (p : nat) (ok : bool) (r : Recorder) :
  acquisitions (settled p ok r) = acquisitions r
  /\ nextPromise (settled p ok r) = nextPromise r
  /\ starting (settled p ok r) = None.
Proof.
  unfold settled.
  exact (handleStops_fields (filter (Nat.eqb p) (waiting r))
           (mkRecorder (stream r) (if ok then true else isRecording r) None
                       (acquisitions r) (nextPromise r) (stopped r)
                       (filter (fun q => negb (Nat.eqb q p)) (waiting r)))).
Qed.

Lemma step_counts (b : bool) (r : Recorder) (e : Event) :
  fresh r ->
  fresh (step b r e)
  /\ acquisitions (step b r e)
     = (acquisitions r + (if isStart e && b then 1 else 0))%nat.
Proof.
  intro Hf. destruct e as [|p|p ok|]; cbn [step isStart andb].
  - unfold start. destruct b; cbn [negb fst].
    + split.
      * intros p Hp. cbn [starting nextPromise] in *. injection Hp as <-. lia.
      * cbn [acquisitions]. lia.
    + split; [exact Hf|lia].
  - split; [exact Hf|]. cbn [granted acquisitions]. lia.
  - destruct (settled_fields p ok r) as (H1 & H2 & H3). split.
    + intros p' Hp'. rewrite H3 in Hp'. discriminate.
    + rewrite H1. lia.
  - unfold stop. destruct (starting r) as [p|] eqn:Hs.
    + split; [|cbn [acquisitions]; lia].
      intros p' Hp'. cbn [starting nextPromise] in *. apply Hf. congruence.
    + split; [|cbn [handleStop acquisitions]; lia].
      intros p' Hp'. cbn [handleStop starting] in Hp'. congruence.
Qed.

Lemma run_counts (b : bool) (events : list Event) (r : Recorder) :
  fresh r ->
  fresh (run b events r)
  /\ acquisitions (run b events r)
     = (acquisitions r + (if b then startCalls events else 0))%nat.
Proof.
  revert r. induction events as [|e events IH]; intros r Hf.
  - split; [exact Hf|]. unfold startCalls. destruct b; cbn; lia.
  - destruct (step_counts b r e Hf) as [Hf' Ha].
    destruct (IH _ Hf') as [Hf'' Ha'].
    change (run b (e :: events) r) with (run b events (step b r e)).
    split; [exact Hf''|].
    rewrite Ha', Ha. unfold startCalls. cbn [filter].
    destruct (isStart e); destruct b; cbn [andb List.length]; lia.
Qed.

End RecorderFacts.

(** C6, as amended.  Where the platform offers [getUserMedia], every
    [start()] call asks for the device itself: after any history of calls
    and completions the number of [getUserMedia] calls equals the number
    of [start()] calls, and a [start()] issued while another is in flight
    returns a new promise, not the one in flight.  Where it does not,
    every [start()] call throws and the device is never asked for. *)
Theorem every_start_acquires_the_device :
  forall (hasMediaDevices : bool) (events : list AudioRecorder.Event),
    let r := AudioRecorder.run hasMediaDevices events AudioRecorder.constructor in
    AudioRecorder.acquisitions r
    = (if hasMediaDevices then AudioRecorder.startCalls events else 0%nat)
    /\ AudioRecorder.acquisitions (fst (AudioRecorder.start hasMediaDevices r))
       = (if hasMediaDevices then S (AudioRecorder.acquisitions r)
          else AudioRecorder.acquisitions r)
    /\ (forall p, AudioRecorder.starting r = Some p ->
                  snd (AudioRecorder.start hasMediaDevices r) <> Normal p)
    /\ (hasMediaDevices = false ->
        AudioRecorder.start hasMediaDevices r = (r, Throw "Could not request user media")).
Proof.
  intros b events r.
  destruct (run_counts b events AudioRecorder.constructor) as [Hf Ha].
  { intros p Hp. discriminate. }
  fold r in Hf, Ha. split; [exact Ha|]. split; [destruct b; reflexivity|]. split.
  - intros p Hp Heq. apply Hf in Hp.
    unfold AudioRecorder.start in Heq. destruct b; cbn in Heq; [|discriminate].
    injection Heq as Heq. lia.
  - intros ->. reflexivity.
Qed.

(** C6 as stated fails: a second [start()] issued while the first is in
    flight calls [getUserMedia] again and returns a different promise. *)
Lemma concurrent_starts_acquire_twice :
  let r1 := fst (AudioRecorder.start true AudioRecorder.constructor) in
  let r2 := fst (AudioRecorder.start true r1) in
  AudioRecorder.starting r1 = Some 0%nat
  /\ snd (AudioRecorder.start true AudioRecorder.constructor) = Normal 0%nat
  /\ snd (AudioRecorder.start true r1) = Normal 1%nat
  /\ AudioRecorder.acquisitions r2 = 2%nat
  /\ AudioRecorder.acquisitions r2 <> 1%nat.
Proof. repeat split. discriminate. Qed.

(** ** The base64 framing (C10) *)

Section Base64Facts.

Import Base64.
Local Open Scope N_scope.

Ltac lia_div := zify; Z.to_euclidean_division_equations; lia.

Ltac split_tests :=
  repeat match goal with
         | |- context [N.ltb ?a ?b] => destruct (N.ltb_spec a b)
         | |- context [N.leb ?a ?b] => destruct (N.leb_spec a b)
         | |- context [N.eqb ?a ?b] => destruct (N.eqb_spec a b)
         end.

Lemma sextetChar_code (n : N) :
  n < 64 ->
  N_of_ascii (sextetChar n)
  = if n <? 26 then 65 + n
    else if n <? 52 then 71 + n
    else if n <? 62 then n - 4
    else if n =? 62 then 43 else 47.
Proof.
  intro H. unfold sextetChar. split_tests;
    try (rewrite N_ascii_embedding by lia); try reflexivity; lia.
Qed.

Lemma charSextet_sextetChar (n : N) : n < 64 -> charSextet (sextetChar n) = Some n.
Proof.
  intro H. unfold charSextet. rewrite (sextetChar_code n H).
  destruct (N.ltb_spec n 26); [|destruct (N.ltb_spec n 52);
    [|destruct (N.ltb_spec n 62); [|destruct (N.eqb_spec n 62)]]];
    split_tests; cbn [andb]; try lia; f_equal; lia.
Qed.

Lemma sextetChar_not_pad (n : N) : n < 64 -> isPad (sextetChar n) = false.
Proof.
  intro H. unfold isPad. apply Ascii.eqb_neq. intro E.
  apply (f_equal N_of_ascii) in E. rewrite (sextetChar_code n H) in E.
  change (N_of_ascii pad) with 61 in E.
  revert E. split_tests; lia.
Qed.

Lemma sextetChar_not_space (n : N) : n < 64 -> isAsciiWhitespace (sextetChar n) = false.
Proof.
  intro H. unfold isAsciiWhitespace. rewrite (sextetChar_code n H).
  destruct (N.ltb_spec n 26); [|destruct (N.ltb_spec n 52);
    [|destruct (N.ltb_spec n 62); [|destruct (N.eqb_spec n 62)]]];
    split_tests; cbn [orb]; try reflexivity; lia.
Qed.

Lemma list_ind3 {A : Type} (P : list A -> Prop) :
  P [] -> (forall a, P [a]) -> (forall a b, P [a; b]) ->
  (forall a b c l, P l -> P (a :: b :: c :: l)) ->
  forall l, P l.
Proof.
  intros H0 H1 H2 H3 l.
  assert (H : P l /\ (forall a, P (a :: l)) /\ (forall a b, P (a :: b :: l))).
  { induction l as [|x l (I0 & I1 & I2)].
    - split; [exact H0|]. split; [exact H1|exact H2].
    - split; [apply I1|]. split; [intro a; apply I2|].
      intros a b. apply H3, I0. }
  apply H.
Qed.

Lemma filter_spaceFree (cs : list ascii) :
  spaceFree cs -> filter (fun c => negb (isAsciiWhitespace c)) cs = cs.
Proof.
  induction 1 as [|c cs Hc _ IH]; [reflexivity|].
  cbn [filter]. rewrite Hc, IH. reflexivity.
Qed.

(** Sextet bounds for one, two and three bytes. *)
Lemma sextet_bounds (a b c : N) :
  a < 256 -> b < 256 -> c < 256 ->
  let n := a * 65536 + b * 256 + c in
  n / 262144 < 64 /\ n / 4096 mod 64 < 64 /\ n / 64 mod 64 < 64 /\ n mod 64 < 64.
Proof. intros Ha Hb Hc n. subst n. repeat split; lia_div. Qed.

Lemma regroup3 (a b c : N) :
  a < 256 -> b < 256 -> c < 256 ->
  let n := a * 65536 + b * 256 + c in
  let m := n / 262144 * 262144 + n / 4096 mod 64 * 4096 + n / 64 mod 64 * 64 + n mod 64 in
  m / 65536 = a /\ m / 256 mod 256 = b /\ m mod 256 = c.
Proof. intros Ha Hb Hc n m. subst n m. repeat split; lia_div. Qed.

Lemma regroup2 (a b : N) :
  a < 256 -> b < 256 ->
  let n := a * 65536 + b * 256 in
  let m := (n / 262144 * 4096 + n / 4096 mod 64 * 64 + n / 64 mod 64) / 4 in
  m / 256 = a /\ m mod 256 = b.
Proof. intros Ha Hb n m. subst n m. repeat split; lia_div. Qed.

Lemma regroup1 (a : N) :
  a < 256 ->
  let n := a * 65536 in
  (n / 262144 * 64 + n / 4096 mod 64) / 16 = a.
Proof. intros Ha n. subst n. lia_div. Qed.

Lemma dropPadding_no_pad (cs : list ascii) (c : ascii) :
  isPad c = false -> dropPadding (cs ++ [c]) = cs ++ [c].
Proof.
  intro H. unfold dropPadding. rewrite rev_app_distr. cbn [rev app].
  destruct (rev cs); rewrite H; reflexivity.
Qed.

Lemma dropPadding_one_pad (cs : list ascii) (c : ascii) :
  isPad c = false -> dropPadding (cs ++ [c; pad]) = cs ++ [c].
Proof.
  intro H. unfold dropPadding. rewrite rev_app_distr. cbn [rev app].
  change (isPad pad) with true. rewrite H. cbv iota.
  cbn [rev]. rewrite rev_involutive. reflexivity.
Qed.

Lemma dropPadding_two_pads (cs : list ascii) :
  dropPadding (cs ++ [pad; pad]) = cs.
Proof.
  unfold dropPadding. rewrite rev_app_distr. cbn [rev app].
  change (isPad pad) with true. cbv iota. apply rev_involutive.
Qed.

Lemma btoaChars_encodes (binary : list ascii) :
  exists ss tail, encodes binary ss tail.
Proof.
  induction binary as [|a|a b|a b c binary (ss & tail & Hs & Hb & Ht & Hl & Hm & Hd)]
    using list_ind3.
  - exists [], []. split; [reflexivity|]. split; [constructor|].
    split; [left; reflexivity|]. split; [reflexivity|]. split; [cbn; lia|reflexivity].
  - pose proof (N_ascii_bounded a) as Ha.
    destruct (sextet_bounds (N_of_ascii a) 0 0 Ha) as (B1 & B2 & _); try lia.
    rewrite !N.add_0_r in B1, B2.
    exists [N_of_ascii a * 65536 / 262144; N_of_ascii a * 65536 / 4096 mod 64], [pad; pad].
    split; [reflexivity|]. split; [repeat constructor; assumption|].
    split; [right; split; [discriminate|right; reflexivity]|].
    split; [reflexivity|]. split; [cbn; lia|].
    cbn [bytesOfSextets]. rewrite (regroup1 _ Ha), ascii_N_embedding. reflexivity.
  - pose proof (N_ascii_bounded a) as Ha. pose proof (N_ascii_bounded b) as Hb.
    destruct (sextet_bounds (N_of_ascii a) (N_of_ascii b) 0 Ha Hb) as (B1 & B2 & B3 & _);
      try lia.
    rewrite !N.add_0_r in B1, B2, B3.
    exists [(N_of_ascii a * 65536 + N_of_ascii b * 256) / 262144;
            (N_of_ascii a * 65536 + N_of_ascii b * 256) / 4096 mod 64;
            (N_of_ascii a * 65536 + N_of_ascii b * 256) / 64 mod 64], [pad].
    split; [reflexivity|]. split; [repeat constructor; assumption|].
    split; [right; split; [discriminate|left; reflexivity]|].
    split; [reflexivity|]. split; [cbn; lia|].
    cbn [bytesOfSextets]. destruct (regroup2 _ _ Ha Hb) as [-> ->].
    rewrite !ascii_N_embedding. reflexivity.
  - pose proof (N_ascii_bounded a) as Ha. pose proof (N_ascii_bounded b) as Hb'.
    pose proof (N_ascii_bounded c) as Hc.
    destruct (sextet_bounds _ _ _ Ha Hb' Hc) as (B1 & B2 & B3 & B4).
    pose proof (regroup3 _ _ _ Ha Hb' Hc) as R. cbv zeta in R.
    set (n := N_of_ascii a * 65536 + N_of_ascii b * 256 + N_of_ascii c) in *.
    exists (n / 262144 :: n / 4096 mod 64 :: n / 64 mod 64 :: n mod 64 :: ss), tail.
    split; [cbn [btoaChars map app]; fold n; rewrite Hs; reflexivity|].
    split; [repeat constructor; assumption|].
    split; [destruct Ht as [Ht|[Hne Ht]]; [left; exact Ht|right; split;
              [discriminate|exact Ht]]|].
    split; [cbn [List.length Nat.add]; revert Hl; lia_div|].
    split; [cbn [List.length]; revert Hm; lia_div|].
    cbn [bytesOfSextets]. rewrite Hd.
    destruct R as (-> & -> & ->).
    rewrite !ascii_N_embedding. reflexivity.
Qed.

Lemma sextetsOf_chars (ss : list N) :
  Forall (fun s => s < 64) ss -> sextetsOf (map sextetChar ss) = Some ss.
Proof.
  induction 1 as [|s ss Hs _ IH]; [reflexivity|].
  cbn [map sextetsOf]. rewrite (charSextet_sextetChar s Hs), IH. reflexivity.
Qed.

Lemma encodes_spaceFree (binary : list ascii) (ss : list N) (tail : list ascii) :
  encodes binary ss tail -> spaceFree (btoaChars binary).
Proof.
  intros (Hs & Hb & Ht & _). rewrite Hs. apply Forall_app. split.
  - apply Forall_map. eapply Forall_impl; [|exact Hb].
    intros s. apply sextetChar_not_space.
  - destruct Ht as [->|[_ [->| ->]]]; repeat constructor.
Qed.

Lemma encodes_dropPadding (binary : list ascii) (ss : list N) (tail : list ascii) :
  encodes binary ss tail -> dropPadding (btoaChars binary) = map sextetChar ss.
Proof.
  intros (Hs & Hb & Ht & _). rewrite Hs.
  destruct ss as [|s0 ss0] using rev_ind.
  - destruct Ht as [->|[Hne _]]; [reflexivity|contradiction].
  - clear IHss0. rewrite map_app. cbn [map].
    assert (Hp : isPad (sextetChar s0) = false).
    { apply sextetChar_not_pad. apply Forall_app in Hb. destruct Hb as [_ Hb].
      inversion Hb. assumption. }
    destruct Ht as [->|[_ [->| ->]]].
    + rewrite app_nil_r. apply dropPadding_no_pad, Hp.
    + rewrite <- app_assoc. cbn [app]. apply dropPadding_one_pad, Hp.
    + rewrite <- app_assoc. cbn [app].
      change [sextetChar s0; pad; pad] with ([sextetChar s0] ++ [pad; pad]).
      rewrite app_assoc. apply dropPadding_two_pads.
Qed.

Lemma atob_btoa (binary : string) : atob (btoa binary) = Some binary.
Proof.
  unfold atob, btoa. cbv zeta. rewrite list_ascii_of_string_of_list_ascii.
  destruct (btoaChars_encodes (list_ascii_of_string binary)) as (ss & tail & H).
  rewrite (filter_spaceFree _ (encodes_spaceFree _ _ _ H)).
  assert (Hfull : (N.of_nat (List.length (btoaChars (list_ascii_of_string binary))) mod 4
                   =? 0) = true).
  { destruct H as (Hs & _ & _ & Hl & _). apply N.eqb_eq.
    rewrite Hs, length_app, length_map. exact Hl. }
  rewrite Hfull, (encodes_dropPadding _ _ _ H), length_map.
  destruct H as (Hs & Hb & Ht & Hl & Hm & Hd).
  rewrite (proj2 (N.eqb_neq _ _) Hm).
  rewrite (sextetsOf_chars ss Hb), Hd, string_of_list_ascii_of_string. reflexivity.
Qed.

End Base64Facts.

(** C10.  Decoding the encoding of a byte buffer succeeds and gives back
    the same bytes. *)
Theorem base64_round_trip :
  forall buffer : list byte,
    Base64.base64ToArrayBuffer (Base64.arrayBufferToBase64 buffer) = Some buffer.
Proof.
  intro buffer. unfold Base64.base64ToArrayBuffer, Base64.arrayBufferToBase64.
  rewrite atob_btoa, list_byte_of_string_of_list_byte. reflexivity.
Qed.

(** * Further properties of the code *)

(** ** move_task *)

(** X1.  A [move_task] call never adds, removes or reorders elements and
    never changes an identifier, a kind, a text or a variant-specific
    field: the identifiers, kinds, texts and other fields of the snapshot
    after the call are those before it, position by position. *)
Theorem move_task_keeps_identity :
  forall (currentData : WhiteboardData) (taskText : string) (targetColumn : KanbanColumn),
    let after :=
      elements (resultData currentData (moveTaskByText currentData taskText targetColumn)) in
    map id after = map id (elements currentData)
    /\ map type after = map type (elements currentData)
    /\ map text after = map text (elements currentData)
    /\ map rest after = map rest (elements currentData).
Proof.
  intros currentData taskText targetColumn after.
  destruct (moveTaskByText_elements currentData taskText targetColumn)
    as [Heq|(best & targetX & newY & newColor & _ & Heq)]; subst after; rewrite Heq.
  - repeat split.
  - unfold updatedElements. rewrite !map_map.
    repeat split; apply map_ext; intro el;
      destruct (String.eqb (id el) (id (task best))); reflexivity.
Qed.

Section ScoreBounds.

Lemma includes_empty (s : string) : JsString.includes s EmptyString = true.
Proof. destruct s; reflexivity. Qed.

(** The text score is 100 exactly for an exact match and at most 80
    otherwise. *)
Lemma textScore_cases (taskText : string) (el : WhiteboardElement) :
  (taskTextLower el = searchTextLower taskText /\ textScore taskText el = 100%Q)
  \/ (taskTextLower el <> searchTextLower taskText /\ (textScore taskText el <= 80)%Q).
Proof.
  unfold textScore, Matcher.textScore. cbv zeta.
  change (Matcher.taskTextLower asciiPrimitives el) with (taskTextLower el).
  change (Matcher.searchTextLower asciiPrimitives taskText) with (searchTextLower taskText).
  destruct (String.eqb_spec (taskTextLower el) (searchTextLower taskText)) as [e|ne];
    [left; split; [exact e|reflexivity]|right; split; [exact ne|]].
  destruct (primIncludes asciiPrimitives (taskTextLower el) (searchTextLower taskText));
    [apply Qle_refl|].
  destruct (primIncludes asciiPrimitives (searchTextLower taskText) (taskTextLower el));
    [unfold Qle; simpl; lia|].
  match goal with
  | |- context [(0 <? List.length ?l)%nat] => destruct (Nat.ltb_spec 0 (List.length l))
                                              as [Hpos|Hzero]
  end; [|unfold Qle; simpl; lia].
  eapply Qle_trans; [apply word_ratio_le_60; [exact Hpos|]|unfold Qle; simpl; lia].
  eapply Nat.le_trans; [apply filter_length_le|apply Nat.le_max_l].
Qed.

(** The bonus on the scores that containment and equality give. *)
Lemma bonus_values :
  (Double.add 100 10 == 110)%Q /\ (Double.add 80 10 == 90)%Q.
Proof. split; vm_compute; reflexivity. Qed.

(** The bonus leaves a score of at most 80 at 90 or less. *)
Lemma bonus_le_90 (s : Q) : (s <= 80)%Q -> (Double.add s 10 <= 90)%Q.
Proof.
  intro H. apply (round_le _ 90); [lia|].
  setoid_replace (inject_Z 90) with (80 + 10)%Q by reflexivity.
  apply Qplus_le_compat; [exact H|apply Qle_refl].
Qed.

Lemma column_eqb_spec (c : option KanbanColumn) (t : KanbanColumn) :
  column_eqb c t = true <-> c = Some t.
Proof.
  split; [|apply column_eqb_true].
  destruct c as [[]|]; destruct t; simpl; intro H; try discriminate; reflexivity.
Qed.

End ScoreBounds.

(** X2.  A task sticky whose text equals the search phrase (both lower
    cased and trimmed) and that is not in the target column always wins
    with the top score 110, or loses only to an earlier sticky of the same
    kind: the winner has score 110, its text equals the phrase, and it is
    not in the target column. *)
Theorem exact_match_outside_target_wins :
  forall (currentData : WhiteboardData) (taskText : string) (targetColumn : KanbanColumn)
         (el : WhiteboardElement),
    In el (allStickyTasks currentData) ->
    taskTextLower el = searchTextLower taskText ->
    getCurrentColumn el <> Some targetColumn ->
    exists best,
      bestCandidate currentData taskText targetColumn = Some best
      /\ (score best == 110)%Q
      /\ taskTextLower (task best) = searchTextLower taskText
      /\ getCurrentColumn (task best) <> Some targetColumn.
Proof.
  intros currentData taskText targetColumn el Hin Hexact Hcol.
  destruct bonus_values as [H110 _].
  assert (Hsc : forall e,
             score (scoreCandidate taskText targetColumn e)
             = if column_eqb (getCurrentColumn e) targetColumn
               then textScore taskText e else Double.add (textScore taskText e) 10)
    by reflexivity.
  assert (Hel : (score (scoreCandidate taskText targetColumn el) == 110)%Q).
  { rewrite Hsc, (column_eqb_false _ _ Hcol).
    destruct (textScore_cases taskText el) as [[_ ->]|[Hne _]];
      [exact H110|contradiction]. }
  pose proof (bestCandidate_first_max currentData taskText targetColumn) as H.
  destruct (bestCandidate currentData taskText targetColumn) as [best|].
  - destruct H as (before & after & Hsplit & Hbest & Hbig & Hlt & Hle).
    assert (Hge : (110 <= score best)%Q).
    { rewrite Hsplit in Hin. apply in_app_or in Hin.
      destruct Hin as [Hin|[Hin|Hin]].
      - apply Hlt in Hin. rewrite Hel in Hin. apply Qlt_le_weak, Hin.
      - rewrite Hbest, Hin, Hel. apply Qle_refl.
      - apply Hle in Hin. rewrite Hel in Hin. exact Hin. }
    exists best. split; [reflexivity|].
    rewrite Hbest in Hge |- *. rewrite Hsc in Hge |- *.
    change (task (scoreCandidate taskText targetColumn (task best))) with (task best).
    destruct (textScore_cases taskText (task best)) as [[He Hs]|[Hne Hs]].
    + rewrite Hs in Hge |- *.
      destruct (column_eqb (getCurrentColumn (task best)) targetColumn) eqn:E.
      * exfalso. revert Hge. unfold Qle; simpl; lia.
      * split; [exact H110|]. split; [exact He|].
        intro Hc. apply column_eqb_true in Hc. congruence.
    + exfalso.
      destruct (column_eqb (getCurrentColumn (task best)) targetColumn).
      * apply (Qle_trans _ _ _ Hge) in Hs. revert Hs. unfold Qle; simpl; lia.
      * pose proof (bonus_le_90 _ Hs) as H90.
        apply (Qle_trans _ _ _ Hge) in H90. revert H90. unfold Qle; simpl; lia.
  - exfalso. apply H in Hin. rewrite Hel in Hin. revert Hin. unfold Qle; simpl; lia.
Qed.

Lemma exact_match_outside_target_witness :
  exists best,
    bestCandidate gatewayBoard "  Write UNIT tests " inprogress = Some best
    /\ (score best == 110)%Q
    /\ taskTextLower (task best) = searchTextLower "  Write UNIT tests "
    /\ getCurrentColumn (task best) <> Some inprogress.
Proof.
  apply (exact_match_outside_target_wins gatewayBoard "  Write UNIT tests " inprogress
           (mkElement "task-2" sticky 100 270 (Some "Write unit tests"%string)
                      (Some "yellow"%string) [])).
  - right. left. reflexivity.
  - reflexivity.
  - discriminate.
Defined.

(** X3.  Moving a task into a column whose six rows are taken puts it at
    y >= 650, the summary area: in the new snapshot no element with the
    moved task's identifier is a task sticky any more, so no later
    [move_task] call, whatever its phrase and target, selects it. *)
Theorem move_into_full_column_leaves_task_area :
  forall (currentData : WhiteboardData) (taskText : string) (targetColumn : KanbanColumn)
         (best : Candidate),
    bestCandidate currentData taskText targetColumn = Some best ->
    currentColumn best <> Some targetColumn ->
    6 <= Spec.slotsTaken (id (task best)) targetColumn (elements currentData) ->
    exists moved,
      moveTaskByText currentData taskText targetColumn = NewData moved
      /\ (forall el', In el' (elements moved) -> id el' = id (task best) ->
                      650 <= y el' /\ isStickyTask el' = false)
      /\ (forall taskText' targetColumn' best',
             bestCandidate moved taskText' targetColumn' = Some best' ->
             id (task best') <> id (task best)).
Proof.
  intros currentData taskText targetColumn best Hb Hc Hfull.
  eexists. split; [apply (moveTaskByText_moved _ _ _ best Hb Hc)|].
  assert (Hgone : forall el',
             In el' (updatedElements currentData (task best) (kanbanColumns targetColumn)
                       (180 + Z.of_nat (List.length
                                          (tasksInTargetColumn currentData (task best)
                                             (kanbanColumns targetColumn))) * 90)
                       (columnColor targetColumn)) ->
             id el' = id (task best) -> 650 <= y el' /\ isStickyTask el' = false).
  { intros el' Hin Hid. unfold updatedElements in Hin.
    apply in_map_iff in Hin. destruct Hin as (el & Hel & _).
    destruct (String.eqb_spec (id el) (id (task best))) as [e|ne].
    - subst el'. rewrite slotsTaken_count. unfold isStickyTask. cbn [moveElement y type].
      assert (Hy : 650 <= 180 + Spec.slotsTaken (id (task best)) targetColumn
                                  (elements currentData) * 90) by lia.
      split; [exact Hy|].
      apply andb_false_iff. right. apply Z.ltb_ge. exact Hy.
    - subst el'. contradiction. }
  split; [exact Hgone|].
  intros taskText' targetColumn' best' Hb' Hid.
  destruct (bestCandidate_is_sticky_task _ _ _ best' Hb') as [Hin Hst].
  cbn [elements] in Hin. destruct (Hgone _ Hin Hid) as [_ Hno]. congruence.
Qed.

Lemma move_into_full_column_witness :
  exists moved,
    moveTaskByText fullDoneBoard "seventh task" done = NewData moved
    /\ (forall el', In el' (elements moved) -> id el' = "t"%string ->
                    650 <= y el' /\ isStickyTask el' = false)
    /\ (forall taskText' targetColumn' best',
           bestCandidate moved taskText' targetColumn' = Some best' ->
           id (task best') <> "t"%string).
Proof.
  apply (move_into_full_column_leaves_task_area fullDoneBoard "seventh task" done
           (scoreCandidate "seventh task" done
              (mkElement "t" sticky 100 180 (Some "seventh task"%string)
                         (Some "yellow"%string) []))).
  - reflexivity.
  - discriminate.
  - vm_compute. discriminate.
Defined.

(** X4.  With a blank search phrase every task sticky that has a text
    matches by containment, so the call moves the first task sticky, in
    board order, that is not already in the target column. *)
Theorem blank_phrase_moves_first_task_outside_target :
  forall (currentData : WhiteboardData) (taskText : string) (targetColumn : KanbanColumn)
         (outside : WhiteboardElement),
    searchTextLower taskText = EmptyString ->
    (forall el, In el (allStickyTasks currentData) -> taskTextLower el <> EmptyString) ->
    In outside (allStickyTasks currentData) ->
    getCurrentColumn outside <> Some targetColumn ->
    exists best before after moved,
      bestCandidate currentData taskText targetColumn = Some best
      /\ allStickyTasks currentData = before ++ task best :: after
      /\ getCurrentColumn (task best) <> Some targetColumn
      /\ (forall el, In el before -> getCurrentColumn el = Some targetColumn)
      /\ moveTaskByText currentData taskText targetColumn = NewData moved.
Proof.
  intros currentData taskText targetColumn outside Hblank Htexts Hin Hout.
  destruct bonus_values as [_ H90].
  assert (Hscore : forall el, In el (allStickyTasks currentData) ->
             (score (scoreCandidate taskText targetColumn el)
              == if column_eqb (getCurrentColumn el) targetColumn then 80 else 90)%Q).
  { intros el Hel.
    assert (Ht : textScore taskText el = 80%Q).
    { unfold textScore, Matcher.textScore. cbv zeta.
      change (Matcher.taskTextLower asciiPrimitives el) with (taskTextLower el).
      change (Matcher.searchTextLower asciiPrimitives taskText)
        with (searchTextLower taskText).
      rewrite Hblank.
      destruct (String.eqb_spec (taskTextLower el) EmptyString) as [e|_];
        [exfalso; exact (Htexts el Hel e)|].
      change (primIncludes asciiPrimitives) with JsString.includes.
      rewrite includes_empty. reflexivity. }
    change (score (scoreCandidate taskText targetColumn el))
      with (if column_eqb (getCurrentColumn el) targetColumn
            then textScore taskText el else Double.add (textScore taskText el) 10).
    rewrite Ht. destruct (column_eqb (getCurrentColumn el) targetColumn);
      [reflexivity|exact H90]. }
  pose proof (bestCandidate_first_max currentData taskText targetColumn) as H.
  destruct (bestCandidate currentData taskText targetColumn) as [best|] eqn:Hb.
  - destruct H as (before & after & Hsplit & Hbest & Hbig & Hlt & Hle).
    assert (Hbin : In (task best) (allStickyTasks currentData)).
    { rewrite Hsplit. apply in_or_app. right. left. reflexivity. }
    assert (Hbs : (score best
                   == if column_eqb (getCurrentColumn (task best)) targetColumn
                      then 80 else 90)%Q).
    { rewrite Hbest at 1. apply Hscore, Hbin. }
    assert (Hbout : column_eqb (getCurrentColumn (task best)) targetColumn = false).
    { destruct (column_eqb (getCurrentColumn (task best)) targetColumn) eqn:E;
        [exfalso|reflexivity].
      assert (Ho : (score (scoreCandidate taskText targetColumn outside) <= score best)%Q).
      { rewrite Hsplit in Hin. apply in_app_or in Hin. destruct Hin as [Hi|[Hi|Hi]].
        - apply Qlt_le_weak, Hlt, Hi.
        - rewrite <- Hi, <- Hbest. apply Qle_refl.
        - apply Hle, Hi. }
      rewrite (Hscore _ Hin), (column_eqb_false _ _ Hout), Hbs in Ho.
      revert Ho. unfold Qle; simpl; lia. }
    assert (Hneq : getCurrentColumn (task best) <> Some targetColumn).
    { intro Hc. apply column_eqb_true in Hc. congruence. }
    exists best, before, after. eexists.
    split; [reflexivity|]. split; [exact Hsplit|]. split; [exact Hneq|]. split.
    + intros el Hel. apply column_eqb_spec.
      destruct (column_eqb (getCurrentColumn el) targetColumn) eqn:E; [reflexivity|exfalso].
      assert (Hel' : In el (allStickyTasks currentData)).
      { rewrite Hsplit. apply in_or_app. left. exact Hel. }
      pose proof (Hlt el Hel) as Hl.
      rewrite (Hscore _ Hel'), E, Hbs, Hbout in Hl.
      revert Hl. unfold Qlt; simpl; lia.
    + apply (moveTaskByText_moved _ _ _ best Hb).
      rewrite Hbest. exact Hneq.
  - exfalso. pose proof (H _ Hin) as Hlow. rewrite (Hscore _ Hin) in Hlow.
    destruct (column_eqb (getCurrentColumn outside) targetColumn);
      revert Hlow; unfold Qle; simpl; lia.
Qed.

Lemma blank_phrase_witness :
  exists best before after moved,
    bestCandidate offsetBoard "   " todo = Some best
    /\ allStickyTasks offsetBoard = before ++ task best :: after
    /\ getCurrentColumn (task best) <> Some todo
    /\ (forall el, In el before -> getCurrentColumn el = Some todo)
    /\ moveTaskByText offsetBoard "   " todo = NewData moved.
Proof.
  apply (blank_phrase_moves_first_task_outside_target offsetBoard "   " todo
           (mkElement "b" sticky 520 180 (Some "write report"%string)
                      (Some "orange"%string) [])).
  - reflexivity.
  - intros el [<-|[<-|[]]]; discriminate.
  - right. left. reflexivity.
  - discriminate.
Defined.

(** ** get_whiteboard_info *)

Section InfoFacts.

Lemma infoColumn_getCurrentColumn (task : WhiteboardElement) :
  infoColumn task = getCurrentColumn task.
Proof. reflexivity. Qed.

Lemma inColumn_getCurrentColumn (column : KanbanColumn) (el : WhiteboardElement) :
  inColumn column el = true <-> getCurrentColumn el = Some column.
Proof.
  unfold inColumn, getCurrentColumn.
  destruct column;
    repeat match goal with
           | |- context [?a <=? ?b] => destruct (Z.leb_spec a b)
           end; cbn [andb]; split; intro Hx; try discriminate; try reflexivity; lia.
Qed.

(** The three column ranges are disjoint. *)
Lemma column_counts_le (l : list WhiteboardElement) :
  (List.length (filter (inColumn todo) l) + List.length (filter (inColumn inprogress) l)
   + List.length (filter (inColumn done) l) <= List.length l)%nat.
Proof.
  induction l as [|el l IH]; [reflexivity|].
  cbn [filter List.length].
  destruct (inColumn todo el) eqn:E1; destruct (inColumn inprogress el) eqn:E2;
    destruct (inColumn done el) eqn:E3; cbn [List.length]; try lia;
    repeat match goal with
           | H : inColumn _ _ = true |- _ => apply inColumn_getCurrentColumn in H
           end; congruence.
Qed.

End InfoFacts.

(** X5.  When [get_whiteboard_info] returns, every reported task is a
    sticky of the board whose text contains the query (case-insensitively)
    and whose reported column is the column [move_task] derives for it; if
    one of the three columns was asked for, every reported task is in it.
    The three column counts never add up to more than the number of
    stickies. *)
Theorem whiteboard_info_reports_consistent_columns :
  forall (currentData : WhiteboardData) (query : string) (column : option string)
         (info : WhiteboardInfo),
    whiteboardInfo currentData query column = Normal info ->
    (forall task col,
        In (task, col) (matchingTasks info) ->
        In task (elements currentData)
        /\ type task = sticky
        /\ col = getCurrentColumn task
        /\ (exists t, text task = Some t
                      /\ JsString.includes (JsString.toLowerCase t)
                                           (JsString.toLowerCase query) = true)
        /\ (forall c k, column = Some c -> columnNamed c = Some k -> col = Some k))
    /\ (fst (fst (columnCounts info)) + snd (fst (columnCounts info))
        + snd (columnCounts info) <= totalTasks info)%nat.
Proof.
  intros currentData query column info H. unfold whiteboardInfo in H.
  destruct (getWhiteboardInfo currentData query column) as [matching|m] eqn:Hg;
    [|discriminate].
  injection H as <-. cbn [matchingTasks columnCounts totalTasks fst snd].
  split; [|apply column_counts_le].
  intros task col Hin. apply in_map_iff in Hin. destruct Hin as (t0 & Heq & Hin).
  injection Heq as -> <-.
  unfold getWhiteboardInfo in Hg.
  set (allTasks := filter isSticky (elements currentData)) in *.
  set (filteredTasks := match column with Some c => _ | None => _ end) in *.
  destruct (forallb _ filteredTasks); [|discriminate].
  injection Hg as <-. apply filter_In in Hin. destruct Hin as [Hf Hq].
  assert (Hall : In task allTasks /\
                 forall c k, column = Some c -> columnNamed c = Some k ->
                             inColumn k task = true).
  { subst filteredTasks. destruct column as [c|].
    - assert (Hsame : forall c' k, Some c = Some c' -> columnNamed c' = Some k ->
                                   columnNamed c = Some k)
        by (intros c' k Hc' Hk; injection Hc' as ->; exact Hk).
      unfold columnNamed in Hsame.
      destruct (String.eqb c "todo");
        [|destruct (String.eqb c "inprogress"); [|destruct (String.eqb c "done")]].
      + apply filter_In in Hf. destruct Hf as [Hf Hc]. split; [exact Hf|].
        intros c' k Hc' Hk. specialize (Hsame c' k Hc' Hk). injection Hsame as <-. exact Hc.
      + apply filter_In in Hf. destruct Hf as [Hf Hc]. split; [exact Hf|].
        intros c' k Hc' Hk. specialize (Hsame c' k Hc' Hk). injection Hsame as <-. exact Hc.
      + apply filter_In in Hf. destruct Hf as [Hf Hc]. split; [exact Hf|].
        intros c' k Hc' Hk. specialize (Hsame c' k Hc' Hk). injection Hsame as <-. exact Hc.
      + split; [exact Hf|]. intros c' k Hc' Hk. specialize (Hsame c' k Hc' Hk). discriminate.
    - split; [exact Hf|]. intros c k Hc. discriminate. }
  destruct Hall as [Ha Hcol]. apply filter_In in Ha. destruct Ha as [Hel Hst].
  split; [exact Hel|]. split.
  { unfold isSticky in Hst. destruct (type task); try discriminate. reflexivity. }
  split; [reflexivity|]. split.
  { destruct (text task) as [t|]; [|discriminate]. exists t. split; [reflexivity|exact Hq]. }
  intros c k Hc Hk. rewrite infoColumn_getCurrentColumn.
  apply inColumn_getCurrentColumn, (Hcol c k Hc Hk).
Qed.

Lemma whiteboard_info_witness :
  (forall task col,
      In (task, col)
         [(mkElement "b" sticky 520 180 (Some "write report"%string)
                     (Some "orange"%string) [], Some inprogress)] ->
      In task (elements offsetBoard)
      /\ type task = sticky
      /\ col = getCurrentColumn task
      /\ (exists t, text task = Some t
                    /\ JsString.includes (JsString.toLowerCase t)
                                         (JsString.toLowerCase "REPORT") = true)
      /\ (forall c k, Some "inprogress"%string = Some c -> columnNamed c = Some k ->
                      col = Some k))
  /\ (1 + 1 + 0 <= 2)%nat.
Proof.
  exact (whiteboard_info_reports_consistent_columns offsetBoard "REPORT"
           (Some "inprogress"%string)
           (mkInfo 2
                   [(mkElement "b" sticky 520 180 (Some "write report"%string)
                               (Some "orange"%string) [], Some inprogress)]
                   (1%nat, 1%nat, 0%nat))
           eq_refl).
Defined.

(** ** The tool-call handler *)

(** What a batch adds to the messages of the handler that lists the
    names it processes. *)
Lemma onToolCall_sent (st : HandlerState) (calls : list FunctionCall) :
  sent (onToolCall st (Some calls))
  = sent st ++ map (fun call => [mkFunctionResponse (name call) (callId call) None])
                   (listedCalls calls)
  /\ published (onToolCall st (Some calls)) = published st.
Proof.
  unfold onToolCall. revert st. induction calls as [|call calls IH]; intro st.
  - cbn. rewrite app_nil_r. split; reflexivity.
  - cbn [fold_left]. destruct (IH (handleCall st call)) as [Hs Hp]. rewrite Hs, Hp.
    unfold listedCalls, handleCall. cbn [filter].
    destruct (includesName handledNames (name call)).
    + cbn [sent published sendToolResponse map]. rewrite <- app_assoc.
      split; reflexivity.
    + split; reflexivity.
Qed.


(** X7.  The handler that lists the names it processes answers a batch
    in call order with exactly one response per listed call: the
    identifiers answered are those answered before, followed by the
    identifiers of the listed calls of the batch in their order. *)
Theorem batch_answered_in_order :
  forall (st : HandlerState) (calls : list FunctionCall),
    answeredIds (onToolCall st (Some calls))
    = answeredIds st ++ map callId (listedCalls calls).
Proof.
  intros st calls. unfold answeredIds.
  rewrite (proj1 (onToolCall_sent st calls)), concat_app, map_app. f_equal.
  induction (listedCalls calls) as [|call l IH]; [reflexivity|].
  cbn [map List.concat app responseId]. rewrite IH. reflexivity.
Qed.


(** ** The recorder: stop() *)

Section StopFacts.

Import AudioRecorder.

Lemma handleStop_idempotent (r : Recorder) : handleStop (handleStop r) = handleStop r.
Proof. unfold handleStop. cbn. reflexivity. Qed.

(** Running the waiting [stop] handlers, at least one of them. *)
Lemma handleStops_stopped (l : list nat) (r : Recorder) :
  l <> [] ->
  let r' := fold_left (fun acc _ => handleStop acc) l r in
  stream r' = None /\ isRecording r' = false
  /\ stopped r' = stopped (handleStop r) /\ waiting r' = waiting r.
Proof.
  intro Hne. destruct l as [|q l]; [contradiction|]. clear Hne. cbn [fold_left].
  assert (H : forall r0, fold_left (fun acc _ => handleStop acc) l (handleStop r0)
                         = handleStop r0).
  { induction l as [|q' l IH]; intro r0; [reflexivity|].
    cbn [fold_left]. rewrite handleStop_idempotent. apply IH. }
  cbv zeta. rewrite H. repeat split.
Qed.

Lemma handleStops_bound (l : list nat) (r : Recorder) :
  let r' := fold_left (fun acc _ => handleStop acc) l r in
  (List.length (stopped r') <= List.length (stopped r) + List.length l)%nat
  /\ waiting r' = waiting r.
Proof.
  revert r. induction l as [|q l IH]; intro r; cbn [fold_left List.length].
  - cbv zeta. split; [lia|reflexivity].
  - destruct (IH (handleStop r)) as [H1 H2]. cbv zeta. rewrite H2. split; [|reflexivity].
    eapply Nat.le_trans; [exact H1|].
    unfold handleStop; cbn [stopped]. destruct (stream r); rewrite ?length_app; cbn; lia.
Qed.

Lemma filter_partition_length (p : nat) (l : list nat) :
  (List.length (filter (Nat.eqb p) l)
   + List.length (filter (fun q => negb (Nat.eqb q p)) l) = List.length l)%nat.
Proof.
  induction l as [|q l IH]; [reflexivity|]. cbn [filter].
  rewrite (Nat.eqb_sym q p). destruct (Nat.eqb p q); cbn [negb List.length]; lia.
Qed.

(** Streams stopped plus handlers waiting never exceed the [stop()] calls. *)
Lemma step_stop_budget (b : bool) (r : Recorder) (e : Event) :
  (List.length (stopped (step b r e)) + List.length (waiting (step b r e))
   <= List.length (stopped r) + List.length (waiting r) + (if isStop e then 1 else 0))%nat.
Proof.
  destruct e as [|p|p ok|]; cbn [step isStop].
  - unfold start. destruct (negb b); cbn; lia.
  - cbn. lia.
  - unfold settled.
    match goal with
    | |- context [fold_left _ ?l ?r1] => destruct (handleStops_bound l r1) as [H1 H2]
    end.
    cbv zeta in H1, H2. rewrite H2. cbn [stopped waiting] in *.
    pose proof (filter_partition_length p (waiting r)). lia.
  - unfold stop. destruct (starting r).
    + cbn [stopped waiting]. rewrite length_app. cbn. lia.
    + unfold handleStop; cbn [stopped waiting].
      destruct (stream r); rewrite ?length_app; cbn; lia.
Qed.

End StopFacts.

(** X8.  [stop()] issued while a [start()] is in flight takes effect when
    that start settles: whether the start succeeded or failed, the
    recorder then holds no stream, is not recording and has no start in
    flight. *)
Theorem stop_during_start_takes_effect_when_start_settles :
  forall (r : AudioRecorder.Recorder) (p : nat) (ok : bool),
    AudioRecorder.starting r = Some p ->
    let r' := AudioRecorder.settled p ok (AudioRecorder.stop r) in
    AudioRecorder.stream r' = None
    /\ AudioRecorder.isRecording r' = false
    /\ AudioRecorder.starting r' = None
    /\ (forall s, AudioRecorder.stream r = Some s -> In s (AudioRecorder.stopped r')).
Proof.
  intros r p ok Hs r'. subst r'. unfold AudioRecorder.stop. rewrite Hs.
  destruct (settled_fields p ok
              (AudioRecorder.mkRecorder (AudioRecorder.stream r) (AudioRecorder.isRecording r)
                 (Some p) (AudioRecorder.acquisitions r) (AudioRecorder.nextPromise r)
                 (AudioRecorder.stopped r) (AudioRecorder.waiting r ++ [p])))
    as (_ & _ & Hst).
  unfold AudioRecorder.settled in *. cbn [AudioRecorder.waiting AudioRecorder.stream
    AudioRecorder.isRecording AudioRecorder.acquisitions AudioRecorder.nextPromise
    AudioRecorder.stopped] in *.
  match goal with
  | |- context [fold_left _ ?l ?r1] =>
      assert (Hne : l <> []);
      [|destruct (handleStops_stopped l r1 Hne) as (H1 & H2 & H3 & _)]
  end.
  { rewrite filter_app. cbn [filter]. rewrite Nat.eqb_refl.
    intro H. apply app_eq_nil in H. destruct H as [_ H]. discriminate. }
  cbv zeta in H1, H2, H3. split; [exact H1|]. split; [exact H2|]. split; [exact Hst|].
  intros s Hstream. rewrite H3. unfold AudioRecorder.handleStop.
  cbn [AudioRecorder.stopped AudioRecorder.stream]. rewrite Hstream.
  apply in_or_app. right. left. reflexivity.
Qed.

Lemma stop_during_start_witness :
  let r := AudioRecorder.granted 0
             (fst (AudioRecorder.start true AudioRecorder.constructor)) in
  let r' := AudioRecorder.settled 0 true (AudioRecorder.stop r) in
  AudioRecorder.stream r' = None
  /\ AudioRecorder.isRecording r' = false
  /\ AudioRecorder.starting r' = None
  /\ (forall s, AudioRecorder.stream r = Some s -> In s (AudioRecorder.stopped r')).
Proof.
  exact (stop_during_start_takes_effect_when_start_settles
           (AudioRecorder.granted 0 (fst (AudioRecorder.start true AudioRecorder.constructor)))
           0%nat true eq_refl).
Defined.

(** X9.  Each [stop()] call stops at most one stream: after any history of
    calls and completions the number of streams stopped is at most the
    number of [stop()] calls, however many [start()] calls acquired a
    stream. *)
Theorem stopped_streams_bounded_by_stop_calls :
  forall (hasMediaDevices : bool) (events : list AudioRecorder.Event),
    (List.length (AudioRecorder.stopped
                    (AudioRecorder.run hasMediaDevices events AudioRecorder.constructor))
     <= stopCalls events)%nat.
Proof.
  intros b events.
  assert (H : forall r,
             (List.length (AudioRecorder.stopped (AudioRecorder.run b events r))
              + List.length (AudioRecorder.waiting (AudioRecorder.run b events r))
              <= List.length (AudioRecorder.stopped r) + List.length (AudioRecorder.waiting r)
                 + stopCalls events)%nat).
  { induction events as [|e events IH]; intro r.
    - unfold stopCalls. cbn. lia.
    - change (AudioRecorder.run b (e :: events) r)
        with (AudioRecorder.run b events (AudioRecorder.step b r e)).
      pose proof (IH (AudioRecorder.step b r e)) as H1.
      pose proof (step_stop_budget b r e) as H2.
      unfold stopCalls in *. cbn [filter].
      destruct (isStop e); cbn [List.length]; lia. }
  specialize (H AudioRecorder.constructor). cbn in H. lia.
Qed.

(** X10.  [stop()] on a recorder with no start in flight is safe to
    repeat: it leaves the recorder without stream and not recording, asks
    for no device, and a second [stop()] changes nothing more. *)
Theorem idle_stop_is_idempotent :
  forall r : AudioRecorder.Recorder,
    AudioRecorder.starting r = None ->
    AudioRecorder.stop (AudioRecorder.stop r) = AudioRecorder.stop r
    /\ AudioRecorder.stream (AudioRecorder.stop r) = None
    /\ AudioRecorder.isRecording (AudioRecorder.stop r) = false
    /\ AudioRecorder.acquisitions (AudioRecorder.stop r) = AudioRecorder.acquisitions r.
Proof.
  intros r Hs. unfold AudioRecorder.stop. rewrite Hs.
  cbn [AudioRecorder.handleStop AudioRecorder.starting]. rewrite Hs.
  split; [apply handleStop_idempotent|]. repeat split.
Qed.

Lemma idle_stop_witness :
  AudioRecorder.stop (AudioRecorder.stop AudioRecorder.constructor)
  = AudioRecorder.stop AudioRecorder.constructor
  /\ AudioRecorder.stream (AudioRecorder.stop AudioRecorder.constructor) = None
  /\ AudioRecorder.isRecording (AudioRecorder.stop AudioRecorder.constructor) = false
  /\ AudioRecorder.acquisitions (AudioRecorder.stop AudioRecorder.constructor)
     = AudioRecorder.acquisitions AudioRecorder.constructor.
Proof.
  exact (idle_stop_is_idempotent AudioRecorder.constructor eq_refl).
Defined.

(** ** The capture framer: no sample is lost *)

Section FramerContents.

Import Worklet.

Lemma firstn_setAt (buf : list Z) (i : nat) (v : Z) :
  (i < List.length buf)%nat -> firstn (S i) (setAt buf i v) = firstn i buf ++ [v].
Proof.
  revert i. induction buf as [|b buf IH]; intros [|i] H; cbn in H; try lia.
  - reflexivity.
  - cbn [setAt].
    change (firstn (S (S i)) (b :: setAt buf i v)) with (b :: firstn (S i) (setAt buf i v)).
    rewrite IH by lia. reflexivity.
Qed.

Lemma processSample_contents (n total : nat) (w : AudioProcessingWorklet) (sample : Q) :
  framed n total w ->
  framerContents (processSample w sample) = framerContents w ++ [storedSample sample].
Proof.
  intros (Hlen & Hidx & _ & _). unfold processSample, framerContents.
  cbn [buffer bufferWriteIndex posted]. rewrite setAt_length.
  destruct (Nat.leb_spec (List.length (buffer w)) (S (bufferWriteIndex w))).
  - unfold sendAndClearBuffer. cbn [buffer bufferWriteIndex posted].
    rewrite firstn_O, app_nil_r, concat_app. cbn [List.concat]. rewrite app_nil_r.
    rewrite firstn_setAt by lia. rewrite app_assoc. reflexivity.
  - cbn [buffer bufferWriteIndex posted].
    rewrite firstn_setAt by lia. rewrite app_assoc. reflexivity.
Qed.

Lemma processChunk_contents (n total : nat) (w : AudioProcessingWorklet) (samples : list Q) :
  framed n total w ->
  framerContents (processChunk w samples)
  = framerContents w ++ map storedSample samples.
Proof.
  intro H. unfold processChunk.
  assert (Hf : framed n (List.length samples + total) (fold_left processSample samples w)
               /\ framerContents (fold_left processSample samples w)
                  = framerContents w ++ map storedSample samples).
  { revert total w H. induction samples as [|s samples IH]; intros total w H.
    - split; [exact H|]. cbn. rewrite app_nil_r. reflexivity.
    - cbn [fold_left List.length map].
      destruct (IH (S total) (processSample w s) (processSample_framed _ _ _ _ H))
        as [Hf Hc].
      split.
      + replace (S (List.length samples) + total)%nat
          with (List.length samples + S total)%nat by lia. exact Hf.
      + rewrite Hc, (processSample_contents n total w s H), <- app_assoc. reflexivity. }
  destruct Hf as [(Hlen & Hidx & _ & _) Hc].
  destruct (Nat.leb_spec (List.length (buffer (fold_left processSample samples w)))
                         (bufferWriteIndex (fold_left processSample samples w)));
    [lia|exact Hc].
Qed.

Lemma run_contents (n total : nat) (w : AudioProcessingWorklet)
    (frames : list (list (list Q))) :
  framed n total w ->
  framerContents (fold_left process frames w)
  = framerContents w ++ map storedSample (fedSamples frames).
Proof.
  revert total w. induction frames as [|f frames IH]; intros total w H.
  - cbn. rewrite app_nil_r. reflexivity.
  - cbn [fold_left]. unfold fedSamples. cbn [map List.concat]. fold (fedSamples frames).
    rewrite (IH (samplesOf f + total)%nat _ (process_framed _ _ _ _ H)).
    rewrite map_app, app_assoc. f_equal.
    destruct f as [|channel0 others]; cbn [process channelSamples map].
    + rewrite app_nil_r. reflexivity.
    + apply (processChunk_contents n total), H.
Qed.

End FramerContents.

(** X11.  The framer neither drops, duplicates nor reorders samples: after
    any sequence of render quanta, the posted chunks followed by the
    filled part of the buffer are exactly the stored values of the samples
    of the first channel, in the order they were fed. *)
Theorem capture_framer_keeps_every_sample_in_order :
  forall frames : list (list (list Q)),
    framerContents (Worklet.run frames) = map Worklet.storedSample (fedSamples frames).
Proof.
  intro frames. unfold Worklet.run.
  rewrite (run_contents 2048 0 _ frames constructor_framed). reflexivity.
Qed.

(** X12.  A sample of [-1, 1) is stored without wrap-around: the stored
    value is the scaled sample truncated toward zero, lies between -32768
    and 32767, and differs from the scaled sample by less than one. *)
Theorem in_range_sample_is_stored_within_one_unit :
  forall sample : Q,
    (-1 <= sample)%Q -> (sample < 1)%Q ->
    Worklet.storedSample sample = Worklet.truncate (Worklet.int16Value sample)
    /\ -32768 <= Worklet.storedSample sample <= 32767
    /\ (inject_Z (Worklet.storedSample sample) - 1 < Worklet.int16Value sample)%Q
    /\ (Worklet.int16Value sample < inject_Z (Worklet.storedSample sample) + 1)%Q.
Proof.
  intros sample Hlo Hhi.
  destruct (storedSample_below_one sample Hlo Hhi) as [Heq Hrange].
  split; [exact Heq|]. split; [exact Hrange|]. rewrite Heq.
  destruct sample as [p q]. unfold Worklet.int16Value, Worklet.truncate, Qmult, Qlt, Qminus,
    Qplus, Qopp, inject_Z. cbn [Qnum Qden]. rewrite Pos.mul_1_r.
  pose proof (Z.quot_rem' (p * 32768) (Z.pos q)) as Hqr.
  pose proof (Z.rem_bound_abs (p * 32768) (Z.pos q) ltac:(lia)) as Hr.
  split; nia.
Qed.

Lemma in_range_sample_witness :
  Worklet.storedSample (-(1 # 3)) = Worklet.truncate (Worklet.int16Value (-(1 # 3)))
  /\ -32768 <= Worklet.storedSample (-(1 # 3)) <= 32767
  /\ (inject_Z (Worklet.storedSample (-(1 # 3))) - 1 < Worklet.int16Value (-(1 # 3)))%Q
  /\ (Worklet.int16Value (-(1 # 3)) < inject_Z (Worklet.storedSample (-(1 # 3))) + 1)%Q.
Proof.
  apply (in_range_sample_is_stored_within_one_unit (-(1 # 3))).
  - unfold Qle. simpl. lia.
  - reflexivity.
Defined.

(** ** The base64 framing: size and rejection *)

Section Base64More.

Import Base64.

Lemma btoaChars_length (binary : list ascii) :
  List.length (btoaChars binary) = (4 * ((List.length binary + 2) / 3))%nat.
Proof.
  induction binary as [|a|a b|a b c binary IH] using list_ind3; try reflexivity.
  cbn [btoaChars List.length]. rewrite IH.
  replace (S (S (S (List.length binary))) + 2)%nat
    with (1 * 3 + (List.length binary + 2))%nat by lia.
  rewrite Nat.div_add_l by discriminate. lia.
Qed.

Lemma string_of_list_ascii_length (l : list ascii) :
  String.length (string_of_list_ascii l) = List.length l.
Proof. induction l as [|a l IH]; cbn; [reflexivity|rewrite IH; reflexivity]. Qed.

Lemma list_ascii_of_string_length (s : string) :
  List.length (list_ascii_of_string s) = String.length s.
Proof. induction s as [|a s IH]; cbn; [reflexivity|rewrite IH; reflexivity]. Qed.

Lemma sextetsOf_rejects (data : list ascii) (c : ascii) :
  In c data -> charSextet c = None -> sextetsOf data = None.
Proof.
  induction data as [|d data IH]; intros Hin Hc; [destruct Hin|].
  cbn [sextetsOf]. destruct Hin as [->|Hin].
  - rewrite Hc. reflexivity.
  - rewrite (IH Hin Hc). destruct (charSextet d); reflexivity.
Qed.

Lemma dropPadding_keeps (data : list ascii) (c : ascii) :
  In c data -> isPad c = false -> In c (dropPadding data).
Proof.
  intros Hin Hc. unfold dropPadding.
  destruct (rev data) as [|c1 [|c2 r]] eqn:Hr; [exact Hin| |].
  - destruct (isPad c1) eqn:E1; [|exact Hin].
    apply in_rev in Hin. rewrite Hr in Hin. destruct Hin as [<-|[]]. congruence.
  - destruct (isPad c1) eqn:E1; [|exact Hin].
    apply in_rev in Hin. rewrite Hr in Hin.
    destruct Hin as [<-|Hin]; [congruence|].
    destruct (isPad c2) eqn:E2.
    + destruct Hin as [<-|Hin]; [congruence|]. apply in_rev in Hin. exact Hin.
    + apply -> in_rev. exact Hin.
Qed.

End Base64More.

(** X13.  The base64 text of a buffer of n bytes has 4 * ceil(n / 3)
    characters. *)
Theorem base64_length :
  forall buffer : list byte,
    String.length (Base64.arrayBufferToBase64 buffer)
    = (4 * ((List.length buffer + 2) / 3))%nat.
Proof.
  intro buffer. unfold Base64.arrayBufferToBase64, Base64.btoa.
  rewrite string_of_list_ascii_length, btoaChars_length, list_ascii_of_string_length.
  unfold string_of_list_byte. rewrite string_of_list_ascii_length, length_map. reflexivity.
Qed.

(** X14.  [base64ToArrayBuffer] fails (the exception of [atob] is not
    caught) on every text that contains a character which is neither in
    the base64 alphabet, nor [=], nor ASCII white space. *)
Theorem base64_decoding_rejects_foreign_characters :
  forall (base64 : string) (c : ascii),
    In c (list_ascii_of_string base64) ->
    Base64.charSextet c = None ->
    Base64.isPad c = false ->
    Base64.isAsciiWhitespace c = false ->
    Base64.base64ToArrayBuffer base64 = None.
Proof.
  intros base64 c Hin Hc Hp Hw. unfold Base64.base64ToArrayBuffer, Base64.atob. cbv zeta.
  set (data := filter (fun c0 => negb (Base64.isAsciiWhitespace c0))
                      (list_ascii_of_string base64)).
  assert (Hd : In c data).
  { apply filter_In. split; [exact Hin|]. rewrite Hw. reflexivity. }
  set (data' := if (N.of_nat (List.length data) mod 4 =? 0)%N
                then Base64.dropPadding data else data).
  assert (Hd' : In c data').
  { subst data'. destruct (N.of_nat (List.length data) mod 4 =? 0)%N;
      [apply dropPadding_keeps; assumption|exact Hd]. }
  rewrite (sextetsOf_rejects data' c Hd' Hc).
  destruct (N.of_nat (List.length data') mod 4 =? 1)%N; reflexivity.
Qed.

Lemma base64_rejection_witness :
  Base64.base64ToArrayBuffer "TWFu-TWFu" = None.
Proof.
  apply (base64_decoding_rejects_foreign_characters "TWFu-TWFu" "-"%char).
  - right. right. right. right. left. reflexivity.
  - reflexivity.
  - reflexivity.
  - reflexivity.
Defined.

(** ** update_whiteboard *)

Section UpdateFacts.

Lemma mapIndexed_nth {A B : Type} (f : nat -> A -> Completion B) (l : list A) :
  forall (i : nat) (bs : list B),
    mapIndexed f i l = Normal bs ->
    List.length bs = List.length l
    /\ forall k a, nth_error l k = Some a ->
                   exists b, nth_error bs k = Some b /\ f (i + k)%nat a = Normal b.
Proof.
  induction l as [|a l IH]; intros i bs H; cbn [mapIndexed] in H.
  - injection H as <-. split; [reflexivity|]. intros [|k] a' Hk; discriminate.
  - destruct (f i a) as [b|m] eqn:Hf; [|discriminate].
    destruct (mapIndexed f (S i) l) as [bs'|m] eqn:Hm; [|discriminate].
    injection H as <-. destruct (IH _ _ Hm) as [Hlen Hnth].
    split; [cbn; rewrite Hlen; reflexivity|].
    intros [|k] a' Hk; cbn [nth_error] in *.
    + injection Hk as <-. exists b. rewrite Nat.add_0_r. split; [reflexivity|exact Hf].
    + destruct (Hnth k a' Hk) as (b' & Hb & Hfb). exists b'. split; [exact Hb|].
      rewrite <- Nat.add_succ_comm. exact Hfb.
Qed.

Lemma mapIndexed_In {A B : Type} (f : nat -> A -> Completion B) (l : list A) :
  forall (i : nat) (bs : list B) (b : B),
    mapIndexed f i l = Normal bs -> In b bs ->
    exists k a, In a l /\ f k a = Normal b.
Proof.
  induction l as [|a l IH]; intros i bs b H Hin; cbn [mapIndexed] in H.
  - injection H as <-. destruct Hin.
  - destruct (f i a) as [b0|m] eqn:Hf; [|discriminate].
    destruct (mapIndexed f (S i) l) as [bs'|m] eqn:Hm; [|discriminate].
    injection H as <-. destruct Hin as [<-|Hin].
    + exists i, a. split; [left; reflexivity|exact Hf].
    + destruct (IH _ _ _ Hm Hin) as (k & a' & Ha & Hk).
      exists k, a'. split; [right; exact Ha|exact Hk].
Qed.

Lemma mapIndexed_all_normal {A B : Type} (f : nat -> A -> Completion B) (l : list A) :
  Forall (fun a => forall k, exists b, f k a = Normal b) l ->
  forall i, exists bs, mapIndexed f i l = Normal bs.
Proof.
  induction 1 as [|a l Ha _ IH]; intro i; cbn [mapIndexed].
  - eexists. reflexivity.
  - destruct (Ha i) as [b ->]. destruct (IH (S i)) as [bs ->]. eexists. reflexivity.
Qed.

Lemma mapIndexed_throws {A B : Type} (f : nat -> A -> Completion B) (l : list A) (a : A) :
  In a l -> (forall k, exists m, f k a = Throw m) ->
  forall i, exists m, mapIndexed f i l = Throw m.
Proof.
  induction l as [|a0 l IH]; intros Hin Ha i; [destruct Hin|].
  cbn [mapIndexed]. destruct Hin as [->|Hin].
  - destruct (Ha i) as [m ->]. eexists. reflexivity.
  - destruct (f i a0); [|eexists; reflexivity].
    destruct (IH Hin Ha (S i)) as [m ->]. eexists. reflexivity.
Qed.

Lemma orString_nonempty (s : option string) (d : string) :
  d <> EmptyString -> orString s d <> EmptyString.
Proof.
  intro Hd. unfold orString. destruct s as [v|]; [|exact Hd].
  destruct (String.eqb_spec v EmptyString); assumption.
Qed.

Lemma orNumber_nonzero (n : option Z) (d : Z) : d <> 0 -> orNumber n d <> 0.
Proof.
  intro Hd. unfold orNumber. destruct n as [v|]; [|exact Hd].
  destruct (Z.eqb_spec v 0); assumption.
Qed.

Lemma orNumber_some (v d : Z) : v <> 0 -> orNumber (Some v) d = v.
Proof. intro H. unfold orNumber. destruct (Z.eqb_spec v 0); [contradiction|reflexivity]. Qed.

Lemma validateAndFixElement_cases (fallbackId : string) (element : RawElement) :
  (knownType element = true
   /\ exists el, validateAndFixElement fallbackId element = Normal el
                 /\ validated fallbackId el
                 /\ id el = orString (rawId element) fallbackId
                 /\ x el = orNumber (rawX element) 100
                 /\ y el = orNumber (rawY element) 100
                 /\ (hasType element "sticky" = true ->
                     type el = sticky
                     /\ text el = Some (orString (rawText element) "New note")
                     /\ color el = Some (orString (rawColor element) "yellow")))
  \/ (knownType element = false
      /\ exists m, validateAndFixElement fallbackId element = Throw m).
Proof.
  unfold validateAndFixElement, knownType, hasType, validated.
  destruct (rawType element) as [t|]; [|right; split; [reflexivity|eexists; reflexivity]].
  assert (Hx : orNumber (rawX element) 100 <> 0) by (apply orNumber_nonzero; lia).
  assert (Hy : orNumber (rawY element) 100 <> 0) by (apply orNumber_nonzero; lia).
  destruct (String.eqb t "sticky") eqn:E1.
  { left. split; [reflexivity|]. eexists. split; [reflexivity|]. cbn [x y id type text color].
    split.
    - split; [exact Hx|]. split; [exact Hy|]. split.
      + intro Hf. apply orString_nonempty, Hf.
      + intros _. do 2 eexists. split; [reflexivity|]. split;
          [apply orString_nonempty; discriminate|].
        split; [reflexivity|apply orString_nonempty; discriminate].
    - repeat split. }
  destruct (String.eqb t "flow-node") eqn:E2;
    [|destruct (String.eqb t "mermaid") eqn:E3; [|destruct (String.eqb t "embed") eqn:E4]].
  4: right; split; [reflexivity|eexists; reflexivity].
  all: left; split; [reflexivity|]; eexists; split; [reflexivity|];
    cbn [x y id type text color]; split;
    [split; [exact Hx|]; split; [exact Hy|]; split;
       [intro Hf; apply orString_nonempty, Hf|intro Hk; discriminate]
    |repeat split; discriminate].
Qed.

Lemma placeForAdd_type (currentData : WhiteboardData) (index : nat) (element : RawElement) :
  rawType (placeForAdd currentData index element) = rawType element
  /\ rawId (placeForAdd currentData index element) = rawId element
  /\ rawText (placeForAdd currentData index element) = rawText element.
Proof.
  unfold placeForAdd.
  destruct (hasType element "sticky" && _).
  - destruct (isSummary element); [repeat split|].
    destruct (String.eqb _ _); repeat split.
  - destruct (missingNumber (rawX element) || missingNumber (rawY element)); repeat split.
Qed.

Lemma placeForReplace_type (index : nat) (element : RawElement) :
  rawType (placeForReplace index element) = rawType element.
Proof.
  unfold placeForReplace.
  destruct (missingNumber (rawX element) || missingNumber (rawY element)); reflexivity.
Qed.

Lemma knownType_by_type (e e' : RawElement) :
  rawType e = rawType e' -> knownType e = knownType e'.
Proof. intro H. unfold knownType, hasType. rewrite H. reflexivity. Qed.

End UpdateFacts.

(** X15.  [add] and [replace] are all or nothing: the call returns a new
    snapshot exactly when every element of the batch has one of the four
    known kinds; a single element of an unknown or missing kind makes the
    whole call throw, whatever the other elements are. *)
Theorem add_and_replace_reject_unknown_kinds :
  forall (freshId : nat -> string) (currentData : WhiteboardData) (els : list RawElement),
    ((exists d, processWhiteboardToolCall freshId currentData (addCall els) = Normal d)
     <-> Forall (fun e => knownType e = true) els)
    /\ ((exists d, processWhiteboardToolCall freshId currentData (replaceCall els) = Normal d)
        <-> Forall (fun e => knownType e = true) els)
    /\ (Exists (fun e => knownType e = false) els ->
        (exists m, processWhiteboardToolCall freshId currentData (addCall els) = Throw m)
        /\ (exists m, processWhiteboardToolCall freshId currentData (replaceCall els)
                      = Throw m)).
Proof.
  intros freshId currentData els.
  set (fa := fun index element =>
               validateAndFixElement (freshId index) (placeForAdd currentData index element)).
  set (fr := fun index element =>
               validateAndFixElement (freshId index) (placeForReplace index element)).
  assert (Ha : forall e k, knownType e = true -> exists b, fa k e = Normal b).
  { intros e k He. unfold fa.
    destruct (validateAndFixElement_cases (freshId k) (placeForAdd currentData k e))
      as [[_ (el & Hel & _)]|[Hk _]]; [exists el; exact Hel|].
    rewrite (knownType_by_type _ e (proj1 (placeForAdd_type currentData k e))) in Hk.
    congruence. }
  assert (Hr : forall e k, knownType e = true -> exists b, fr k e = Normal b).
  { intros e k He. unfold fr.
    destruct (validateAndFixElement_cases (freshId k) (placeForReplace k e))
      as [[_ (el & Hel & _)]|[Hk _]]; [exists el; exact Hel|].
    rewrite (knownType_by_type _ e (placeForReplace_type k e)) in Hk. congruence. }
  assert (Ha' : forall e k, knownType e = false -> exists m, fa k e = Throw m).
  { intros e k He. unfold fa.
    destruct (validateAndFixElement_cases (freshId k) (placeForAdd currentData k e))
      as [[Hk _]|[_ Hm]]; [|exact Hm].
    rewrite (knownType_by_type _ e (proj1 (placeForAdd_type currentData k e))) in Hk.
    congruence. }
  assert (Hr' : forall e k, knownType e = false -> exists m, fr k e = Throw m).
  { intros e k He. unfold fr.
    destruct (validateAndFixElement_cases (freshId k) (placeForReplace k e))
      as [[Hk _]|[_ Hm]]; [|exact Hm].
    rewrite (knownType_by_type _ e (placeForReplace_type k e)) in Hk. congruence. }
  assert (Hadd : processWhiteboardToolCall freshId currentData (addCall els)
                 = match mapIndexed fa 0 els with
                   | Normal added => Normal (mkData (elements currentData ++ added))
                   | Throw m => Throw m
                   end) by reflexivity.
  assert (Hrep : processWhiteboardToolCall freshId currentData (replaceCall els)
                 = match mapIndexed fr 0 els with
                   | Normal valid => Normal (mkData valid)
                   | Throw m => Throw m
                   end) by reflexivity.
  assert (Hdec : Forall (fun e => knownType e = true) els
                 \/ Exists (fun e => knownType e = false) els).
  { clear. induction els as [|e els [IH|IH]].
    - left. constructor.
    - destruct (knownType e) eqn:E; [left; constructor; assumption|].
      right. constructor. exact E.
    - right. apply Exists_cons_tl, IH. }
  assert (Hthrow : Exists (fun e => knownType e = false) els ->
                   (exists m, mapIndexed fa 0 els = Throw m)
                   /\ (exists m, mapIndexed fr 0 els = Throw m)).
  { intro Hex. apply Exists_exists in Hex. destruct Hex as (e & Hin & He). split.
    - apply (mapIndexed_throws fa els e Hin). intro k. apply Ha', He.
    - apply (mapIndexed_throws fr els e Hin). intro k. apply Hr', He. }
  rewrite Hadd, Hrep. split; [|split].
  - split.
    + intros [d Hd]. destruct Hdec as [H|H]; [exact H|].
      destruct (Hthrow H) as [[m Hm] _]. rewrite Hm in Hd. discriminate.
    + intro Hall.
      destruct (mapIndexed_all_normal fa els) with (i := 0%nat) as [bs ->].
      * eapply Forall_impl; [|exact Hall]. intros e He k. apply Ha, He.
      * eexists. reflexivity.
  - split.
    + intros [d Hd]. destruct Hdec as [H|H]; [exact H|].
      destruct (Hthrow H) as [_ [m Hm]]. rewrite Hm in Hd. discriminate.
    + intro Hall.
      destruct (mapIndexed_all_normal fr els) with (i := 0%nat) as [bs ->].
      * eapply Forall_impl; [|exact Hall]. intros e He k. apply Hr, He.
      * eexists. reflexivity.
  - intro Hex. destruct (Hthrow Hex) as [[m1 ->] [m2 ->]].
    split; eexists; reflexivity.
Qed.

(** X16.  [add] keeps the elements of the board as they are and in their
    order, and appends one element per element of the batch; every
    appended element has non-zero coordinates and a non-empty identifier
    (if the clock's identifiers are non-empty), and a sticky among them
    has a non-empty text and a non-empty colour. *)
Theorem add_appends_validated_elements :
  forall (freshId : nat -> string) (currentData : WhiteboardData) (els : list RawElement)
         (d : WhiteboardData),
    processWhiteboardToolCall freshId currentData (addCall els) = Normal d ->
    exists added,
      elements d = elements currentData ++ added
      /\ List.length added = List.length els
      /\ Forall (fun el => exists k, validated (freshId k) el) added.
Proof.
  intros freshId currentData els d H.
  change (processWhiteboardToolCall freshId currentData (addCall els))
    with (match mapIndexed (fun index element =>
                              validateAndFixElement (freshId index)
                                (placeForAdd currentData index element)) 0 els with
          | Normal added => Normal (mkData (elements currentData ++ added))
          | Throw m => Throw m
          end) in H.
  destruct (mapIndexed _ 0 els) as [added|m] eqn:Hm; [|discriminate].
  injection H as <-. exists added. split; [reflexivity|].
  split; [apply (mapIndexed_nth _ _ _ _ Hm)|].
  apply Forall_forall. intros el Hin.
  destruct (mapIndexed_In _ _ _ _ _ Hm Hin) as (k & a & _ & Hk). exists k.
  destruct (validateAndFixElement_cases (freshId k) (placeForAdd currentData k a))
    as [[_ (el' & Hel & Hv & _)]|[_ [m Hthrow]]]; [|congruence].
  rewrite Hk in Hel. injection Hel as <-. exact Hv.
Qed.

Lemma add_appends_witness :
  exists added,
    elements (mkData (elements doneBoard
                      ++ [mkElement "element-1" sticky 100 180 (Some "write docs"%string)
                                    (Some "yellow"%string) []]))
    = elements doneBoard ++ added
    /\ List.length added = List.length [rawNote "write docs"]
    /\ Forall (fun el => exists k : nat, validated "element-1" el) added.
Proof.
  exact (add_appends_validated_elements (fun _ : nat => "element-1"%string) doneBoard
           [rawNote "write docs"]
           (mkData (elements doneBoard
                    ++ [mkElement "element-1" sticky 100 180 (Some "write docs"%string)
                                  (Some "yellow"%string) []]))
           eq_refl).
Defined.

Section AddPlacement.

Variable freshId : nat -> string.
Variable currentData : WhiteboardData.

Lemma kanbanColumns_nonzero (c : KanbanColumn) : kanbanColumns c <> 0.
Proof. destruct c; discriminate. Qed.

(** The element [add] makes of a task sticky that comes without
    coordinates. *)
Lemma placed_task_sticky (index : nat) (e : RawElement) (a : WhiteboardElement) :
  unplacedSticky e = true -> isSummary e = false ->
  validateAndFixElement (freshId index) (placeForAdd currentData index e) = Normal a ->
  type a = sticky
  /\ x a = kanbanColumns (columnForNew e)
  /\ y a = 180 + Z.of_nat (List.length (elementsInColumn currentData
                                          (kanbanColumns (columnForNew e)))) * 90
  /\ color a = Some (orString (rawColor e) (columnColor (columnForNew e))).
Proof.
  intros Hu Hs Hv. unfold unplacedSticky in Hu.
  assert (Hst : hasType e "sticky" = true) by (apply andb_true_iff in Hu; apply Hu).
  set (col := columnForNew e) in *.
  set (n := Z.of_nat (List.length (elementsInColumn currentData (kanbanColumns col)))).
  assert (Hplace : exists c,
             placeForAdd currentData index e
             = withPosition (withColor e c) (kanbanColumns col) (180 + n * 90)
             /\ orString (Some c) "yellow" = orString (rawColor e) (columnColor col)).
  { unfold placeForAdd. rewrite Hu, Hs. fold col. fold n.
    unfold generateElementPosition, startY, spacingY. cbn [fst snd].
    unfold orString at 1.
    destruct (rawColor e) as [c|] eqn:Hc.
    - destruct (String.eqb_spec c EmptyString) as [->|Hne].
      + cbn. exists (columnColor col). split; [reflexivity|].
        unfold orString. destruct col; reflexivity.
      + exists c. destruct (String.eqb_spec c EmptyString) as [|_]; [contradiction|].
        split.
        * unfold withColor, withPosition. rewrite Hc. destruct e; reflexivity.
        * unfold orString. destruct (String.eqb_spec c EmptyString); [contradiction|].
          reflexivity.
    - cbn. exists (columnColor col). split; [reflexivity|].
      unfold orString. destruct col; reflexivity. }
  destruct Hplace as (c & Hp & Hc).
  destruct (validateAndFixElement_cases (freshId index) (placeForAdd currentData index e))
    as [[_ (el & Hel & _ & _ & Hx & Hy & Hsticky)]|[_ [m Hm]]]; [|congruence].
  rewrite Hv in Hel. injection Hel as <-.
  assert (Hst' : hasType (placeForAdd currentData index e) "sticky" = true).
  { unfold hasType. rewrite (proj1 (placeForAdd_type currentData index e)). exact Hst. }
  destruct (Hsticky Hst') as (Ht & _ & Hcolor).
  rewrite Hp in Hx, Hy, Hcolor. cbn [withPosition withColor rawX rawY rawColor] in Hx, Hy, Hcolor.
  rewrite (orNumber_some _ _ (kanbanColumns_nonzero col)) in Hx.
  rewrite orNumber_some in Hy by (subst n; lia).
  rewrite Hc in Hcolor. repeat split; assumption.
Qed.

Lemma placed_summary (index : nat) (e : RawElement) (a : WhiteboardElement) :
  unplacedSticky e = true -> isSummary e = true ->
  validateAndFixElement (freshId index) (placeForAdd currentData index e) = Normal a ->
  type a = sticky /\ x a = 450 /\ y a = 650
  /\ color a = Some (orString (rawColor e) "blue").
Proof.
  intros Hu Hs Hv. unfold unplacedSticky in Hu.
  assert (Hst : hasType e "sticky" = true) by (apply andb_true_iff in Hu; apply Hu).
  assert (Hp : placeForAdd currentData index e
               = withPosition (withColor e (orString (rawColor e) "blue")) 450 650).
  { unfold placeForAdd. rewrite Hu, Hs. reflexivity. }
  destruct (validateAndFixElement_cases (freshId index) (placeForAdd currentData index e))
    as [[_ (el & Hel & _ & _ & Hx & Hy & Hsticky)]|[_ [m Hm]]]; [|congruence].
  rewrite Hv in Hel. injection Hel as <-.
  assert (Hst' : hasType (placeForAdd currentData index e) "sticky" = true).
  { unfold hasType. rewrite (proj1 (placeForAdd_type currentData index e)). exact Hst. }
  destruct (Hsticky Hst') as (Ht & _ & Hcolor).
  rewrite Hp in Hx, Hy, Hcolor. cbn [withPosition withColor rawX rawY rawColor] in Hx, Hy, Hcolor.
  rewrite orNumber_some in Hx by discriminate. rewrite orNumber_some in Hy by discriminate.
  split; [exact Ht|]. split; [exact Hx|]. split; [exact Hy|].
  rewrite Hcolor. f_equal. unfold orString.
  destruct (rawColor e) as [c|]; [|reflexivity].
  destruct (String.eqb_spec c EmptyString) as [->|Hne]; [reflexivity|].
  destruct (String.eqb_spec c EmptyString); [contradiction|reflexivity].
Qed.

Lemma add_nth (els : list RawElement) (d : WhiteboardData) (k : nat) (e : RawElement) :
  processWhiteboardToolCall freshId currentData (addCall els) = Normal d ->
  nth_error els k = Some e ->
  exists a,
    nth_error (elements d) (List.length (elements currentData) + k) = Some a
    /\ validateAndFixElement (freshId k) (placeForAdd currentData k e) = Normal a.
Proof.
  intros H Hk.
  change (processWhiteboardToolCall freshId currentData (addCall els))
    with (match mapIndexed (fun index element =>
                              validateAndFixElement (freshId index)
                                (placeForAdd currentData index element)) 0 els with
          | Normal added => Normal (mkData (elements currentData ++ added))
          | Throw m => Throw m
          end) in H.
  destruct (mapIndexed _ 0 els) as [added|m] eqn:Hm; [|discriminate].
  injection H as <-. destruct (mapIndexed_nth _ _ _ _ Hm) as [_ Hnth].
  destruct (Hnth k e Hk) as (a & Ha & Hf). exists a. cbn [elements]. split; [|exact Hf].
  rewrite nth_error_app2 by lia.
  replace (List.length (elements currentData) + k - List.length (elements currentData))%nat
    with k by lia. exact Ha.
Qed.

End AddPlacement.

(** X17.  [add] puts a task sticky that comes without coordinates into the
    column its text determines, in the row after the elements that stood
    at that column before the call, with the column's colour unless it
    brings its own; the column [move_task] derives from that position is
    the column determined from the text.  The row does not depend on the
    sticky's place in the batch. *)
Theorem add_places_task_sticky_in_its_column :
  forall (freshId : nat -> string) (currentData : WhiteboardData) (els : list RawElement)
         (d : WhiteboardData) (k : nat) (e : RawElement),
    processWhiteboardToolCall freshId currentData (addCall els) = Normal d ->
    nth_error els k = Some e ->
    unplacedSticky e = true ->
    isSummary e = false ->
    exists a,
      nth_error (elements d) (List.length (elements currentData) + k) = Some a
      /\ type a = sticky
      /\ x a = kanbanColumns (columnForNew e)
      /\ y a = 180 + Z.of_nat (List.length (elementsInColumn currentData
                                              (kanbanColumns (columnForNew e)))) * 90
      /\ color a = Some (orString (rawColor e) (columnColor (columnForNew e)))
      /\ getCurrentColumn a = Some (columnForNew e).
Proof.
  intros freshId currentData els d k e H Hk Hu Hs.
  destruct (add_nth freshId currentData els d k e H Hk) as (a & Ha & Hv).
  destruct (placed_task_sticky freshId currentData k e a Hu Hs Hv) as (Ht & Hx & Hy & Hc).
  exists a. split; [exact Ha|]. split; [exact Ht|]. split; [exact Hx|].
  split; [exact Hy|]. split; [exact Hc|]. apply kanbanColumns_column, Hx.
Qed.

Lemma add_places_task_sticky_witness :
  exists a,
    nth_error (elements (mkData (elements doneBoard
                                 ++ [mkElement "element-1" sticky 820 270
                                               (Some "docs are finished"%string)
                                               (Some "green"%string) []])))
              (List.length (elements doneBoard) + 0) = Some a
    /\ type a = sticky
    /\ x a = kanbanColumns (columnForNew (rawNote "docs are finished"))
    /\ y a = 180 + Z.of_nat (List.length
                               (elementsInColumn doneBoard
                                  (kanbanColumns (columnForNew (rawNote "docs are finished")))))
                   * 90
    /\ color a = Some (orString (rawColor (rawNote "docs are finished"))
                                (columnColor (columnForNew (rawNote "docs are finished"))))
    /\ getCurrentColumn a = Some (columnForNew (rawNote "docs are finished")).
Proof.
  exact (add_places_task_sticky_in_its_column (fun _ : nat => "element-1"%string) doneBoard
           [rawNote "docs are finished"] _ 0%nat (rawNote "docs are finished")
           eq_refl eq_refl eq_refl eq_refl).
Defined.

(** X18.  Two task stickies without coordinates that one [add] call sends
    to the same column receive the same coordinates: the second is put on
    top of the first. *)
Theorem add_stacks_same_column_stickies :
  forall (freshId : nat -> string) (currentData : WhiteboardData) (els : list RawElement)
         (d : WhiteboardData) (k1 k2 : nat) (e1 e2 : RawElement),
    processWhiteboardToolCall freshId currentData (addCall els) = Normal d ->
    nth_error els k1 = Some e1 -> nth_error els k2 = Some e2 ->
    unplacedSticky e1 = true -> isSummary e1 = false ->
    unplacedSticky e2 = true -> isSummary e2 = false ->
    columnForNew e1 = columnForNew e2 ->
    exists a1 a2,
      nth_error (elements d) (List.length (elements currentData) + k1) = Some a1
      /\ nth_error (elements d) (List.length (elements currentData) + k2) = Some a2
      /\ x a1 = x a2 /\ y a1 = y a2.
Proof.
  intros freshId currentData els d k1 k2 e1 e2 H Hk1 Hk2 Hu1 Hs1 Hu2 Hs2 Hcol.
  destruct (add_nth freshId currentData els d k1 e1 H Hk1) as (a1 & Ha1 & Hv1).
  destruct (add_nth freshId currentData els d k2 e2 H Hk2) as (a2 & Ha2 & Hv2).
  destruct (placed_task_sticky freshId currentData k1 e1 a1 Hu1 Hs1 Hv1) as (_ & Hx1 & Hy1 & _).
  destruct (placed_task_sticky freshId currentData k2 e2 a2 Hu2 Hs2 Hv2) as (_ & Hx2 & Hy2 & _).
  exists a1, a2. split; [exact Ha1|]. split; [exact Ha2|].
  rewrite Hx1, Hx2, Hy1, Hy2, Hcol. split; reflexivity.
Qed.

Lemma add_stacks_witness :
  exists a1 a2,
    nth_error (elements (mkData (elements doneBoard
                                 ++ [mkElement "element-1" sticky 100 180
                                               (Some "write docs"%string)
                                               (Some "yellow"%string) [];
                                     mkElement "element-2" sticky 100 180
                                               (Some "fix login"%string)
                                               (Some "yellow"%string) []])))
              (List.length (elements doneBoard) + 0) = Some a1
    /\ nth_error (elements (mkData (elements doneBoard
                                    ++ [mkElement "element-1" sticky 100 180
                                                  (Some "write docs"%string)
                                                  (Some "yellow"%string) [];
                                        mkElement "element-2" sticky 100 180
                                                  (Some "fix login"%string)
                                                  (Some "yellow"%string) []])))
                 (List.length (elements doneBoard) + 1) = Some a2
    /\ x a1 = x a2 /\ y a1 = y a2.
Proof.
  exact (add_stacks_same_column_stickies
           (fun k : nat => if Nat.eqb k 0 then "element-1"%string else "element-2"%string)
           doneBoard [rawNote "write docs"; rawNote "fix login"] _ 0%nat 1%nat
           (rawNote "write docs") (rawNote "fix login")
           eq_refl eq_refl eq_refl eq_refl eq_refl eq_refl eq_refl eq_refl).
Defined.

(** X19.  [add] puts a summary sticky that comes without coordinates at
    (450, 650), blue unless it brings its own colour.  There it is no
    candidate of [move_task] (y is not below 650), yet its x lies in the
    In Progress range, so [get_whiteboard_info] reports it in that
    column. *)
Theorem add_places_summary_below_the_columns :
  forall (freshId : nat -> string) (currentData : WhiteboardData) (els : list RawElement)
         (d : WhiteboardData) (k : nat) (e : RawElement),
    processWhiteboardToolCall freshId currentData (addCall els) = Normal d ->
    nth_error els k = Some e ->
    unplacedSticky e = true ->
    isSummary e = true ->
    exists a,
      nth_error (elements d) (List.length (elements currentData) + k) = Some a
      /\ x a = 450 /\ y a = 650
      /\ color a = Some (orString (rawColor e) "blue")
      /\ isStickyTask a = false
      /\ isSticky a = true
      /\ infoColumn a = Some inprogress.
Proof.
  intros freshId currentData els d k e H Hk Hu Hs.
  destruct (add_nth freshId currentData els d k e H Hk) as (a & Ha & Hv).
  destruct (placed_summary freshId currentData k e a Hu Hs Hv) as (Ht & Hx & Hy & Hc).
  exists a. split; [exact Ha|]. split; [exact Hx|]. split; [exact Hy|]. split; [exact Hc|].
  unfold isStickyTask, isSticky, infoColumn, inColumn. rewrite Ht, Hx, Hy. repeat split.
Qed.

Lemma add_places_summary_witness :
  exists a,
    nth_error (elements (mkData (elements doneBoard
                                 ++ [mkElement "element-1" sticky 450 650
                                               (Some "Standup summary"%string)
                                               (Some "blue"%string) []])))
              (List.length (elements doneBoard) + 0) = Some a
    /\ x a = 450 /\ y a = 650
    /\ color a = Some (orString (rawColor (rawNote "Standup summary")) "blue")
    /\ isStickyTask a = false
    /\ isSticky a = true
    /\ infoColumn a = Some inprogress.
Proof.
  exact (add_places_summary_below_the_columns (fun _ : nat => "element-1"%string) doneBoard
           [rawNote "Standup summary"] _ 0%nat (rawNote "Standup summary")
           eq_refl eq_refl eq_refl eq_refl).
Defined.

(** X20.  [update] replaces, it does not merge: an element for which the
    batch holds an update takes the update's coordinates, and (100, 100)
    where the update names none; if the update is a sticky, it also takes
    the update's text and colour, and "New note" and "yellow" where the
    update names none.  Elements without an update stay as they are, and
    the number of elements does not change. *)
Theorem update_resets_missing_fields :
  forall (freshId : nat -> string) (currentData : WhiteboardData) (els : list RawElement)
         (d : WhiteboardData),
    processWhiteboardToolCall freshId currentData (updateCall els) = Normal d ->
    List.length (elements d) = List.length (elements currentData)
    /\ forall k existing,
         nth_error (elements currentData) k = Some existing ->
         match updateFor els existing with
         | None => nth_error (elements d) k = Some existing
         | Some u =>
             exists el,
               nth_error (elements d) k = Some el
               /\ x el = orNumber (rawX u) 100
               /\ y el = orNumber (rawY u) 100
               /\ (id existing <> EmptyString -> id el = id existing)
               /\ (hasType u "sticky" = true ->
                   type el = sticky
                   /\ text el = Some (orString (rawText u) "New note")
                   /\ color el = Some (orString (rawColor u) "yellow"))
         end.
Proof.
  intros freshId currentData els d H.
  change (processWhiteboardToolCall freshId currentData (updateCall els))
    with (match mapIndexed (fun index existing =>
                              match updateFor els existing with
                              | Some update =>
                                  match validateAndFixElement (freshId index) update with
                                  | Normal fixed => Normal (spread existing fixed)
                                  | Throw m => Throw m
                                  end
                              | None => Normal existing
                              end) 0 (elements currentData) with
          | Normal updated => Normal (mkData updated)
          | Throw m => Throw m
          end) in H.
  destruct (mapIndexed _ 0 (elements currentData)) as [updated|m] eqn:Hm; [|discriminate].
  injection H as <-. destruct (mapIndexed_nth _ _ _ _ Hm) as [Hlen Hnth].
  split; [exact Hlen|]. intros k existing Hk.
  destruct (Hnth k existing Hk) as (b & Hb & Hf). cbn [elements]. cbn [Nat.add] in Hf.
  destruct (updateFor els existing) as [u|] eqn:Hu.
  - destruct (validateAndFixElement_cases (freshId k) u)
      as [[_ (el & Hel & _ & Hid & Hx & Hy & Hsticky)]|[_ [m Hthrow]]];
      [|rewrite Hthrow in Hf; discriminate].
    rewrite Hel in Hf. injection Hf as <-.
    exists (spread existing el). split; [exact Hb|]. cbn [spread x y id type text color].
    split; [exact Hx|]. split; [exact Hy|]. split.
    + intro Hne. rewrite Hid. unfold updateFor in Hu. apply find_some in Hu.
      destruct Hu as [_ Hu]. destruct (rawId u) as [i|]; [|discriminate].
      apply String.eqb_eq in Hu. subst i. unfold orString.
      destruct (String.eqb_spec (id existing) EmptyString); [contradiction|reflexivity].
    + intro Hs. destruct (Hsticky Hs) as (Ht & Htext & Hcolor).
      rewrite Ht, Htext, Hcolor. repeat split.
  - injection Hf as <-. exact Hb.
Qed.

Lemma update_resets_witness :
  List.length (elements (mkData [mkElement "a" sticky 100 100 (Some "New note"%string)
                                           (Some "red"%string) []]))
  = List.length (elements doneBoard)
  /\ forall k existing,
       nth_error (elements doneBoard) k = Some existing ->
       match updateFor [recolour] existing with
       | None => nth_error (elements (mkData [mkElement "a" sticky 100 100
                                                        (Some "New note"%string)
                                                        (Some "red"%string) []])) k
                 = Some existing
       | Some u =>
           exists el,
             nth_error (elements (mkData [mkElement "a" sticky 100 100
                                                    (Some "New note"%string)
                                                    (Some "red"%string) []])) k = Some el
             /\ x el = orNumber (rawX u) 100
             /\ y el = orNumber (rawY u) 100
             /\ (id existing <> EmptyString -> id el = id existing)
             /\ (hasType u "sticky" = true ->
                 type el = sticky
                 /\ text el = Some (orString (rawText u) "New note")
                 /\ color el = Some (orString (rawColor u) "yellow"))
       end.
Proof.
  exact (update_resets_missing_fields (fun _ : nat => "element-1"%string) doneBoard
           [recolour] _ eq_refl).
Defined.

Section RemoveFacts.

Lemma existsb_eqb_In (s : string) (ids : list string) :
  existsb (String.eqb s) ids = true <-> In s ids.
Proof.
  rewrite existsb_exists. split.
  - intros (i & Hin & He). apply String.eqb_eq in He. subst i. exact Hin.
  - intro Hin. exists s. split; [exact Hin|apply String.eqb_refl].
Qed.

Lemma filter_filter_same {A : Type} (f : A -> bool) (l : list A) :
  filter f (filter f l) = filter f l.
Proof.
  induction l as [|a l IH]; [reflexivity|]. cbn [filter].
  destruct (f a) eqn:E; [cbn [filter]; rewrite E, IH; reflexivity|exact IH].
Qed.

Lemma filter_all {A : Type} (f : A -> bool) (l : list A) :
  (forall a, In a l -> f a = true) -> filter f l = l.
Proof.
  induction l as [|a l IH]; intro H; [reflexivity|]. cbn [filter].
  rewrite (H a (or_introl eq_refl)), IH; [reflexivity|].
  intros b Hb. apply H. right. exact Hb.
Qed.

End RemoveFacts.

(** X21.  [remove] never throws; it keeps exactly the elements whose
    identifier is not listed, in their order; removing the same
    identifiers again changes nothing; and a list naming no identifier of
    the board leaves the elements as they are. *)
Theorem remove_drops_exactly_the_listed_ids :
  forall (freshId : nat -> string) (currentData : WhiteboardData) (ids : list string),
    exists d,
      processWhiteboardToolCall freshId currentData (removeCall ids) = Normal d
      /\ (forall el, In el (elements d) <-> In el (elements currentData) /\ ~ In (id el) ids)
      /\ (List.length (elements d) <= List.length (elements currentData))%nat
      /\ processWhiteboardToolCall freshId d (removeCall ids) = Normal d
      /\ ((forall el, In el (elements currentData) -> ~ In (id el) ids) ->
          elements d = elements currentData).
Proof.
  intros freshId currentData ids.
  set (keep := fun element => negb (existsb (String.eqb (id element)) ids)).
  exists (mkData (filter keep (elements currentData))).
  split; [reflexivity|]. cbn [elements]. split; [|split; [|split]].
  - intro el. rewrite filter_In. unfold keep. rewrite negb_true_iff.
    split; intros [Hin Hk]; (split; [exact Hin|]).
    + intro Hi. apply existsb_eqb_In in Hi. congruence.
    + destruct (existsb (String.eqb (id el)) ids) eqn:E; [|reflexivity].
      exfalso. apply Hk, existsb_eqb_In, E.
  - apply filter_length_le.
  - change (processWhiteboardToolCall freshId (mkData (filter keep (elements currentData)))
              (removeCall ids))
      with (Normal (mkData (filter keep (filter keep (elements currentData))))
            : Completion WhiteboardData).
    rewrite filter_filter_same. reflexivity.
  - intro Hnone. apply filter_all. intros el Hin. unfold keep.
    destruct (existsb (String.eqb (id el)) ids) eqn:E; [|reflexivity].
    exfalso. apply (Hnone el Hin), existsb_eqb_In, E.
Qed.

(** ** determineKanbanColumn *)

Section KeywordFacts.

Local Open Scope string_scope.

Lemma string_app_assoc (a b c : string) : (a ++ b) ++ c = a ++ (b ++ c).
Proof. induction a as [|ch a IH]; cbn; [reflexivity|rewrite IH; reflexivity]. Qed.

Lemma prefix_app (sub s : string) :
  String.prefix sub s = true <-> exists b, s = sub ++ b.
Proof.
  revert s. induction sub as [|c sub IH]; intro s.
  - split; [intros _; exists s; reflexivity|intros _; destruct s; reflexivity].
  - destruct s as [|c' s]; [split; [discriminate|intros [b Hb]; discriminate]|].
    cbn [String.prefix append].
    destruct (Ascii.ascii_dec c c') as [->|Hne].
    + rewrite IH. split; intros [b Hb]; exists b; [rewrite Hb; reflexivity|].
      injection Hb as Hb. exact Hb.
    + split; [discriminate|]. intros [b Hb]. injection Hb as Hc _. congruence.
Qed.

Lemma includes_app (s sub : string) :
  JsString.includes s sub = true <-> exists a b, s = a ++ sub ++ b.
Proof.
  split.
  - induction s as [|c s IH]; cbn [JsString.includes]; intro H.
    + rewrite orb_false_r in H. apply prefix_app in H. destruct H as [b Hb].
      exists EmptyString, b. exact Hb.
    + apply orb_true_iff in H. destruct H as [H|H].
      * apply prefix_app in H. destruct H as [b Hb]. exists EmptyString, b. exact Hb.
      * destruct (IH H) as (a & b & ->). exists (String c a), b. reflexivity.
  - intros (a & b & ->). induction a as [|c a IH].
    + cbn [append]. assert (H : String.prefix sub (sub ++ b) = true)
        by (apply prefix_app; exists b; reflexivity).
      destruct (sub ++ b); cbn [JsString.includes]; rewrite H; reflexivity.
    + cbn [append JsString.includes]. rewrite IH. apply orb_true_r.
Qed.

Lemma toLowerCase_app (a b : string) :
  JsString.toLowerCase (a ++ b) = JsString.toLowerCase a ++ JsString.toLowerCase b.
Proof. induction a as [|c a IH]; cbn; [reflexivity|rewrite IH; reflexivity]. Qed.

(** A keyword found in the lower-cased text is found in every lower-cased
    text that contains it. *)
Lemma keyword_found_in_larger_text (t t' : string) (keywords : list string) :
  JsString.includes t' t = true ->
  existsb (JsString.includes (JsString.toLowerCase t)) keywords = true ->
  existsb (JsString.includes (JsString.toLowerCase t')) keywords = true.
Proof.
  intros Hin Hk. apply includes_app in Hin. destruct Hin as (a & b & ->).
  apply existsb_exists in Hk. destruct Hk as (kw & Hkw & Hfound).
  apply existsb_exists. exists kw. split; [exact Hkw|].
  apply includes_app in Hfound. destruct Hfound as (a0 & b0 & Ht).
  apply includes_app. rewrite !toLowerCase_app, Ht.
  exists (JsString.toLowerCase a ++ a0), (b0 ++ JsString.toLowerCase b).
  rewrite !string_app_assoc. reflexivity.
Qed.

End KeywordFacts.

(** X22.  Embedding a text in a longer one can only move its column
    forward: a text that contains a text classified as done is classified
    as done (done indicators take precedence over all others), and a text
    that contains a text classified as in progress is never classified as
    to do. *)
Theorem column_of_text_moves_forward_with_context :
  forall t t' : string,
    JsString.includes t' t = true ->
    (determineKanbanColumn t = done -> determineKanbanColumn t' = done)
    /\ (determineKanbanColumn t = inprogress -> determineKanbanColumn t' <> todo).
Proof.
  intros t t' Hin. unfold determineKanbanColumn. cbv zeta.
  pose proof (keyword_found_in_larger_text t t' doneIndicators Hin) as Hd.
  pose proof (keyword_found_in_larger_text t t' inProgressIndicators Hin) as Hp.
  destruct (existsb (JsString.includes (JsString.toLowerCase t)) doneIndicators).
  - rewrite (Hd eq_refl). split; [reflexivity|discriminate].
  - destruct (existsb (JsString.includes (JsString.toLowerCase t)) inProgressIndicators).
    + rewrite (Hp eq_refl). split; [discriminate|].
      intros _. destruct (existsb _ doneIndicators); discriminate.
    + split; discriminate.
Qed.

Lemma column_of_text_witness :
  (determineKanbanColumn "done" = done
   -> determineKanbanColumn "abandoned: still working on it" = done)
  /\ (determineKanbanColumn "done" = inprogress
      -> determineKanbanColumn "abandoned: still working on it" <> todo).
Proof.
  apply (column_of_text_moves_forward_with_context "done" "abandoned: still working on it").
  reflexivity.
Defined.

(** A move changes the snapshot: the winner's x is rewritten. *)
Lemma move_task_moves (currentData : WhiteboardData) (taskText : string)
    (targetColumn : KanbanColumn) (best : Candidate) :
  bestCandidate currentData taskText targetColumn = Some best ->
  currentColumn best <> Some targetColumn ->
  exists moved,
    moveTaskByText currentData taskText targetColumn = NewData moved
    /\ moved <> currentData.
Proof.
  intros Hb Hc. eexists. split; [apply (moveTaskByText_moved _ _ _ best Hb Hc)|].
  intro Heq. apply (f_equal elements) in Heq. cbn [elements] in Heq.
  destruct (bestCandidate_is_sticky_task _ _ _ best Hb) as [Hin _].
  apply In_nth_error in Hin. destruct Hin as [i Hi].
  apply (f_equal (fun l => nth_error l i)) in Heq.
  rewrite nth_error_updatedElements, Hi, String.eqb_refl in Heq.
  injection Heq as Heq. apply (f_equal x) in Heq. cbn [moveElement x] in Heq.
  apply Hc. pose proof (bestCandidate_first_max currentData taskText targetColumn) as H.
  rewrite Hb in H. destruct H as (_ & _ & _ & Hbest & _).
  rewrite Hbest. cbn [scoreCandidate currentColumn task].
  rewrite Hbest in Heq. cbn [scoreCandidate task] in Heq.
  apply kanbanColumns_column. symmetry. exact Heq.
Qed.

(** ** processToolCall on move_task *)

(** X23.  A well-formed [move_task] call never throws.  It returns no new
    data and the could-not-move failure exactly when no candidate scores
    above 20 or the winner already stands in the target column; otherwise
    it returns the new snapshot of [moveTaskByText] and reports success. *)
Theorem move_task_call_outcome :
  forall (isMCPAvailable : bool)
         (processJiraToolCall : WhiteboardData -> string -> ToolArgs -> Completion ToolResult)
         (processWhiteboardToolCall' : WhiteboardData -> ToolArgs -> Completion WhiteboardData)
         (currentData : WhiteboardData) (taskText reasoning : string)
         (targetColumn : KanbanColumn),
    let outcome := processToolCall isMCPAvailable processJiraToolCall
                     processWhiteboardToolCall' currentData "move_task"
                     (MoveTaskArgs taskText targetColumn reasoning) in
    match bestCandidate currentData taskText targetColumn with
    | None =>
        outcome = Normal (mkResult None (mkResponse false (CouldNotMove taskText targetColumn)))
    | Some best =>
        if column_eqb (currentColumn best) targetColumn
        then outcome
             = Normal (mkResult None (mkResponse false (CouldNotMove taskText targetColumn)))
        else exists moved reported,
            moveTaskByText currentData taskText targetColumn = NewData moved
            /\ outcome = Normal (mkResult (Some moved)
                                   (mkResponse true (MovedTask reported targetColumn)))
            /\ moved <> currentData
    end.
Proof.
  intros isMCP jira wb currentData taskText reasoning targetColumn outcome.
  assert (Ho : outcome
               = match moveTaskByText currentData taskText targetColumn with
                 | NewData moveResult =>
                     Normal (mkResult (Some moveResult)
                               (mkResponse true
                                  (MovedTask (actualTaskText moveResult taskText targetColumn)
                                             targetColumn)))
                 | SameData =>
                     Normal (mkResult None
                               (mkResponse false (CouldNotMove taskText targetColumn)))
                 end) by reflexivity.
  rewrite Ho. clear Ho outcome.
  destruct (bestCandidate currentData taskText targetColumn) as [best|] eqn:Hb.
  - destruct (column_eqb (currentColumn best) targetColumn) eqn:Hc.
    + apply column_eqb_spec in Hc. rewrite (moveTaskByText_same _ _ _ best Hb Hc).
      reflexivity.
    + assert (Hne : currentColumn best <> Some targetColumn).
      { intro H. apply column_eqb_true in H. congruence. }
      destruct (move_task_moves currentData taskText targetColumn best Hb Hne)
        as (moved & Hm & Hdiff).
      rewrite Hm. exists moved. eexists. split; [reflexivity|]. split; [reflexivity|exact Hdiff].
  - unfold moveTaskByText. rewrite Hb. reflexivity.
Qed.

(** X24.  [replace] discards the board: the new snapshot holds one
    validated element per element of the batch and nothing else, whatever
    the board was (an empty batch clears it); an element of the batch that
    comes without coordinates is put in the To Do column at the row of its
    position in the batch, x = 100 and y = 180 + 90 * position. *)
Theorem replace_discards_the_board :
  forall (freshId : nat -> string) (currentData other : WhiteboardData)
         (els : list RawElement) (d : WhiteboardData),
    processWhiteboardToolCall freshId currentData (replaceCall els) = Normal d ->
    processWhiteboardToolCall freshId other (replaceCall els) = Normal d
    /\ List.length (elements d) = List.length els
    /\ Forall (fun el => exists k, validated (freshId k) el) (elements d)
    /\ forall k e,
         nth_error els k = Some e ->
         missingNumber (rawX e) || missingNumber (rawY e) = true ->
         exists a, nth_error (elements d) k = Some a
                   /\ x a = 100 /\ y a = 180 + Z.of_nat k * 90.
Proof.
  intros freshId currentData other els d H. split; [exact H|].
  change (processWhiteboardToolCall freshId currentData (replaceCall els))
    with (match mapIndexed (fun index element =>
                              validateAndFixElement (freshId index)
                                (placeForReplace index element)) 0 els with
          | Normal valid => Normal (mkData valid)
          | Throw m => Throw m
          end) in H.
  destruct (mapIndexed _ 0 els) as [valid|m] eqn:Hm; [|discriminate].
  injection H as <-. cbn [elements].
  destruct (mapIndexed_nth _ _ _ _ Hm) as [Hlen Hnth].
  split; [exact Hlen|]. split.
  - apply Forall_forall. intros el Hin.
    destruct (mapIndexed_In _ _ _ _ _ Hm Hin) as (k & a & _ & Hk). exists k.
    destruct (validateAndFixElement_cases (freshId k) (placeForReplace k a))
      as [[_ (el' & Hel & Hv & _)]|[_ [m Hthrow]]]; [|congruence].
    rewrite Hk in Hel. injection Hel as <-. exact Hv.
  - intros k e Hk Hmiss. destruct (Hnth k e Hk) as (a & Ha & Hf). cbn [Nat.add] in Hf.
    exists a. split; [exact Ha|].
    destruct (validateAndFixElement_cases (freshId k) (placeForReplace k e))
      as [[_ (el' & Hel & _ & _ & Hx & Hy & _)]|[_ [m Hthrow]]]; [|congruence].
    rewrite Hf in Hel. injection Hel as <-.
    unfold placeForReplace in Hx, Hy. rewrite Hmiss in Hx, Hy.
    unfold generateElementPosition, startY, spacingY in Hx, Hy.
    cbn [fst snd withPosition rawX rawY kanbanColumns] in Hx, Hy.
    rewrite orNumber_some in Hx by discriminate. rewrite orNumber_some in Hy by lia.
    split; assumption.
Qed.

Lemma replace_discards_witness :
  processWhiteboardToolCall (fun _ : nat => "element-1"%string) frameBoard
    (replaceCall [rawNote "write docs"])
  = Normal (mkData [mkElement "element-1" sticky 100 180 (Some "write docs"%string)
                              (Some "yellow"%string) []])
  /\ List.length (elements (mkData [mkElement "element-1" sticky 100 180
                                             (Some "write docs"%string)
                                             (Some "yellow"%string) []]))
     = List.length [rawNote "write docs"]
  /\ Forall (fun el => exists k : nat, validated "element-1" el)
            (elements (mkData [mkElement "element-1" sticky 100 180
                                         (Some "write docs"%string)
                                         (Some "yellow"%string) []]))
  /\ forall k e,
       nth_error [rawNote "write docs"] k = Some e ->
       missingNumber (rawX e) || missingNumber (rawY e) = true ->
       exists a, nth_error (elements (mkData [mkElement "element-1" sticky 100 180
                                                        (Some "write docs"%string)
                                                        (Some "yellow"%string) []])) k
                 = Some a
                 /\ x a = 100 /\ y a = 180 + Z.of_nat k * 90.
Proof.
  exact (replace_discards_the_board (fun _ : nat => "element-1"%string) doneBoard frameBoard
           [rawNote "write docs"] _ eq_refl).
Defined.
